(** * data-refine-studio: the CSV tokenizer, the cleaning transforms and the
      pipeline runner, embedded from the TypeScript sources.

    The repository carries three revisions of [utils/csvUtils]:
    - [V1]: [src/utils/csvUtils.ts] (comma only, exact-match duplicates);
    - [V2]: the revision appended to [components/FileUpload.tsx]
      (normalised JSON signature, whole-row emptiness);
    - [V3]: the latest revision (delimiter detection, pipe-joined signature,
      first-column emptiness).
    The pipeline runner is [cleanData] of the [CleaningOptions] component; it
    reaches the transforms through the import [@/utils/csvUtils], so it is
    embedded over an interface that each revision instantiates.

    JavaScript strings are modelled as sequences of code units below 256
    (the Latin-1 part of UTF-16), one [ascii] per code unit. *)

From Stdlib Require Import Ascii String NArith.
From stdpp Require Import gmap strings list pretty.

(** ** JavaScript string primitives *)

Module JS.

(** [WhiteSpace] and [LineTerminator] code units below 256: TAB, LF, VT, FF,
    CR, SP and NBSP.  This is the set stripped by [String.prototype.trim] and
    skipped by the [Number] conversion. *)
Definition isWhiteSpace (c : ascii) : bool :=
  let n := N_of_ascii c in
  ((9 <=? n) && (n <=? 13) || (n =? 32) || (n =? 160))%N.

Fixpoint trimStart (s : string) : string :=
  match s with
  | EmptyString => EmptyString
  | String c s' => if isWhiteSpace c then trimStart s' else s
  end.

Fixpoint trimEnd (s : string) : string :=
  match s with
  | EmptyString => EmptyString
  | String c s' =>
      match trimEnd s' with
      | EmptyString => if isWhiteSpace c then EmptyString else String c EmptyString
      | t => String c t
      end
  end.

(** [s.trim()] *)
Definition trim (s : string) : string := trimEnd (trimStart s).

(** Simple case mapping of one code unit: A-Z and the Latin-1 capitals
    (U+00C0..U+00DE without the multiplication sign U+00D7). *)
Definition lowerChar (c : ascii) : ascii :=
  let n := N_of_ascii c in
  if ((65 <=? n) && (n <=? 90) || (192 <=? n) && (n <=? 222) && negb (n =? 215))%N
  then ascii_of_N (n + 32) else c.

(** [s.toLowerCase()] *)
Fixpoint toLowerCase (s : string) : string :=
  match s with
  | EmptyString => EmptyString
  | String c s' => String (lowerChar c) (toLowerCase s')
  end.

(** [s.includes(c)] for a one-unit needle *)
Fixpoint includes (c : ascii) (s : string) : bool :=
  match s with
  | EmptyString => false
  | String d s' => Ascii.eqb d c || includes c s'
  end.

(** Puts a code unit in front of the first piece of a split. *)
Definition consHead (c : ascii) (ps : list string) : list string :=
  match ps with
  | [] => [String c EmptyString]
  | p :: ps' => String c p :: ps'
  end.

(** [s.split(d)] for a one-unit separator: always at least one piece. *)
Fixpoint split (d : ascii) (s : string) : list string :=
  match s with
  | EmptyString => [EmptyString]
  | String c s' =>
      if Ascii.eqb c d then EmptyString :: split d s'
      else consHead c (split d s')
  end.

Definition LF : ascii := ascii_of_N 10.
Definition CR : ascii := ascii_of_N 13.

(** [s.split(/\r?\n/)]: a break is LF or CR immediately followed by LF; a
    lone CR stays in its line. *)
Fixpoint splitLines (s : string) : list string :=
  match s with
  | EmptyString => [EmptyString]
  | String c s' =>
      if Ascii.eqb c LF then EmptyString :: splitLines s'
      else if Ascii.eqb c CR then
        match s' with
        | String c' s'' =>
            if Ascii.eqb c' LF then EmptyString :: splitLines s''
            else consHead c (splitLines s')
        | EmptyString => consHead c (splitLines s')
        end
      else consHead c (splitLines s')
  end.

(** [a.join(sep)] on an array of strings *)
Fixpoint join (sep : string) (l : list string) : string :=
  match l with
  | [] => EmptyString
  | [x] => x
  | x :: l' => x +:+ sep +:+ join sep l'
  end.

(** *** [Number(s)] and [isNaN]

    [Number] applied to a string yields NaN exactly when the string is not a
    [StringNumericLiteral]; the recogniser below follows that grammar. *)

Definition isDigit (c : ascii) : bool :=
  let n := N_of_ascii c in ((48 <=? n) && (n <=? 57))%N.

Definition isHexDigit (c : ascii) : bool :=
  let n := N_of_ascii c in
  ((48 <=? n) && (n <=? 57) || (65 <=? n) && (n <=? 70) || (97 <=? n) && (n <=? 102))%N.

Definition isOctalDigit (c : ascii) : bool :=
  let n := N_of_ascii c in ((48 <=? n) && (n <=? 55))%N.

Definition isBinaryDigit (c : ascii) : bool :=
  let n := N_of_ascii c in ((48 <=? n) && (n <=? 49))%N.

Fixpoint allChars (p : ascii -> bool) (s : string) : bool :=
  match s with
  | EmptyString => true
  | String c s' => p c && allChars p s'
  end.

(** one or more characters, all satisfying [p] *)
Definition nonEmptyAll (p : ascii -> bool) (s : string) : bool :=
  match s with
  | EmptyString => false
  | String _ _ => allChars p s
  end.

Fixpoint dropDigits (s : string) : string :=
  match s with
  | EmptyString => EmptyString
  | String c s' => if isDigit c then dropDigits s' else s
  end.

(** the rest of the literal is empty or one [ExponentPart] *)
Definition exponentPartOpt (s : string) : bool :=
  match s with
  | EmptyString => true
  | String c s' =>
      (Ascii.eqb c "e" || Ascii.eqb c "E") &&
      match s' with
      | String g s'' =>
          if Ascii.eqb g "+" || Ascii.eqb g "-" then nonEmptyAll isDigit s''
          else nonEmptyAll isDigit s'
      | EmptyString => false
      end
  end.

Definition strUnsignedDecimalLiteral (s : string) : bool :=
  String.eqb s "Infinity" ||
  match s with
  | EmptyString => false
  | String c s' =>
      if Ascii.eqb c "." then
        match s' with
        | String d _ => isDigit d && exponentPartOpt (dropDigits s')
        | EmptyString => false
        end
      else if isDigit c then
        match dropDigits s' with
        | String p r => if Ascii.eqb p "." then exponentPartOpt (dropDigits r)
                        else exponentPartOpt (String p r)
        | EmptyString => true
        end
      else false
  end.

Definition strDecimalLiteral (s : string) : bool :=
  match s with
  | String c s' =>
      if Ascii.eqb c "+" || Ascii.eqb c "-" then strUnsignedDecimalLiteral s'
      else strUnsignedDecimalLiteral s
  | EmptyString => false
  end.

Definition nonDecimalIntegerLiteral (s : string) : bool :=
  match s with
  | String "0" (String k s') =>
      if Ascii.eqb k "b" || Ascii.eqb k "B" then nonEmptyAll isBinaryDigit s'
      else if Ascii.eqb k "o" || Ascii.eqb k "O" then nonEmptyAll isOctalDigit s'
      else if Ascii.eqb k "x" || Ascii.eqb k "X" then nonEmptyAll isHexDigit s'
      else false
  | _ => false
  end.

(** [isNaN(Number(s))] for a string [s]: blank converts to 0. *)
Definition isNaN_Number (s : string) : bool :=
  let t := trim s in
  negb (String.eqb t "" || strDecimalLiteral t || nonDecimalIntegerLiteral t).

End JS.

(** ** Cells, tables and thrown errors *)

(** A cell as the transforms may meet it at run time: the declared type is
    [string], and the later revisions guard against [null] and [undefined].
    Rows and tables are arrays; a [null] row is outside the model. *)
Inductive cell : Type :=
  | CNull
  | CUndefined
  | CStr (s : string).

#[global] Instance cell_eq_dec : EqDecision cell.
Proof. solve_decision. Defined.

Abbreviation row := (list cell).
Abbreviation table := (list (list cell)).

(** The table of a [string[][]] value. *)
Definition strs (t : list (list string)) : table := map (map CStr) t.

Inductive error : Type :=
  | TypeError (msg : string).

(** [String(error)] *)
Definition errorToString (e : error) : string :=
  match e with TypeError msg => "TypeError: " +:+ msg end.

Inductive result (A : Type) : Type :=
  | Ok (a : A)
  | Throw (e : error).
Arguments Ok {A} a.
Arguments Throw {A} e.

#[global] Instance result_ret : MRet result := fun A a => Ok a.
#[global] Instance result_bind : MBind result := fun A B f m =>
  match m with
  | Ok a => f a
  | Throw e => Throw e
  end.

(** [a.map(f)] with a callback that may throw: left to right, the first
    throw aborts the call. *)
Fixpoint mapM {A B : Type} (f : A -> result B) (l : list A) : result (list B) :=
  match l with
  | [] => Ok []
  | x :: l' => y ← f x; ys ← mapM f l'; Ok (y :: ys)
  end.

(** [a.filter(f)] with a callback that may throw. *)
Fixpoint filterM {A : Type} (f : A -> result bool) (l : list A) : result (list A) :=
  match l with
  | [] => Ok []
  | x :: l' => b ← f x; ys ← filterM f l'; Ok (if b : bool then x :: ys else ys)
  end.

(** [a.some(f)]: stops at the first element for which [f] is true. *)
Fixpoint someM {A : Type} (f : A -> result bool) (l : list A) : result bool :=
  match l with
  | [] => Ok false
  | x :: l' => b ← f x; if b : bool then Ok true else someM f l'
  end.

(** [a.map(f)] where the callback also updates a captured counter. *)
Fixpoint mapAccM {A B S : Type} (f : A -> S -> result (B * S)) (l : list A) (s : S)
  : result (list B * S) :=
  match l with
  | [] => Ok ([], s)
  | x :: l' => '(y, s1) ← f x s; '(ys, s2) ← mapAccM f l' s1; Ok (y :: ys, s2)
  end.

(** The same without throwing callbacks. *)
Fixpoint mapAcc {A B S : Type} (f : A -> S -> B * S) (l : list A) (s : S) : list B * S :=
  match l with
  | [] => ([], s)
  | x :: l' =>
      let '(y, s1) := f x s in
      let '(ys, s2) := mapAcc f l' s1 in
      (y :: ys, s2)
  end.

(** [cell.trim()]: a property read on [null] or [undefined] throws. *)
Definition cellTrim (c : cell) : result string :=
  match c with
  | CStr s => Ok (JS.trim s)
  | CNull => Throw (TypeError "Cannot read properties of null (reading 'trim')")
  | CUndefined => Throw (TypeError "Cannot read properties of undefined (reading 'trim')")
  end.

(** [cell.toLowerCase()] *)
Definition cellToLowerCase (c : cell) : result cell :=
  match c with
  | CStr s => Ok (CStr (JS.toLowerCase s))
  | CNull => Throw (TypeError "Cannot read properties of null (reading 'toLowerCase')")
  | CUndefined => Throw (TypeError "Cannot read properties of undefined (reading 'toLowerCase')")
  end.

(** [cell || ''] *)
Definition orEmpty (c : cell) : string :=
  match c with
  | CStr s => s
  | CNull | CUndefined => ""
  end.

(** [!cell]: [null], [undefined] and the empty string are falsy. *)
Definition falsy (c : cell) : bool :=
  match c with
  | CStr s => String.eqb s ""
  | CNull | CUndefined => true
  end.

(** [isNaN(Number(cell))]: [Number(null)] is 0, [Number(undefined)] is NaN. *)
Definition cellIsNaN (c : cell) : bool :=
  match c with
  | CStr s => JS.isNaN_Number s
  | CNull => false
  | CUndefined => true
  end.

(** [cell !== ''] *)
Definition cellNotEmptyString (c : cell) : bool :=
  match c with
  | CStr s => negb (String.eqb s "")
  | CNull | CUndefined => true
  end.

(** What [parseCSV] returns. *)
Record parsed : Type := { data : table; headers : list string }.

(** What a counting transform returns: [{ data, count }]. *)
Abbreviation counted := (list (list cell) * nat)%type.

(** *** [JSON.stringify] on an array of cells *)

Module Json.

Definition DQUOTE : ascii := ascii_of_N 34.
Definition BACKSLASH : ascii := ascii_of_N 92.

Definition hexDigit (n : N) : ascii :=
  if (n <? 10)%N then ascii_of_N (48 + n) else ascii_of_N (87 + n).

(** One code unit inside a JSON string literal. *)
Definition quoteChar (c : ascii) : string :=
  let n := N_of_ascii c in
  if (n =? 8)%N then "\b"
  else if (n =? 9)%N then "\t"
  else if (n =? 10)%N then "\n"
  else if (n =? 12)%N then "\f"
  else if (n =? 13)%N then "\r"
  else if (n =? 34)%N then String BACKSLASH (String DQUOTE "")
  else if (n =? 92)%N then String BACKSLASH (String BACKSLASH "")
  else if (n <? 32)%N then "\u00" +:+ String (hexDigit (n / 16)) (String (hexDigit (n mod 16)) "")
  else String c "".

Fixpoint quoteBody (s : string) : string :=
  match s with
  | EmptyString => EmptyString
  | String c s' => quoteChar c +:+ quoteBody s'
  end.

Definition quote (s : string) : string :=
  String DQUOTE (quoteBody s +:+ String DQUOTE "").

(** An array element: [null] and [undefined] both print as [null]. *)
Definition element (c : cell) : string :=
  match c with
  | CStr s => quote s
  | CNull | CUndefined => "null"
  end.

Definition stringify (r : row) : string :=
  "[" +:+ JS.join "," (map element r) +:+ "]".

End Json.

(** [standardizeCase] has the same text in all three revisions. *)
Module Common.

Definition standardizeCell (c : cell) : result cell :=
  if cellIsNaN c && cellNotEmptyString c then cellToLowerCase c else Ok c.

Definition standardizeCase (d : table) (hs : list string) : result table :=
  mapM (fun r => mapM standardizeCell r) d.

End Common.

(** ** Revision 1: [src/utils/csvUtils.ts] *)

Module V1.

Definition parseLine (line : string) : row :=
  map (fun c => CStr (JS.trim c)) (JS.split "," line).

Definition parseCSV (csvContent : string) : parsed :=
  let lines := filter (fun line => JS.trim line <> "") (JS.splitLines csvContent) in
  match lines with
  | [] => {| data := []; headers := [] |}
  | l0 :: rest =>
      {| data := map parseLine rest;
         headers := map JS.trim (JS.split "," l0) |}
  end.

(** The [filter] callback with its captured [Set]. *)
Fixpoint uniqueRows (seen : gset string) (d : table) : table :=
  match d with
  | [] => []
  | r :: d' =>
      let rowStr := Json.stringify r in
      if decide (rowStr ∈ seen) then uniqueRows seen d'
      else r :: uniqueRows ({[rowStr]} ∪ seen) d'
  end.

Definition removeDuplicates (d : table) : counted :=
  let uniqueData := uniqueRows ∅ d in
  (uniqueData, length d - length uniqueData).

Definition trimCell (c : cell) (cellsFixed : nat) : result (cell * nat) :=
  trimmed ← cellTrim c;
  Ok (CStr trimmed, if decide (CStr trimmed = c) then cellsFixed else S cellsFixed).

Definition trimWhitespace (d : table) : result counted :=
  mapAccM (fun r => mapAccM trimCell r) d 0.

Definition rowHasContent (r : row) : result bool :=
  someM (fun c => t ← cellTrim c; Ok (bool_decide (t <> ""))) r.

Definition removeEmptyRows (d : table) : result counted :=
  filteredData ← filterM rowHasContent d;
  Ok (filteredData, length d - length filteredData).

Definition standardizeCase := Common.standardizeCase.

End V1.

(** ** Revision 2: the copy appended to [components/FileUpload.tsx] *)

Module V2.

Definition parseCSV := V1.parseCSV.

Definition rowSignature (r : row) : result string :=
  normalizedRow ← mapM (fun c => t ← cellTrim c; Ok (CStr (JS.toLowerCase t))) r;
  Ok (Json.stringify normalizedRow).

Record loopState : Type :=
  { seen : gset string; uniqueData : table; duplicatesCount : nat }.

Definition step (st : loopState) (r : row) : result loopState :=
  sig ← rowSignature r;
  Ok (if decide (sig ∈ seen st)
      then {| seen := seen st; uniqueData := uniqueData st;
              duplicatesCount := S (duplicatesCount st) |}
      else {| seen := {[sig]} ∪ seen st; uniqueData := uniqueData st ++ [r];
              duplicatesCount := duplicatesCount st |}).

Fixpoint loop (d : table) (st : loopState) : result loopState :=
  match d with
  | [] => Ok st
  | r :: d' => st' ← step st r; loop d' st'
  end.

Definition removeDuplicates (d : table) : result counted :=
  st ← loop d {| seen := ∅; uniqueData := []; duplicatesCount := 0 |};
  Ok (uniqueData st, duplicatesCount st).

Definition trimCell (c : cell) (cellsFixed : nat) : cell * nat :=
  if falsy c then (c, cellsFixed)
  else
    match c with
    | CStr s =>
        let trimmed := JS.trim s in
        (CStr trimmed, if decide (trimmed = s) then cellsFixed else S cellsFixed)
    | CNull | CUndefined => (c, cellsFixed)
    end.

Definition trimWhitespace (d : table) : counted :=
  mapAcc (fun r => mapAcc trimCell r) d 0.

Definition rowHasContent (r : row) : bool :=
  existsb (fun c => bool_decide (JS.trim (orEmpty c) <> "")) r.

Definition removeEmptyRows (d : table) : counted :=
  let originalLength := length d in
  let filteredData := filter (fun r => rowHasContent r = true) d in
  (filteredData, originalLength - length filteredData).

Definition standardizeCase := Common.standardizeCase.

End V2.

(** ** Revision 3: delimiter detection, pipe signature, name-column policy *)

Module V3.

Definition SEMICOLON : ascii := ";".
Definition COMMA : ascii := ",".

(** [csvContent.split(/\r?\n/)[0] || ''] *)
Definition firstLine (csvContent : string) : string :=
  match JS.splitLines csvContent with
  | l :: _ => l
  | [] => ""
  end.

Definition detectDelimiter (csvContent : string) : ascii :=
  if JS.includes SEMICOLON (firstLine csvContent) then SEMICOLON else COMMA.

Definition parseLine (delimiter : ascii) (line : string) : row :=
  map (fun c => CStr (JS.trim c)) (JS.split delimiter line).

Definition parseCSV (csvContent : string) : parsed :=
  let delimiter := detectDelimiter csvContent in
  let lines := filter (fun line => JS.trim line <> "") (JS.splitLines csvContent) in
  match lines with
  | [] => {| data := []; headers := [] |}
  | l0 :: rest =>
      {| data := map (parseLine delimiter) rest;
         headers := map JS.trim (JS.split delimiter l0) |}
  end.

(** [row.map(cell => (cell || '').trim().toLowerCase()).join('|')] *)
Definition normalizedKey (r : row) : string :=
  JS.join "|" (map (fun c => JS.toLowerCase (JS.trim (orEmpty c))) r).

Record loopState : Type :=
  { signatures : gmap string nat; uniqueData : table; duplicatesCount : nat }.

(** The body of the [for] loop at index [i]. *)
Definition step (st : loopState) (i : nat) (r : row) : loopState :=
  let key := normalizedKey r in
  match signatures st !! key with
  | None =>
      {| signatures := <[key := i]> (signatures st);
         uniqueData := uniqueData st ++ [r];
         duplicatesCount := duplicatesCount st |}
  | Some _ =>
      {| signatures := signatures st;
         uniqueData := uniqueData st;
         duplicatesCount := S (duplicatesCount st) |}
  end.

(** [for (let i = ...; i < data.length; i++)] over the rows from index [i]. *)
Fixpoint loop (i : nat) (d : table) (st : loopState) : loopState :=
  match d with
  | [] => st
  | r :: d' => loop (S i) d' (step st i r)
  end.

Definition init : loopState :=
  {| signatures := ∅; uniqueData := []; duplicatesCount := 0 |}.

Definition removeDuplicates (d : table) : counted :=
  let st := loop 0 d init in
  (uniqueData st, duplicatesCount st).

Definition trimCell := V2.trimCell.
Definition trimWhitespace := V2.trimWhitespace.

(** [row[0] || ''] *)
Definition nameColumn (r : row) : string :=
  match r with
  | c :: _ => orEmpty c
  | [] => ""
  end.

Definition removeEmptyRows (d : table) : counted :=
  let originalLength := length d in
  let filteredData := filter (fun r => JS.trim (nameColumn r) <> "") d in
  (filteredData, originalLength - length filteredData).

Definition standardizeCase := Common.standardizeCase.

End V3.

(** ** The transform interface behind [@/utils/csvUtils] *)

Record CsvUtils : Type :=
  { removeEmptyRows : table -> result counted;
    removeDuplicates : table -> result counted;
    trimWhitespace : table -> result counted;
    standardizeCase : table -> list string -> result table }.

Definition utilsV1 : CsvUtils :=
  {| removeEmptyRows := V1.removeEmptyRows;
     removeDuplicates := fun d => Ok (V1.removeDuplicates d);
     trimWhitespace := V1.trimWhitespace;
     standardizeCase := V1.standardizeCase |}.

Definition utilsV2 : CsvUtils :=
  {| removeEmptyRows := fun d => Ok (V2.removeEmptyRows d);
     removeDuplicates := V2.removeDuplicates;
     trimWhitespace := fun d => Ok (V2.trimWhitespace d);
     standardizeCase := V2.standardizeCase |}.

Definition utilsV3 : CsvUtils :=
  {| removeEmptyRows := fun d => Ok (V3.removeEmptyRows d);
     removeDuplicates := fun d => Ok (V3.removeDuplicates d);
     trimWhitespace := fun d => Ok (V3.trimWhitespace d);
     standardizeCase := V3.standardizeCase |}.

(** ** The pipeline runner: [CleaningOptions.cleanData] and its host page *)

Module Options.

Record t : Type :=
  { removeDuplicates : bool;
    trimWhitespace : bool;
    standardizeCase : bool;
    removeEmptyRows : bool }.

(** The initial [useState] value. *)
Definition default : t :=
  {| removeDuplicates := true; trimWhitespace := true;
     standardizeCase := false; removeEmptyRows := true |}.

Inductive key : Type :=
  | RemoveDuplicates | TrimWhitespace | StandardizeCase | RemoveEmptyRows.

(** [toggleOption]: [{ ...options, [option]: !options[option] }] *)
Definition toggleOption (k : key) (o : t) : t :=
  match k with
  | RemoveDuplicates =>
      {| removeDuplicates := negb (removeDuplicates o); trimWhitespace := trimWhitespace o;
         standardizeCase := standardizeCase o; removeEmptyRows := removeEmptyRows o |}
  | TrimWhitespace =>
      {| removeDuplicates := removeDuplicates o; trimWhitespace := negb (trimWhitespace o);
         standardizeCase := standardizeCase o; removeEmptyRows := removeEmptyRows o |}
  | StandardizeCase =>
      {| removeDuplicates := removeDuplicates o; trimWhitespace := trimWhitespace o;
         standardizeCase := negb (standardizeCase o); removeEmptyRows := removeEmptyRows o |}
  | RemoveEmptyRows =>
      {| removeDuplicates := removeDuplicates o; trimWhitespace := trimWhitespace o;
         standardizeCase := standardizeCase o; removeEmptyRows := negb (removeEmptyRows o) |}
  end.

End Options.

Record stats : Type :=
  { duplicatesRemoved : nat;
    whitespaceFixed : nat;
    emptyRowsRemoved : nat }.

Record toast : Type :=
  { title : string; description : string; destructive : bool }.

(** The state the two components hold between them, and the toasts shown. *)
Record app : Type :=
  { csvData : table;
    originalData : table;
    appHeaders : list string;
    options : Options.t;
    isProcessing : bool;
    appStats : option stats;
    toasts : list toast }.

Section Runner.

Variable U : CsvUtils.

(** The body of the [try] block up to, and without, the two publishing
    calls: the local [cleanedData] and [statsCopy] after the four guarded
    steps, or the error thrown on the way. *)
Definition runTransforms (o : Options.t) (d : table) (hs : list string)
  : result (table * stats) :=
  let cleanedData := d in
  let statsCopy := {| duplicatesRemoved := 0; whitespaceFixed := 0; emptyRowsRemoved := 0 |} in
  '(cleanedData, statsCopy) ←
    (if Options.removeEmptyRows o then
       '(noEmptyRows, count) ← removeEmptyRows U cleanedData;
       Ok (noEmptyRows,
           {| duplicatesRemoved := duplicatesRemoved statsCopy;
              whitespaceFixed := whitespaceFixed statsCopy;
              emptyRowsRemoved := count |})
     else Ok (cleanedData, statsCopy));
  '(cleanedData, statsCopy) ←
    (if Options.removeDuplicates o then
       '(noDuplicates, count) ← removeDuplicates U cleanedData;
       Ok (noDuplicates,
           {| duplicatesRemoved := count;
              whitespaceFixed := whitespaceFixed statsCopy;
              emptyRowsRemoved := emptyRowsRemoved statsCopy |})
     else Ok (cleanedData, statsCopy));
  '(cleanedData, statsCopy) ←
    (if Options.trimWhitespace o then
       '(trimmed, count) ← trimWhitespace U cleanedData;
       Ok (trimmed,
           {| duplicatesRemoved := duplicatesRemoved statsCopy;
              whitespaceFixed := count;
              emptyRowsRemoved := emptyRowsRemoved statsCopy |})
     else Ok (cleanedData, statsCopy));
  cleanedData ←
    (if Options.standardizeCase o then standardizeCase U cleanedData hs
     else Ok cleanedData);
  Ok (cleanedData, statsCopy).

Definition pushToast (t : toast) (a : app) : app :=
  {| csvData := csvData a; originalData := originalData a; appHeaders := appHeaders a;
     options := options a; isProcessing := isProcessing a; appStats := appStats a;
     toasts := toasts a ++ [t] |}.

Definition setIsProcessing (b : bool) (a : app) : app :=
  {| csvData := csvData a; originalData := originalData a; appHeaders := appHeaders a;
     options := options a; isProcessing := b; appStats := appStats a;
     toasts := toasts a |}.

Definition setStats (st : stats) (a : app) : app :=
  {| csvData := csvData a; originalData := originalData a; appHeaders := appHeaders a;
     options := options a; isProcessing := isProcessing a; appStats := Some st;
     toasts := toasts a |}.

Definition setCsvData (d : table) (a : app) : app :=
  {| csvData := d; originalData := originalData a; appHeaders := appHeaders a;
     options := options a; isProcessing := isProcessing a; appStats := appStats a;
     toasts := toasts a |}.

(** [Index.handleDataCleaned], passed as [onDataCleaned]. *)
Definition handleDataCleaned (cleanedData : table) (a : app) : app :=
  pushToast {| title := "Data cleaned successfully";
               description := pretty (length cleanedData) +:+ " rows after cleaning";
               destructive := false |}
            (setCsvData cleanedData a).

(** The timer callback: [try] / [catch] / [finally].  [d], [hs] and [o] are
    the values [cleanData] captured. *)
Definition timerCallback (o : Options.t) (d : table) (hs : list string) (a : app) : app :=
  let a' :=
    match runTransforms o d hs with
    | Ok (cleanedData, statsCopy) =>
        pushToast
          {| title := "Data cleaning complete";
             description := pretty (duplicatesRemoved statsCopy) +:+ " duplicates and " +:+
                            pretty (emptyRowsRemoved statsCopy) +:+ " empty rows removed";
             destructive := false |}
          (handleDataCleaned cleanedData (setStats statsCopy a))
    | Throw e =>
        pushToast
          {| title := "Error cleaning data";
             description := errorToString e;
             destructive := true |}
          a
    end in
  setIsProcessing false a'.

(** [cleanData] followed by its timer callback.  The component receives
    [data = originalData] and [headers] from the page. *)
Definition cleanData (a : app) : app :=
  let d := originalData a in
  if bool_decide (length d = 0) then a
  else timerCallback (options a) d (appHeaders a) (setIsProcessing true a).

End Runner.

(** [Index.handleFileUploaded] on the result of [parseCSV]: a session on the
    parsed table. *)
Definition handleFileUploaded (p : parsed) (name : string) (a : app) : app :=
  {| csvData := data p; originalData := data p; appHeaders := headers p;
     options := options a; isProcessing := isProcessing a; appStats := appStats a;
     toasts := toasts a ++
       [{| title := "File uploaded successfully";
           description := name +:+ " with " +:+ pretty (length (data p)) +:+ " rows and " +:+
                          pretty (length (headers p)) +:+ " columns";
           destructive := false |}] |}.

(** The page before any upload, with the given switches. *)
Definition initial (o : Options.t) : app :=
  {| csvData := []; originalData := []; appHeaders := [];
     options := o; isProcessing := false; appStats := None; toasts := [] |}.

(** ** Specification-side vocabulary *)

(** Row [r] has the signature of a row of [pre]. *)
Definition duplicateOf (pre : table) (r : row) : bool :=
  bool_decide (V3.normalizedKey r ∈ map V3.normalizedKey pre).

(** [keepMask d] is true at index [i] when no row before [i] has the
    signature of row [i]. *)
Definition keepMask (d : table) : list bool :=
  imap (fun i r => negb (duplicateOf (take i d) r)) d.

(** The rows of [d] at the indices where [m] is true, in order. *)
Definition select {A : Type} (m : list bool) (d : list A) : list A :=
  (filter (fun p => p.1 = true) (zip m d)).*2.

(** A line that [parseCSV] discards. *)
Definition blank (line : string) : Prop := JS.trim line = "".

(** The lines [parseCSV] keeps. *)
Definition nonBlankLines (text : string) : list string :=
  filter (fun line => JS.trim line <> "") (JS.splitLines text).

Definition emptyParse : parsed := {| data := []; headers := [] |}.

Definition nl : string := String JS.LF "".
Definition crlf : string := String JS.CR (String JS.LF "").

#[global] Instance blank_dec (line : string) : Decision (blank line).
Proof. unfold blank. apply _. Defined.

(** Policy (a): every cell of the row is empty after trimming. *)
Definition rowEmpty (r : list string) : Prop := Forall blank r.

#[global] Instance rowEmpty_dec (r : list string) : Decision (rowEmpty r).
Proof. unfold rowEmpty. apply _. Defined.

(** A cell after [trimWhitespace]: strings are trimmed, [null] and
    [undefined] stay. *)
Definition cellTrimmed (c : cell) : cell :=
  match c with
  | CStr s => CStr (JS.trim s)
  | CNull => CNull
  | CUndefined => CUndefined
  end.

(** The cell is a string that trimming changes. *)
Definition cellChanged (c : cell) : bool :=
  match c with
  | CStr s => negb (String.eqb (JS.trim s) s)
  | CNull | CUndefined => false
  end.

(** A string cell after [standardizeCase]. *)
Definition caseStandardized (s : string) : string :=
  if JS.isNaN_Number s && negb (String.eqb s "") then JS.toLowerCase s else s.

(** The four transforms as pipeline stages, and the order the runner uses. *)
Inductive stage : Type :=
  | SRemoveEmptyRows | SRemoveDuplicates | STrimWhitespace | SStandardizeCase.

Definition fixedOrder : list stage :=
  [SRemoveEmptyRows; SRemoveDuplicates; STrimWhitespace; SStandardizeCase].

Definition enabled (o : Options.t) (s : stage) : bool :=
  match s with
  | SRemoveEmptyRows => Options.removeEmptyRows o
  | SRemoveDuplicates => Options.removeDuplicates o
  | STrimWhitespace => Options.trimWhitespace o
  | SStandardizeCase => Options.standardizeCase o
  end.

Definition zeroStats : stats :=
  {| duplicatesRemoved := 0; whitespaceFixed := 0; emptyRowsRemoved := 0 |}.

(** One stage applied to the running table, its count stored in its own
    statistic. *)
Definition runStage (U : CsvUtils) (hs : list string) (s : stage) (acc : table * stats)
  : result (table * stats) :=
  match s with
  | SRemoveEmptyRows =>
      '(d', n) ← removeEmptyRows U acc.1;
      Ok (d', {| duplicatesRemoved := duplicatesRemoved acc.2;
                 whitespaceFixed := whitespaceFixed acc.2;
                 emptyRowsRemoved := n |})
  | SRemoveDuplicates =>
      '(d', n) ← removeDuplicates U acc.1;
      Ok (d', {| duplicatesRemoved := n;
                 whitespaceFixed := whitespaceFixed acc.2;
                 emptyRowsRemoved := emptyRowsRemoved acc.2 |})
  | STrimWhitespace =>
      '(d', n) ← trimWhitespace U acc.1;
      Ok (d', {| duplicatesRemoved := duplicatesRemoved acc.2;
                 whitespaceFixed := n;
                 emptyRowsRemoved := emptyRowsRemoved acc.2 |})
  | SStandardizeCase =>
      d' ← standardizeCase U acc.1 hs;
      Ok (d', acc.2)
  end.

(** The listed stages, left to right; the first throw ends the run. *)
Fixpoint runStages (U : CsvUtils) (hs : list string) (l : list stage) (acc : table * stats)
  : result (table * stats) :=
  match l with
  | [] => Ok acc
  | s :: l' => acc' ← runStage U hs s acc; runStages U hs l' acc'
  end.

(** The switches after a series of clicks, the last click first in [ks]. *)
Definition toggled (ks : list Options.key) (o : Options.t) : Options.t :=
  foldr Options.toggleOption o ks.

Definition allOn : Options.t :=
  {| Options.removeDuplicates := true; Options.trimWhitespace := true;
     Options.standardizeCase := true; Options.removeEmptyRows := true |}.

(** The text of the end-to-end sample. *)
Definition sampleText : string :=
  "Name,City" +:+ nl +:+ "Alice, NYC" +:+ nl +:+ "Alice,NYC" +:+ nl +:+ ", " +:+ nl.

(** The toast of the [catch] branch. *)
Definition errorToast (e : error) : toast :=
  {| title := "Error cleaning data"; description := errorToString e; destructive := true |}.

(** Upload of [text] on a fresh page, then one click on Apply Cleaning. *)
Definition endToEnd (parse : string -> parsed) (U : CsvUtils) (text : string)
    (o : Options.t) : app :=
  cleanData U (handleFileUploaded (parse text) "sample.csv" (initial o)).

(** A session whose original table holds a [null] cell. *)
Definition failingSession : app :=
  {| csvData := strs [["kept"; "as is"]];
     originalData := [[CStr " "; CNull]];
     appHeaders := ["Name"; "City"];
     options := Options.default;
     isProcessing := false;
     appStats := Some {| duplicatesRemoved := 3; whitespaceFixed := 2; emptyRowsRemoved := 1 |};
     toasts := [] |}.

(** The number of cells of each row. *)
Definition shape (d : table) : list nat := map length d.

Definition isString (c : cell) : Prop :=
  match c with CStr _ => True | CNull | CUndefined => False end.

Definition countFalse (m : list bool) : nat :=
  length (filter (fun b => b = false) m).

(** ** The exporter, the download handler, the upload guard and the preview *)

(** String methods the remaining code uses. *)
Module JSStr.

Fixpoint drop (n : nat) (s : string) : string :=
  match n, s with
  | 0, _ => s
  | S n', String _ s' => drop n' s'
  | S _, EmptyString => EmptyString
  end.

(** [s.includes(needle)] *)
Fixpoint includes (needle s : string) : bool :=
  String.prefix needle s ||
  match s with
  | EmptyString => false
  | String _ s' => includes needle s'
  end.

(** [s.endsWith(suffix)] *)
Fixpoint endsWith (suffix s : string) : bool :=
  String.eqb s suffix ||
  match s with
  | EmptyString => false
  | String _ s' => endsWith suffix s'
  end.

(** [s.replace(pattern, replacement)] for a string pattern and a replacement
    without dollar patterns: the first occurrence only. *)
Fixpoint replace (pattern replacement s : string) : string :=
  if String.prefix pattern s then replacement +:+ drop (String.length pattern) s
  else
    match s with
    | EmptyString => EmptyString
    | String c s' => String c (replace pattern replacement s')
    end.

End JSStr.

(** [row.join(delimiter)]: [null] and [undefined] elements print as the
    empty string. *)
Definition joinRow (delimiter : string) (r : row) : string :=
  JS.join delimiter (map orEmpty r).

(** The text [downloadCleanedCSV] puts in the blob. *)
Module Download.

Definition csvContent (delimiter : string) (hs : list string) (d : table) : string :=
  JS.join nl (JS.join delimiter hs :: map (joinRow delimiter) d).

(** Revisions 1 and 2 *)
Definition csvContentV1 (d : table) (hs : list string) (fileName : string) : string :=
  csvContent "," hs d.

(** Revision 3: the delimiter is read off the file name. *)
Definition delimiterV3 (fileName : string) : string :=
  if JSStr.includes "semicolon" fileName then ";" else ",".

Definition csvContentV3 (d : table) (hs : list string) (fileName : string) : string :=
  csvContent (delimiterV3 fileName) hs d.

End Download.

(** [Index.handleDownload]: the name and the content handed to the browser,
    or nothing when the guard fails. *)
Definition cleanedFileName (fileName : string) : string :=
  JSStr.replace ".csv" "-cleaned.csv" fileName.

Definition handleDownload (content : table -> list string -> string -> string)
    (csvData : table) (hs : list string) (fileName : string) : option (string * string) :=
  if bool_decide (0 < length csvData) && bool_decide (0 < length hs)
  then Some (cleanedFileName fileName, content csvData hs (cleanedFileName fileName))
  else None.

(** The guard of [FileUpload.processFile]. *)
Definition acceptsFile (name : string) : bool :=
  JSStr.endsWith ".csv" (JS.toLowerCase name).

(** [DataTable]: search filter and preview window. *)
Module DataTable.

Definition MAX_ROWS : nat := 100.

Definition cellMatches (searchTerm : string) (c : cell) : result bool :=
  match c with
  | CStr s => Ok (JSStr.includes (JS.toLowerCase searchTerm) (JS.toLowerCase s))
  | CNull => Throw (TypeError "Cannot read properties of null (reading 'toLowerCase')")
  | CUndefined => Throw (TypeError "Cannot read properties of undefined (reading 'toLowerCase')")
  end.

Definition filteredData (d : table) (searchTerm : string) : result table :=
  filterM (fun r => someM (cellMatches searchTerm) r) d.

Definition displayData (filtered : table) : table := take MAX_ROWS filtered.

Definition hasMoreRows (filtered : table) : bool :=
  bool_decide (MAX_ROWS < length filtered).

End DataTable.

(** [parseCSV] with the delimiter as a parameter: revision 1 at the comma,
    revision 3 at the detected delimiter. *)
Definition parseWith (delimiter : ascii) (text : string) : parsed :=
  match nonBlankLines text with
  | [] => emptyParse
  | l0 :: rest =>
      {| data := map (V3.parseLine delimiter) rest;
         headers := map JS.trim (JS.split delimiter l0) |}
  end.

(** Every cell of the table is a string. *)
Definition allStrings (d : table) : Prop := Forall (Forall isString) d.

(** A cell as the tokenizer produces it: a string that trimming leaves
    alone. *)
Definition tidyCell (c : cell) : Prop := isString c /\ cellChanged c = false.

Definition tidy (d : table) : Prop := Forall (Forall tidyCell) d.

(** The counts of a transform library account for the rows. *)
Definition accounts (U : CsvUtils) : Prop :=
  (forall d d1 n, removeEmptyRows U d = Ok (d1, n) -> length d = length d1 + n) /\
  (forall d d1 n, removeDuplicates U d = Ok (d1, n) -> length d = length d1 + n) /\
  (forall d d1 n, trimWhitespace U d = Ok (d1, n) -> length d1 = length d) /\
  (forall d hs d1, standardizeCase U d hs = Ok d1 -> length d1 = length d).

(** A transform library runs without throwing on tidy tables. *)
Definition safeOnTidy (U : CsvUtils) : Prop :=
  (forall d, tidy d -> exists d1 n, removeEmptyRows U d = Ok (d1, n) /\ tidy d1) /\
  (forall d, tidy d -> exists d1 n, removeDuplicates U d = Ok (d1, n) /\ tidy d1) /\
  (forall d, tidy d -> trimWhitespace U d = Ok (d, 0)) /\
  (forall d hs, tidy d -> exists d1, standardizeCase U d hs = Ok d1 /\ allStrings d1).

(** A cell text that survives export and re-import: trimmed, free of the
    delimiter and of line feeds. *)
Definition plain (delimiter : ascii) (s : string) : Prop :=
  JS.trim s = s /\ JS.includes delimiter s = false /\ JS.includes JS.LF s = false.

(** A header or row that exports to a non-blank line. *)
Definition exportable (delimiter : ascii) (l : list string) : Prop :=
  Forall (plain delimiter) l /\ l <> [] /\ l <> [""].

(** The last code unit of the string is whitespace. *)
Fixpoint lastIsWhite (s : string) : bool :=
  match s with
  | EmptyString => false
  | String c EmptyString => JS.isWhiteSpace c
  | String _ s' => lastIsWhite s'
  end.

(** A cell after [standardizeCase] when it is a string. *)
Definition caseCell (c : cell) : cell := CStr (caseStandardized (orEmpty c)).

(** The table the revision-3 pipeline leaves for a table of strings. *)
Definition cleanedTable (o : Options.t) (d : table) : table :=
  let d1 := if Options.removeEmptyRows o then (V3.removeEmptyRows d).1 else d in
  let d2 := if Options.removeDuplicates o then (V3.removeDuplicates d1).1 else d1 in
  let d3 := if Options.trimWhitespace o then (V3.trimWhitespace d2).1 else d2 in
  if Options.standardizeCase o then map (map caseCell) d3 else d3.

(** What each stage leaves behind. *)
Definition namedRows (d : table) : Prop :=
  Forall (fun r => JS.trim (V3.nameColumn r) <> "") d.

Definition distinctRows (d : table) : Prop := NoDup (map V3.normalizedKey d).

Definition trimmedCells (d : table) : Prop :=
  Forall (Forall (fun c => cellChanged c = false)) d.

Definition standardCells (d : table) : Prop :=
  Forall (Forall (fun c => Common.standardizeCell c = Ok c)) d.

(** * Properties *)

(** ** Duplicate removal (revision 3) *)

Lemma select_snoc {A : Type} (m : list bool) (d : list A) (b : bool) (x : A) :
  length m = length d ->
  select (m ++ [b]) (d ++ [x]) = select m d ++ (if b then [x] else []).
Proof.
  intros Hlen. unfold select.
  rewrite zip_with_app by exact Hlen.
  rewrite filter_app, fmap_app. f_equal.
  destruct b; reflexivity.
Qed.

Lemma select_sublist {A : Type} (m : list bool) (d : list A) :
  select m d `sublist_of` d.
Proof.
  unfold select. revert m.
  induction d as [|x d IH]; intros [|b m]; simpl; try apply sublist_nil_l.
  destruct b.
  - rewrite filter_cons_True by reflexivity. simpl. apply sublist_skip, IH.
  - rewrite filter_cons_False by discriminate. apply sublist_cons, IH.
Qed.

Lemma countFalse_snoc (m : list bool) (b : bool) :
  countFalse (m ++ [b]) = countFalse m + (if b then 0 else 1).
Proof.
  unfold countFalse. rewrite filter_app, length_app. f_equal.
  destruct b; reflexivity.
Qed.

Lemma keepMask_length (d : table) : length (keepMask d) = length d.
Proof. unfold keepMask. apply length_imap. Qed.

Lemma keepMask_snoc (d : table) (r : row) :
  keepMask (d ++ [r]) = keepMask d ++ [negb (duplicateOf d r)].
Proof.
  unfold keepMask. rewrite imap_app. simpl. f_equal.
  - apply imap_ext. intros i x Hi. simpl.
    rewrite take_app_le; [reflexivity|].
    apply lookup_lt_Some in Hi. lia.
  - rewrite Nat.add_0_r, take_app_length. reflexivity.
Qed.

(** What [keepMask] says at one index. *)
Lemma keepMask_lookup (d : table) (i : nat) (r : row) :
  d !! i = Some r ->
  keepMask d !! i = Some (negb (duplicateOf (take i d) r)).
Proof.
  intros Hi. unfold keepMask. rewrite list_lookup_imap, Hi. reflexivity.
Qed.

Lemma duplicateOf_spec (pre : table) (r : row) :
  duplicateOf pre r = true <->
  exists j r', pre !! j = Some r' /\ V3.normalizedKey r' = V3.normalizedKey r.
Proof.
  unfold duplicateOf. rewrite bool_decide_eq_true, list_elem_of_fmap. split.
  - intros (r' & Hk & Hin). apply list_elem_of_lookup in Hin as [j Hj]. eauto.
  - intros (j & r' & Hj & Hk). exists r'. split; [done|].
    apply list_elem_of_lookup. eauto.
Qed.

Lemma V3_loop_snoc (i : nat) (d : table) (r : row) (st : V3.loopState) :
  V3.loop i (d ++ [r]) st = V3.step (V3.loop i d st) (i + length d) r.
Proof.
  revert i st. induction d as [|x d IH]; intros i st; simpl.
  - rewrite Nat.add_0_r. reflexivity.
  - rewrite IH. f_equal. lia.
Qed.

Lemma V3_loop_invariant (d : table) :
  let st := V3.loop 0 d V3.init in
  (forall k, is_Some (V3.signatures st !! k) <-> k ∈ map V3.normalizedKey d) /\
  V3.uniqueData st = select (keepMask d) d /\
  V3.duplicatesCount st = countFalse (keepMask d).
Proof.
  induction d as [|r d IH] using rev_ind; simpl.
  - split; [|done]. intros k. rewrite lookup_empty. split.
    + intros [? ?]; discriminate.
    + intros H; inversion H.
  - destruct IH as (Hdom & Hrows & Hcnt).
    rewrite V3_loop_snoc. simpl.
    rewrite keepMask_snoc, select_snoc by apply keepMask_length.
    rewrite countFalse_snoc.
    set (st := V3.loop 0 d V3.init) in *.
    unfold V3.step, duplicateOf.
    destruct (V3.signatures st !! V3.normalizedKey r) as [v|] eqn:Hk; simpl.
    + assert (Hin : V3.normalizedKey r ∈ map V3.normalizedKey d)
        by (apply Hdom; rewrite Hk; eauto).
      rewrite bool_decide_eq_true_2 by exact Hin. simpl.
      rewrite app_nil_r. split; [|split; [done|lia]].
      intros k. rewrite Hdom, map_app, elem_of_app. simpl.
      split; [tauto|]. intros [H|H]; [done|].
      apply list_elem_of_singleton in H. subst k. done.
    + assert (Hnin : V3.normalizedKey r ∉ map V3.normalizedKey d).
      { intros Hin. apply Hdom in Hin. rewrite Hk in Hin. destruct Hin; discriminate. }
      rewrite bool_decide_eq_false_2 by exact Hnin. simpl.
      split; [|split; [congruence|lia]].
      intros k. rewrite map_app, elem_of_app. simpl.
      rewrite list_elem_of_singleton.
      destruct (decide (k = V3.normalizedKey r)) as [->|Hne].
      * rewrite lookup_insert_eq. split; eauto.
      * rewrite lookup_insert_ne by done. rewrite Hdom. tauto.
Qed.

Lemma select_countFalse_length {A : Type} (m : list bool) (d : list A) :
  length m = length d ->
  length (select m d) + countFalse m = length d.
Proof.
  revert m. induction d as [|x d IH] using rev_ind; intros m Hlen.
  - destruct m; [reflexivity|discriminate].
  - destruct m as [|b m _] using rev_ind.
    { rewrite length_app in Hlen. simpl in Hlen. lia. }
    rewrite !length_app in Hlen. simpl in Hlen.
    assert (Hl : length m = length d) by lia.
    rewrite select_snoc, countFalse_snoc, !length_app by exact Hl.
    specialize (IH m Hl). destruct b; simpl; lia.
Qed.

(** C1. For every table, [removeDuplicates] (revision 3) signs a row by
    trimming and lowercasing each cell and joining the cells with a pipe;
    its output is the input rows, verbatim and in order, at the indices
    where no earlier row has the same signature; [count] is the number of
    indices dropped, which is also the difference of the lengths; and the
    sample table loses its second row with count 1. *)
Theorem C1_removeDuplicates_first_occurrences (d : table) :
  (forall cells : list string,
     V3.normalizedKey (map CStr cells)
     = JS.join "|" (map (fun s => JS.toLowerCase (JS.trim s)) cells)) /\
  (V3.removeDuplicates d).1 = select (keepMask d) d /\
  (V3.removeDuplicates d).2 = countFalse (keepMask d) /\
  (V3.removeDuplicates d).2 = length d - length (V3.removeDuplicates d).1 /\
  V3.removeDuplicates (strs [["A"; "1"]; ["a"; "1"]; ["B"; "2"]])
  = (strs [["A"; "1"]; ["B"; "2"]], 1).
Proof.
  destruct (V3_loop_invariant d) as (_ & Hrows & Hcnt).
  unfold V3.removeDuplicates. simpl.
  split; [|split; [exact Hrows|split; [exact Hcnt|split]]].
  - intros cells. unfold V3.normalizedKey. rewrite map_map. reflexivity.
  - rewrite Hrows, Hcnt.
    pose proof (select_countFalse_length (keepMask d) d (keepMask_length d)). lia.
  - vm_compute. reflexivity.
Qed.

(** ** The tokenizer *)

Lemma splitLines_nonempty (s : string) : JS.splitLines s <> [].
Proof.
  assert (Hc : forall c l, JS.consHead c l <> []) by (intros c [|? ?]; discriminate).
  destruct s as [|c s]; simpl; [discriminate|].
  destruct (Ascii.eqb c JS.LF); [discriminate|].
  destruct (Ascii.eqb c JS.CR); [|apply Hc].
  destruct s as [|c' s]; [apply Hc|].
  destruct (Ascii.eqb c' JS.LF); [discriminate|apply Hc].
Qed.

Lemma split_nonempty (d : ascii) (s : string) : JS.split d s <> [].
Proof.
  destruct s as [|c s]; simpl; [discriminate|].
  destruct (Ascii.eqb c d); [discriminate|].
  destruct (JS.split d s); discriminate.
Qed.

Lemma firstLine_cons_other (c : ascii) (s : string) :
  JS.splitLines (String c s) = JS.consHead c (JS.splitLines s) ->
  V3.firstLine (String c s) = String c (V3.firstLine s).
Proof.
  unfold V3.firstLine. intros ->.
  pose proof (splitLines_nonempty s).
  destruct (JS.splitLines s); [done|reflexivity].
Qed.

(** A text without line feed is one line. *)
Lemma splitLines_no_LF (s : string) :
  JS.includes JS.LF s = false -> JS.splitLines s = [s].
Proof.
  induction s as [|c s IH]; [reflexivity|].
  simpl. intros H. apply orb_false_iff in H as [Hc Hs].
  rewrite Hc, (IH Hs).
  destruct (Ascii.eqb c JS.CR); [|reflexivity].
  destruct s as [|c' s]; [reflexivity|].
  simpl in Hs. apply orb_false_iff in Hs as [-> _]. reflexivity.
Qed.

(** The first line holds no line feed. *)
Lemma firstLine_no_LF (s : string) :
  JS.includes JS.LF (V3.firstLine s) = false.
Proof.
  induction s as [|c s IH]; [reflexivity|].
  destruct (Ascii.eqb c JS.LF) eqn:Hc.
  { unfold V3.firstLine. simpl. rewrite Hc. reflexivity. }
  assert (Hother : V3.firstLine (String c s) = String c (V3.firstLine s) ->
                   JS.includes JS.LF (V3.firstLine (String c s)) = false).
  { intros ->. simpl. rewrite Hc, IH. reflexivity. }
  destruct (Ascii.eqb c JS.CR) eqn:Hr.
  - destruct s as [|c' s].
    + apply Hother, firstLine_cons_other. simpl. rewrite Hc, Hr. reflexivity.
    + destruct (Ascii.eqb c' JS.LF) eqn:Hc'.
      * unfold V3.firstLine. simpl. rewrite Hc, Hr, Hc'. reflexivity.
      * apply Hother, firstLine_cons_other.
        change (JS.splitLines (String c (String c' s)))
          with (if Ascii.eqb c JS.LF then EmptyString :: JS.splitLines (String c' s)
                else if Ascii.eqb c JS.CR then
                  if Ascii.eqb c' JS.LF then EmptyString :: JS.splitLines s
                  else JS.consHead c (JS.splitLines (String c' s))
                else JS.consHead c (JS.splitLines (String c' s))).
        rewrite Hc, Hr, Hc'. reflexivity.
  - apply Hother, firstLine_cons_other.
    change (JS.splitLines (String c s))
      with (if Ascii.eqb c JS.LF then EmptyString :: JS.splitLines s
            else if Ascii.eqb c JS.CR then
              match s with
              | String c' s'' =>
                  if Ascii.eqb c' JS.LF then EmptyString :: JS.splitLines s''
                  else JS.consHead c (JS.splitLines s)
              | EmptyString => JS.consHead c (JS.splitLines s)
              end
            else JS.consHead c (JS.splitLines s)).
    rewrite Hc, Hr. reflexivity.
Qed.

Lemma firstLine_idempotent (text : string) :
  V3.firstLine (V3.firstLine text) = V3.firstLine text.
Proof.
  unfold V3.firstLine at 1.
  rewrite splitLines_no_LF by apply firstLine_no_LF. reflexivity.
Qed.

(** C2. For every text, [parseCSV] (revision 3) chooses the delimiter from
    the first line of the text alone, semicolon when that line contains one
    and comma otherwise, and splits the header line and every data line on
    that one delimiter, trimming each piece; the sample [a;b / 1;2] parses to
    headers [a, b] and the single row [1, 2]. *)
Theorem C2_parse_delimiter_from_first_line (text : string) :
  let delimiter := if JS.includes ";" (V3.firstLine text) then ";"%char else ","%char in
  V3.firstLine text = hd "" (JS.splitLines text) /\
  V3.detectDelimiter text = delimiter /\
  V3.detectDelimiter (V3.firstLine text) = V3.detectDelimiter text /\
  headers (V3.parseCSV text)
  = match nonBlankLines text with
    | [] => []
    | l0 :: _ => map JS.trim (JS.split delimiter l0)
    end /\
  data (V3.parseCSV text)
  = map (fun line => map (fun c => CStr (JS.trim c)) (JS.split delimiter line))
        (tail (nonBlankLines text)) /\
  V3.parseCSV ("a;b" +:+ nl +:+ "1;2")
  = {| data := strs [["1"; "2"]]; headers := ["a"; "b"] |}.
Proof.
  simpl. split; [|split; [|split; [|split; [|split]]]].
  - unfold V3.firstLine. destruct (JS.splitLines text); reflexivity.
  - reflexivity.
  - unfold V3.detectDelimiter. rewrite firstLine_idempotent. reflexivity.
  - unfold V3.parseCSV, nonBlankLines, V3.detectDelimiter.
    destruct (filter _ (JS.splitLines text)); reflexivity.
  - unfold V3.parseCSV, nonBlankLines, V3.detectDelimiter.
    destruct (filter _ (JS.splitLines text)); reflexivity.
  - vm_compute. reflexivity.
Qed.

Lemma nonBlankLines_nil (text : string) :
  Forall blank (JS.splitLines text) -> nonBlankLines text = [].
Proof.
  unfold nonBlankLines, blank. intros H.
  induction H as [|l ls Hl _ IH]; [reflexivity|].
  rewrite filter_cons_False by (intros Hn; apply Hn, Hl). exact IH.
Qed.

(** C8. [parseCSV] is a total function of its text (no step of it can throw
    on a string), and for every text all of whose lines are blank after
    trimming, both the comma-only revision and the delimiter-detecting
    revision return empty headers and an empty table. *)
Theorem C8_parse_blank_text_is_empty (text : string) :
  Forall blank (JS.splitLines text) ->
  V1.parseCSV text = emptyParse /\ V3.parseCSV text = emptyParse.
Proof.
  intros H. apply nonBlankLines_nil in H. unfold nonBlankLines in H.
  unfold V1.parseCSV, V3.parseCSV. rewrite H. split; reflexivity.
Qed.

Lemma C8_witness :
  V1.parseCSV ("  " +:+ nl +:+ " " +:+ crlf +:+ nl) = emptyParse /\
  V3.parseCSV ("  " +:+ nl +:+ " " +:+ crlf +:+ nl) = emptyParse.
Proof.
  apply (C8_parse_blank_text_is_empty ("  " +:+ nl +:+ " " +:+ crlf +:+ nl)).
  vm_compute. repeat constructor.
Defined.

Lemma splitLines_allChars (p : ascii -> bool) (n : nat) (s : string) :
  String.length s <= n ->
  JS.allChars p s = true ->
  Forall (fun l => JS.allChars p l = true) (JS.splitLines s).
Proof.
  assert (Hc : forall c l, p c = true ->
             Forall (fun l => JS.allChars p l = true) l ->
             Forall (fun l => JS.allChars p l = true) (JS.consHead c l)).
  { intros c [|x l] Hp Hl; simpl.
    - constructor; [simpl; rewrite Hp; reflexivity|constructor].
    - inversion Hl; subst. constructor; [simpl; rewrite Hp; assumption|assumption]. }
  revert s. induction n as [|n IH]; intros s Hlen Hs.
  - destruct s; [|simpl in Hlen; lia]. repeat constructor.
  - destruct s as [|c s]; [repeat constructor|].
    simpl in Hlen, Hs. apply andb_true_iff in Hs as [Hpc Hs].
    assert (IHs : Forall (fun l => JS.allChars p l = true) (JS.splitLines s))
      by (apply IH; [lia|exact Hs]).
    simpl. destruct (Ascii.eqb c JS.LF); [constructor; [reflexivity|exact IHs]|].
    destruct (Ascii.eqb c JS.CR); [|apply Hc; assumption].
    destruct s as [|c' s]; [apply Hc; assumption|].
    destruct (Ascii.eqb c' JS.LF); [|apply Hc; assumption].
    simpl in Hlen, Hs. apply andb_true_iff in Hs as [_ Hs].
    constructor; [reflexivity|]. apply IH; [lia|exact Hs].
Qed.

Lemma trim_whitespace_only (s : string) :
  JS.allChars JS.isWhiteSpace s = true -> JS.trim s = "".
Proof.
  unfold JS.trim. induction s as [|c s IH]; [reflexivity|].
  simpl. intros H. apply andb_true_iff in H as [-> Hs]. apply IH, Hs.
Qed.

(** Empty and whitespace-only texts have blank lines only. *)
Lemma whitespace_only_blank (text : string) :
  JS.allChars JS.isWhiteSpace text = true -> Forall blank (JS.splitLines text).
Proof.
  intros H. eapply Forall_impl.
  - apply (splitLines_allChars JS.isWhiteSpace (String.length text)); [lia|exact H].
  - intros l Hl. apply trim_whitespace_only, Hl.
Qed.

(** ** Empty-row removal, policy (a): [src/utils/csvUtils.ts] *)

Lemma V1_rowHasContent_strs (r : list string) :
  V1.rowHasContent (map CStr r) = Ok (bool_decide (~ rowEmpty r)).
Proof.
  unfold V1.rowHasContent, rowEmpty.
  induction r as [|c r IH]; [reflexivity|].
  simpl. unfold mbind, result_bind in *. simpl.
  destruct (decide (JS.trim c = "")) as [He|Hne].
  - rewrite bool_decide_eq_false_2 by (intros H; apply H, He).
    rewrite IH. f_equal.
    apply bool_decide_ext. rewrite Forall_cons. unfold blank. tauto.
  - rewrite bool_decide_eq_true_2 by exact Hne. f_equal. symmetry.
    apply bool_decide_eq_true_2. rewrite Forall_cons. unfold blank. tauto.
Qed.

Lemma V1_filterM_strs (t : list (list string)) :
  filterM V1.rowHasContent (strs t) = Ok (strs (filter (fun r => ~ rowEmpty r) t)).
Proof.
  unfold strs. induction t as [|r t IH]; [reflexivity|].
  simpl. rewrite V1_rowHasContent_strs. unfold mbind, result_bind in *. simpl.
  rewrite IH. destruct (decide (~ rowEmpty r)) as [Hr|Hr].
  - rewrite bool_decide_eq_true_2, filter_cons_True by exact Hr. reflexivity.
  - rewrite bool_decide_eq_false_2, filter_cons_False by exact Hr. reflexivity.
Qed.

Lemma length_filter_complement {A : Type} (P : A -> Prop) `{!forall x, Decision (P x)}
    (l : list A) :
  length l - length (filter (fun x => ~ P x) l) = length (filter P l).
Proof.
  assert (Hsum : length (filter (fun x => ~ P x) l) + length (filter P l) = length l).
  { induction l as [|x l IH]; [reflexivity|].
    destruct (decide (P x)) as [Hx|Hx].
    - rewrite (filter_cons_True P) by exact Hx.
      rewrite filter_cons_False by (intros Hn; apply Hn, Hx). simpl. lia.
    - rewrite (filter_cons_False P) by exact Hx.
      rewrite filter_cons_True by exact Hx. simpl. lia. }
  lia.
Qed.

(** C3. Under policy (a), the revision of [src/utils/csvUtils.ts]: for every
    table of strings, [removeEmptyRows] returns, unchanged and in order,
    exactly the rows that are not empty in every cell after trimming, and
    [count] is the number of rows that are; the sample table loses its
    all-empty first row with count 1. *)
Theorem C3_removeEmptyRows_policy_a (t : list (list string)) :
  V1.removeEmptyRows (strs t)
  = Ok (strs (filter (fun r => ~ rowEmpty r) t), length (filter rowEmpty t)) /\
  V1.removeEmptyRows (strs [[""; ""]; ["x"; "y"]]) = Ok (strs [["x"; "y"]], 1).
Proof.
  split; [|vm_compute; reflexivity].
  unfold V1.removeEmptyRows. rewrite V1_filterM_strs.
  unfold mbind, result_bind. simpl. do 2 f_equal.
  unfold strs. rewrite !length_map. apply length_filter_complement.
Qed.

(** ** Whitespace trimming (revisions 2 and 3) *)

Lemma trimCell_spec (c : cell) (n : nat) :
  V2.trimCell c n = (cellTrimmed c, n + (if cellChanged c then 1 else 0)).
Proof.
  unfold V2.trimCell. destruct c as [| |s]; simpl; try (f_equal; lia).
  destruct (String.eqb s "") eqn:He.
  - apply String.eqb_eq in He. subst s. simpl. f_equal. lia.
  - destruct (decide (JS.trim s = s)) as [Ht|Ht].
    + rewrite (proj2 (String.eqb_eq _ _) Ht). simpl. f_equal. lia.
    + rewrite (proj2 (String.eqb_neq _ _) Ht). simpl. f_equal. lia.
Qed.

Lemma trimRow_spec (r : row) (n : nat) :
  mapAcc V2.trimCell r n
  = (map cellTrimmed r, n + length (List.filter cellChanged r)).
Proof.
  revert n. induction r as [|c r IH]; intros n; simpl.
  - f_equal. lia.
  - rewrite trimCell_spec, IH. destruct (cellChanged c); simpl; f_equal; lia.
Qed.

Lemma trimTable_spec (d : table) (n : nat) :
  mapAcc (fun r => mapAcc V2.trimCell r) d n
  = (map (map cellTrimmed) d, n + length (List.filter cellChanged (concat d))).
Proof.
  revert n. induction d as [|r d IH]; intros n; simpl.
  - f_equal. lia.
  - rewrite trimRow_spec, IH. rewrite List.filter_app, length_app. f_equal. lia.
Qed.

(** C6. For every table, [trimWhitespace] (revision 3) trims every string
    cell and returns a [null] or [undefined] cell as it is; [count] is the
    number of cells, over the whole table, that are strings changed by
    trimming, so a [null] or [undefined] cell never counts; the sample row
    gives one changed cell. *)
Theorem C6_trimWhitespace_counts_cells (d : table) :
  V3.trimWhitespace d
  = (map (map cellTrimmed) d, length (List.filter cellChanged (concat d))) /\
  cellTrimmed CNull = CNull /\ cellTrimmed CUndefined = CUndefined /\
  cellChanged CNull = false /\ cellChanged CUndefined = false /\
  (forall s, cellTrimmed (CStr s) = CStr (JS.trim s)) /\
  (forall s, cellChanged (CStr s) = negb (String.eqb (JS.trim s) s)) /\
  V3.trimWhitespace (strs [[" x "; "y"]]) = (strs [["x"; "y"]], 1).
Proof.
  split; [|repeat split].
  unfold V3.trimWhitespace, V2.trimWhitespace. rewrite trimTable_spec. reflexivity.
Qed.

(** ** Case standardisation *)

Lemma standardizeCell_str (s : string) :
  Common.standardizeCell (CStr s) = Ok (CStr (caseStandardized s)).
Proof.
  unfold Common.standardizeCell, caseStandardized. simpl.
  destruct (JS.isNaN_Number s && negb (String.eqb s "")); reflexivity.
Qed.

Lemma mapM_ok {A B : Type} (f : A -> result B) (g : A -> B) (l : list A) :
  (forall x, x ∈ l -> f x = Ok (g x)) -> mapM f l = Ok (map g l).
Proof.
  induction l as [|x l IH]; intros H; [reflexivity|].
  simpl. rewrite H by left. unfold mbind, result_bind in *.
  rewrite IH; [reflexivity|]. intros y Hy. apply H. right. exact Hy.
Qed.

Lemma standardizeCase_strs (t : list (list string)) (hs : list string) :
  Common.standardizeCase (strs t) hs = Ok (strs (map (map caseStandardized) t)).
Proof.
  unfold Common.standardizeCase, strs.
  rewrite (mapM_ok _ (map (fun c => CStr (caseStandardized (orEmpty c))))).
  - f_equal. rewrite !map_map. apply map_ext. intros r.
    rewrite !map_map. reflexivity.
  - intros r Hr. apply list_elem_of_fmap in Hr as (r0 & -> & _).
    rewrite (mapM_ok _ (fun c => CStr (caseStandardized (orEmpty c)))).
    + reflexivity.
    + intros c Hc. apply list_elem_of_fmap in Hc as (s & -> & _).
      apply standardizeCell_str.
Qed.

(** C7. For every table of strings and every header list, [standardizeCase]
    returns just a table (no count), in which each cell that is not the
    empty string and that [Number] turns into NaN is replaced by its
    lowercase form and every other cell (numeric-looking, or empty) is the
    input cell. *)
Theorem C7_standardizeCase_lowercases_text (t : list (list string)) (hs : list string) :
  V1.standardizeCase (strs t) hs
  = Ok (strs (map (map (fun s =>
        if JS.isNaN_Number s && negb (String.eqb s "") then JS.toLowerCase s else s)) t)) /\
  V1.standardizeCase (strs [["Alice"; "NYC"; "12"; ""; "1E5"; "0xFF"; "-Infinity"; "N/A 7"]]) hs
  = Ok (strs [["alice"; "nyc"; "12"; ""; "1E5"; "0xFF"; "-Infinity"; "n/a 7"]]).
Proof.
  split; [|vm_compute; reflexivity].
  unfold V1.standardizeCase. rewrite standardizeCase_strs. reflexivity.
Qed.

(** ** The pipeline runner *)

Lemma toggleOption_comm (k1 k2 : Options.key) (o : Options.t) :
  Options.toggleOption k1 (Options.toggleOption k2 o)
  = Options.toggleOption k2 (Options.toggleOption k1 o).
Proof. destruct k1, k2; reflexivity. Qed.

Lemma toggled_Permutation (ks ks' : list Options.key) (o : Options.t) :
  Permutation ks ks' -> toggled ks o = toggled ks' o.
Proof.
  unfold toggled. induction 1 as [|k l l' _ IH|k1 k2 l|l l' l'' _ IH1 _ IH2]; simpl.
  - reflexivity.
  - rewrite IH. reflexivity.
  - apply toggleOption_comm.
  - congruence.
Qed.

Lemma runTransforms_stages (U : CsvUtils) (o : Options.t) (d : table) (hs : list string) :
  runTransforms U o d hs = runStages U hs (List.filter (enabled o) fixedOrder) (d, zeroStats).
Proof.
  unfold runTransforms, fixedOrder, zeroStats, mbind, result_bind. simpl.
  destruct (Options.removeEmptyRows o); simpl.
  - destruct (removeEmptyRows U d) as [[d1 n1]|e]; [|reflexivity]. simpl.
    destruct (Options.removeDuplicates o); simpl.
    + destruct (removeDuplicates U d1) as [[d2 n2]|e]; [|reflexivity]. simpl.
      destruct (Options.trimWhitespace o); simpl.
      * destruct (trimWhitespace U d2) as [[d3 n3]|e]; [|reflexivity]. simpl.
        destruct (Options.standardizeCase o); simpl; [|reflexivity].
        destruct (standardizeCase U d3 hs); reflexivity.
      * destruct (Options.standardizeCase o); simpl; [|reflexivity].
        destruct (standardizeCase U d2 hs); reflexivity.
    + destruct (Options.trimWhitespace o); simpl.
      * destruct (trimWhitespace U d1) as [[d3 n3]|e]; [|reflexivity]. simpl.
        destruct (Options.standardizeCase o); simpl; [|reflexivity].
        destruct (standardizeCase U d3 hs); reflexivity.
      * destruct (Options.standardizeCase o); simpl; [|reflexivity].
        destruct (standardizeCase U d1 hs); reflexivity.
  - destruct (Options.removeDuplicates o); simpl.
    + destruct (removeDuplicates U d) as [[d2 n2]|e]; [|reflexivity]. simpl.
      destruct (Options.trimWhitespace o); simpl.
      * destruct (trimWhitespace U d2) as [[d3 n3]|e]; [|reflexivity]. simpl.
        destruct (Options.standardizeCase o); simpl; [|reflexivity].
        destruct (standardizeCase U d3 hs); reflexivity.
      * destruct (Options.standardizeCase o); simpl; [|reflexivity].
        destruct (standardizeCase U d2 hs); reflexivity.
    + destruct (Options.trimWhitespace o); simpl.
      * destruct (trimWhitespace U d) as [[d3 n3]|e]; [|reflexivity]. simpl.
        destruct (Options.standardizeCase o); simpl; [|reflexivity].
        destruct (standardizeCase U d3 hs); reflexivity.
      * destruct (Options.standardizeCase o); simpl; [|reflexivity].
        destruct (standardizeCase U d hs); reflexivity.
Qed.

Lemma runTransforms_skipped_zero (U : CsvUtils) (o : Options.t) (d d' : table)
    (hs : list string) (st : stats) :
  runTransforms U o d hs = Ok (d', st) ->
  (Options.removeEmptyRows o = true \/ emptyRowsRemoved st = 0) /\
  (Options.removeDuplicates o = true \/ duplicatesRemoved st = 0) /\
  (Options.trimWhitespace o = true \/ whitespaceFixed st = 0).
Proof.
  unfold runTransforms, mbind, result_bind.
  destruct (Options.removeEmptyRows o); [destruct (removeEmptyRows U d) as [[d1 n1]|e]|]; simpl;
    try discriminate;
    (destruct (Options.removeDuplicates o); [destruct (removeDuplicates U _) as [[d2 n2]|e]|]; simpl;
      try discriminate;
      (destruct (Options.trimWhitespace o); [destruct (trimWhitespace U _) as [[d3 n3]|e]|]; simpl;
        try discriminate;
        (destruct (Options.standardizeCase o); [destruct (standardizeCase U _ hs)|]; simpl;
          try discriminate;
          intros [= <- <-]; simpl; auto))).
Qed.

(** C4. For every transform library, table, headers and switches, and for
    two series of clicks that differ only in their order: the run applies the
    stages whose switch is on, in the fixed order removeEmptyRows,
    removeDuplicates, trimWhitespace, standardizeCase (a stage whose switch
    is off is not called); both click orders give the same run; and in the
    returned stats each statistic whose switch is off is zero. *)
Theorem C4_fixed_order_enabled_only (U : CsvUtils) (o : Options.t)
    (ks ks' : list Options.key) (d : table) (hs : list string) :
  Permutation ks ks' ->
  let o1 := toggled ks o in
  let o2 := toggled ks' o in
  fixedOrder = [SRemoveEmptyRows; SRemoveDuplicates; STrimWhitespace; SStandardizeCase] /\
  runTransforms U o1 d hs
  = runStages U hs (List.filter (enabled o1) fixedOrder) (d, zeroStats) /\
  runTransforms U o2 d hs = runTransforms U o1 d hs /\
  match runTransforms U o1 d hs with
  | Ok (_, st) =>
      (Options.removeEmptyRows o1 = true \/ emptyRowsRemoved st = 0) /\
      (Options.removeDuplicates o1 = true \/ duplicatesRemoved st = 0) /\
      (Options.trimWhitespace o1 = true \/ whitespaceFixed st = 0)
  | Throw _ => True
  end.
Proof.
  intros Hperm o1 o2.
  split; [reflexivity|]. split; [apply runTransforms_stages|]. split.
  - unfold o1, o2. rewrite (toggled_Permutation ks ks' o Hperm). reflexivity.
  - destruct (runTransforms U o1 d hs) as [[d' st]|e] eqn:Hrun; [|exact I].
    eapply runTransforms_skipped_zero, Hrun.
Qed.

Lemma C4_witness :
  let o1 := toggled [Options.StandardizeCase; Options.RemoveDuplicates] Options.default in
  let o2 := toggled [Options.RemoveDuplicates; Options.StandardizeCase] Options.default in
  let d := strs [[" A "; "1"]; [""; ""]; ["a"; "1"]] in
  fixedOrder = [SRemoveEmptyRows; SRemoveDuplicates; STrimWhitespace; SStandardizeCase] /\
  runTransforms utilsV3 o1 d ["h"; "k"]
  = runStages utilsV3 ["h"; "k"] (List.filter (enabled o1) fixedOrder) (d, zeroStats) /\
  runTransforms utilsV3 o2 d ["h"; "k"] = runTransforms utilsV3 o1 d ["h"; "k"] /\
  match runTransforms utilsV3 o1 d ["h"; "k"] with
  | Ok (_, st) =>
      (Options.removeEmptyRows o1 = true \/ emptyRowsRemoved st = 0) /\
      (Options.removeDuplicates o1 = true \/ duplicatesRemoved st = 0) /\
      (Options.trimWhitespace o1 = true \/ whitespaceFixed st = 0)
  | Throw _ => True
  end.
Proof.
  apply (C4_fixed_order_enabled_only utilsV3 Options.default
           [Options.StandardizeCase; Options.RemoveDuplicates]
           [Options.RemoveDuplicates; Options.StandardizeCase]).
  apply perm_swap.
Defined.

(** C9. If a transform throws during a run over a non-empty original table,
    the run leaves the current table, the published stats and the original
    table exactly as they were, adds only the error toast carrying the
    error's text, and ends with the processing flag cleared. *)
Theorem C9_failed_run_publishes_nothing (U : CsvUtils) (a : app) (e : error) :
  originalData a <> [] ->
  runTransforms U (options a) (originalData a) (appHeaders a) = Throw e ->
  csvData (cleanData U a) = csvData a /\
  appStats (cleanData U a) = appStats a /\
  originalData (cleanData U a) = originalData a /\
  appHeaders (cleanData U a) = appHeaders a /\
  options (cleanData U a) = options a /\
  toasts (cleanData U a) = toasts a ++ [errorToast e] /\
  isProcessing (cleanData U a) = false.
Proof.
  intros Hne Hrun. unfold cleanData.
  rewrite bool_decide_eq_false_2
    by (intros Hl; apply Hne; destruct (originalData a); [reflexivity|discriminate]).
  unfold timerCallback. simpl. rewrite Hrun. simpl. repeat split.
Qed.

Lemma C9_witness :
  csvData (cleanData utilsV1 failingSession) = csvData failingSession /\
  appStats (cleanData utilsV1 failingSession) = appStats failingSession /\
  originalData (cleanData utilsV1 failingSession) = originalData failingSession /\
  appHeaders (cleanData utilsV1 failingSession) = appHeaders failingSession /\
  options (cleanData utilsV1 failingSession) = options failingSession /\
  toasts (cleanData utilsV1 failingSession)
  = toasts failingSession
    ++ [errorToast (TypeError "Cannot read properties of null (reading 'trim')")] /\
  isProcessing (cleanData utilsV1 failingSession) = false.
Proof.
  apply (C9_failed_run_publishes_nothing utilsV1 failingSession
           (TypeError "Cannot read properties of null (reading 'trim')")).
  - discriminate.
  - vm_compute. reflexivity.
Defined.

(** ** End to end *)

(** The sample run does not end as the documented example says: the rows
    are lowercased and no cell is left for the trim step to fix. *)
Lemma C5_sample_differs :
  ~ (exists st : stats,
       csvData (endToEnd V1.parseCSV utilsV1 sampleText allOn) = strs [["Alice"; "NYC"]] /\
       appStats (endToEnd V1.parseCSV utilsV1 sampleText allOn) = Some st /\
       emptyRowsRemoved st = 1 /\ duplicatesRemoved st = 1 /\ 1 <= whitespaceFixed st).
Proof.
  intros (st & Hrows & _). vm_compute in Hrows. discriminate Hrows.
Qed.

(** C5 (amended). Parsing the sample text and running the pipeline with all
    four switches on gives, in each of the three revisions, the single row
    [alice, nyc] and the stats emptyRowsRemoved = 1, duplicatesRemoved = 1,
    whitespaceFixed = 0: the tokenizer has already trimmed every cell, and
    the case step lowercases the text cells. *)
Theorem C5_end_to_end_sample :
  let final := (strs [["alice"; "nyc"]],
                {| duplicatesRemoved := 1; whitespaceFixed := 0; emptyRowsRemoved := 1 |}) in
  data (V1.parseCSV sampleText) = strs [["Alice"; "NYC"]; ["Alice"; "NYC"]; [""; ""]] /\
  data (V3.parseCSV sampleText) = data (V1.parseCSV sampleText) /\
  headers (V3.parseCSV sampleText) = headers (V1.parseCSV sampleText) /\
  runTransforms utilsV1 allOn (data (V1.parseCSV sampleText)) (headers (V1.parseCSV sampleText))
  = Ok final /\
  runTransforms utilsV2 allOn (data (V2.parseCSV sampleText)) (headers (V2.parseCSV sampleText))
  = Ok final /\
  runTransforms utilsV3 allOn (data (V3.parseCSV sampleText)) (headers (V3.parseCSV sampleText))
  = Ok final /\
  csvData (endToEnd V1.parseCSV utilsV1 sampleText allOn) = final.1 /\
  appStats (endToEnd V1.parseCSV utilsV1 sampleText allOn) = Some final.2 /\
  csvData (endToEnd V3.parseCSV utilsV3 sampleText allOn) = final.1 /\
  appStats (endToEnd V3.parseCSV utilsV3 sampleText allOn) = Some final.2.
Proof.
  vm_compute. repeat split.
Qed.

(** ** Shapes *)

Lemma mapAccM_Forall2 {A B S : Type} (f : A -> S -> result (B * S))
    (l : list A) (s : S) (l' : list B) (s' : S) :
  mapAccM f l s = Ok (l', s') ->
  Forall2 (fun x y => exists s1 s2, f x s1 = Ok (y, s2)) l l'.
Proof.
  revert s l' s'. induction l as [|x l IH]; intros s l' s'; simpl.
  - intros [= <- _]. constructor.
  - unfold mbind, result_bind.
    destruct (f x s) as [[y s1]|e] eqn:Hf; [|discriminate].
    destruct (mapAccM f l s1) as [[ys s2]|e] eqn:Hl; [|discriminate].
    intros [= <- _]. constructor; [eauto|]. eapply IH, Hl.
Qed.

Lemma mapAccM_throw {A B S : Type} (f : A -> S -> result (B * S))
    (l : list A) (s : S) (e : error) :
  mapAccM f l s = Throw e -> Exists (fun x => exists s1, f x s1 = Throw e) l.
Proof.
  revert s. induction l as [|x l IH]; intros s; simpl; [discriminate|].
  unfold mbind, result_bind.
  destruct (f x s) as [[y s1]|e'] eqn:Hf.
  - destruct (mapAccM f l s1) as [[ys s2]|e''] eqn:Hl; [discriminate|].
    intros [= ->]. right. eapply IH, Hl.
  - intros [= ->]. left. eauto.
Qed.

Lemma mapM_Forall2 {A B : Type} (f : A -> result B) (l : list A) (l' : list B) :
  mapM f l = Ok l' -> Forall2 (fun x y => f x = Ok y) l l'.
Proof.
  revert l'. induction l as [|x l IH]; intros l'; simpl.
  - intros [= <-]. constructor.
  - unfold mbind, result_bind.
    destruct (f x) as [y|e] eqn:Hf; [|discriminate].
    destruct (mapM f l) as [ys|e] eqn:Hl; [|discriminate].
    intros [= <-]. constructor; [exact Hf|]. apply IH. reflexivity.
Qed.

Lemma mapM_throw {A B : Type} (f : A -> result B) (l : list A) (e : error) :
  mapM f l = Throw e -> Exists (fun x => f x = Throw e) l.
Proof.
  induction l as [|x l IH]; simpl; [discriminate|].
  unfold mbind, result_bind.
  destruct (f x) as [y|e'] eqn:Hf.
  - destruct (mapM f l) as [ys|e''] eqn:Hl; [discriminate|].
    intros [= ->]. right. apply IH. reflexivity.
  - intros [= ->]. left. exact Hf.
Qed.

Lemma filterM_sublist {A : Type} (f : A -> result bool) (l l' : list A) :
  filterM f l = Ok l' -> l' `sublist_of` l.
Proof.
  revert l'. induction l as [|x l IH]; intros l'; simpl.
  - intros [= <-]. constructor.
  - unfold mbind, result_bind.
    destruct (f x) as [b|e]; [|discriminate].
    destruct (filterM f l) as [ys|e]; [|discriminate].
    intros [= <-]. destruct b.
    + apply sublist_skip, IH. reflexivity.
    + apply sublist_cons, IH. reflexivity.
Qed.

Lemma filterM_throw {A : Type} (f : A -> result bool) (l : list A) (e : error) :
  filterM f l = Throw e -> Exists (fun x => f x = Throw e) l.
Proof.
  induction l as [|x l IH]; simpl; [discriminate|].
  unfold mbind, result_bind.
  destruct (f x) as [b|e'] eqn:Hf.
  - destruct (filterM f l) as [ys|e''] eqn:Hl; [discriminate|].
    intros [= ->]. right. apply IH. reflexivity.
  - intros [= ->]. left. exact Hf.
Qed.

Lemma someM_throw {A : Type} (f : A -> result bool) (l : list A) (e : error) :
  someM f l = Throw e -> Exists (fun x => f x = Throw e) l.
Proof.
  induction l as [|x l IH]; simpl; [discriminate|].
  unfold mbind, result_bind.
  destruct (f x) as [[|]|e'] eqn:Hf.
  - discriminate.
  - intros H. right. apply IH, H.
  - intros [= ->]. left. exact Hf.
Qed.

Lemma cellTrim_throw (c : cell) (e : error) : cellTrim c = Throw e -> ~ isString c.
Proof. destruct c; simpl; [auto|auto|discriminate]. Qed.

Lemma V1_trimRow_length (r r' : row) (n n' : nat) :
  mapAccM V1.trimCell r n = Ok (r', n') -> length r' = length r.
Proof.
  intros H. apply mapAccM_Forall2 in H. symmetry. eapply Forall2_length, H.
Qed.

Lemma V1_trimRow_throw (r : row) (n : nat) (e : error) :
  mapAccM V1.trimCell r n = Throw e -> Exists (fun c => ~ isString c) r.
Proof.
  intros H. apply mapAccM_throw in H. eapply Exists_impl; [exact H|].
  intros c [s1 Hc]. unfold V1.trimCell, mbind, result_bind in Hc.
  destruct (cellTrim c) eqn:Ht; [discriminate|]. eapply cellTrim_throw, Ht.
Qed.

Lemma V1_trimWhitespace_shape (d d' : table) (n : nat) :
  V1.trimWhitespace d = Ok (d', n) -> shape d' = shape d.
Proof.
  unfold V1.trimWhitespace, shape. intros H. apply mapAccM_Forall2 in H.
  induction H as [|r r' d d' (s1 & s2 & Hr) _ IH]; [reflexivity|].
  simpl. rewrite IH. f_equal. eapply V1_trimRow_length, Hr.
Qed.

Lemma V1_trimWhitespace_throw (d : table) (e : error) :
  V1.trimWhitespace d = Throw e -> Exists (Exists (fun c => ~ isString c)) d.
Proof.
  unfold V1.trimWhitespace. intros H. apply mapAccM_throw in H.
  eapply Exists_impl; [exact H|]. intros r [s1 Hr]. eapply V1_trimRow_throw, Hr.
Qed.

Lemma V3_trimWhitespace_shape (d : table) : shape (V3.trimWhitespace d).1 = shape d.
Proof.
  unfold V3.trimWhitespace, V2.trimWhitespace, shape.
  rewrite trimTable_spec. simpl. rewrite map_map. apply map_ext.
  intros r. apply length_map.
Qed.

Lemma standardizeCell_throw (c : cell) (e : error) :
  Common.standardizeCell c = Throw e -> c = CUndefined.
Proof.
  unfold Common.standardizeCell. destruct c as [| |s]; simpl; try discriminate; [reflexivity|].
  destruct (JS.isNaN_Number s && negb (String.eqb s "")); discriminate.
Qed.

Lemma standardizeCase_shape (d d' : table) (hs : list string) :
  Common.standardizeCase d hs = Ok d' -> shape d' = shape d.
Proof.
  unfold Common.standardizeCase, shape. intros H. apply mapM_Forall2 in H.
  induction H as [|r r' d d' Hr _ IH]; [reflexivity|].
  simpl. rewrite IH. f_equal. apply mapM_Forall2 in Hr.
  symmetry. eapply Forall2_length, Hr.
Qed.

Lemma standardizeCase_throw (d : table) (hs : list string) (e : error) :
  Common.standardizeCase d hs = Throw e -> Exists (Exists (fun c => c = CUndefined)) d.
Proof.
  unfold Common.standardizeCase. intros H. apply mapM_throw in H.
  eapply Exists_impl; [exact H|]. intros r Hr. apply mapM_throw in Hr.
  eapply Exists_impl; [exact Hr|]. intros c Hc. eapply standardizeCell_throw, Hc.
Qed.

Lemma V1_removeEmptyRows_throw (d : table) (e : error) :
  V1.removeEmptyRows d = Throw e -> Exists (Exists (fun c => ~ isString c)) d.
Proof.
  unfold V1.removeEmptyRows, mbind, result_bind.
  destruct (filterM V1.rowHasContent d) eqn:H; [discriminate|].
  intros [= ->]. apply filterM_throw in H.
  eapply Exists_impl; [exact H|]. intros r Hr. apply someM_throw in Hr.
  eapply Exists_impl; [exact Hr|]. intros c Hc.
  unfold mbind, result_bind in Hc.
  destruct (cellTrim c) eqn:Ht; [discriminate|]. eapply cellTrim_throw, Ht.
Qed.

(** C10. For every table: [trimWhitespace] and [standardizeCase] either
    return a table with the same number of rows and the same number of cells
    in each row, or throw, which happens only on a table holding a cell that
    is not a string (the guarded revision of [trimWhitespace] never throws);
    [removeDuplicates] and [removeEmptyRows] return the input rows verbatim,
    in their order, with some left out, so never more rows than the input. *)
Theorem C10_shape_invariants (d : table) (hs : list string) :
  match V1.trimWhitespace d with
  | Ok (d', _) => shape d' = shape d /\ length d' = length d
  | Throw _ => Exists (Exists (fun c => ~ isString c)) d
  end /\
  (shape (V3.trimWhitespace d).1 = shape d /\
   length (V3.trimWhitespace d).1 = length d) /\
  match V1.standardizeCase d hs with
  | Ok d' => shape d' = shape d /\ length d' = length d
  | Throw _ => Exists (Exists (fun c => c = CUndefined)) d
  end /\
  ((V3.removeDuplicates d).1 `sublist_of` d /\
   length (V3.removeDuplicates d).1 <= length d) /\
  match V1.removeEmptyRows d with
  | Ok (d', _) => d' `sublist_of` d /\ length d' <= length d
  | Throw _ => Exists (Exists (fun c => ~ isString c)) d
  end /\
  ((V3.removeEmptyRows d).1 `sublist_of` d /\
   length (V3.removeEmptyRows d).1 <= length d).
Proof.
  assert (Hlen : forall d1 d2 : table, shape d1 = shape d2 -> length d1 = length d2).
  { intros d1 d2 H. apply (f_equal length) in H. unfold shape in H.
    rewrite !length_map in H. exact H. }
  assert (Hsub : forall d1 d2 : table, d1 `sublist_of` d2 ->
                 d1 `sublist_of` d2 /\ length d1 <= length d2).
  { intros d1 d2 H. split; [exact H|apply sublist_length, H]. }
  split; [|split; [|split; [|split; [|split]]]].
  - destruct (V1.trimWhitespace d) as [[d' n]|e] eqn:H.
    + apply V1_trimWhitespace_shape in H. split; [exact H|apply Hlen, H].
    + eapply V1_trimWhitespace_throw, H.
  - pose proof (V3_trimWhitespace_shape d) as H. split; [exact H|apply Hlen, H].
  - unfold V1.standardizeCase. destruct (Common.standardizeCase d hs) as [d'|e] eqn:H.
    + apply standardizeCase_shape in H. split; [exact H|apply Hlen, H].
    + eapply standardizeCase_throw, H.
  - apply Hsub. destruct (V3_loop_invariant d) as (_ & Hrows & _).
    unfold V3.removeDuplicates. simpl. rewrite Hrows. apply select_sublist.
  - destruct (V1.removeEmptyRows d) as [[d' n]|e] eqn:H.
    + apply Hsub. unfold V1.removeEmptyRows, mbind, result_bind in H.
      destruct (filterM V1.rowHasContent d) as [l|] eqn:Hf; [|discriminate].
      injection H as <- _. eapply filterM_sublist, Hf.
    + eapply V1_removeEmptyRows_throw, H.
  - apply Hsub. unfold V3.removeEmptyRows. simpl. apply sublist_filter.
Qed.

(** ** Why the trim step finds nothing after the tokenizer *)

Lemma trimEnd_idempotent (s : string) : JS.trimEnd (JS.trimEnd s) = JS.trimEnd s.
Proof.
  induction s as [|c s IH]; [reflexivity|].
  cbn [JS.trimEnd]. destruct (JS.trimEnd s) as [|d t] eqn:Ht.
  - destruct (JS.isWhiteSpace c) eqn:Hc; [reflexivity|].
    cbn [JS.trimEnd]. rewrite Hc. reflexivity.
  - change (JS.trimEnd (String c (String d t)))
      with (match JS.trimEnd (String d t) with
            | EmptyString => if JS.isWhiteSpace c then EmptyString else String c EmptyString
            | u => String c u
            end).
    rewrite IH. reflexivity.
Qed.

Lemma trimStart_trimEnd (s : string) :
  JS.trimStart (JS.trimEnd (JS.trimStart s)) = JS.trimEnd (JS.trimStart s).
Proof.
  induction s as [|c s IH]; [reflexivity|].
  cbn [JS.trimStart]. destruct (JS.isWhiteSpace c) eqn:Hc; [exact IH|].
  cbn [JS.trimEnd]. destruct (JS.trimEnd s); rewrite ?Hc; cbn [JS.trimStart];
    rewrite Hc; reflexivity.
Qed.

Lemma trim_idempotent (s : string) : JS.trim (JS.trim s) = JS.trim s.
Proof.
  unfold JS.trim. rewrite trimStart_trimEnd. apply trimEnd_idempotent.
Qed.

Lemma parseLine_unchanged (d : ascii) (line : string) :
  Forall (fun c => cellChanged c = false) (V3.parseLine d line).
Proof.
  unfold V3.parseLine. apply Forall_forall. intros c Hc.
  apply list_elem_of_fmap in Hc as (x & -> & _). simpl.
  rewrite trim_idempotent, String.eqb_refl. reflexivity.
Qed.

Lemma parseCSV_unchanged (text : string) :
  Forall (Forall (fun c => cellChanged c = false)) (data (V3.parseCSV text)).
Proof.
  unfold V3.parseCSV. destruct (filter _ (JS.splitLines text)) as [|l0 rest]; simpl.
  - constructor.
  - apply Forall_forall. intros r Hr.
    apply list_elem_of_fmap in Hr as (line & -> & _). apply parseLine_unchanged.
Qed.

Lemma cellTrimmed_unchanged (c : cell) : cellChanged c = false -> cellTrimmed c = c.
Proof.
  destruct c as [| |s]; simpl; try reflexivity.
  intros H. apply negb_false_iff, String.eqb_eq in H. rewrite H. reflexivity.
Qed.

Lemma trimWhitespace_unchanged (d : table) :
  Forall (Forall (fun c => cellChanged c = false)) d ->
  V3.trimWhitespace d = (d, 0).
Proof.
  intros H. unfold V3.trimWhitespace, V2.trimWhitespace. rewrite trimTable_spec. simpl.
  induction H as [|r d Hr _ IH]; [reflexivity|].
  simpl. injection IH as IHd IHn. rewrite IHd at 1.
  rewrite List.filter_app, length_app, IHn. clear IHd IHn.
  induction Hr as [|c r Hc _ IHr]; [reflexivity|].
  simpl. rewrite Hc. injection IHr as IHr1 IHr2.
  rewrite (cellTrimmed_unchanged c Hc). rewrite IHr1.
  simpl in IHr2. rewrite Nat.add_0_r in IHr2 |- *. rewrite IHr2. reflexivity.
Qed.

(** Whatever the text and the switches, a run of the revision-3 pipeline on
    a freshly parsed table reports no whitespace fixed. *)
Lemma whitespaceFixed_after_parse (text : string) (o : Options.t) (d' : table) (st : stats) :
  runTransforms utilsV3 o (data (V3.parseCSV text)) (headers (V3.parseCSV text)) = Ok (d', st) ->
  whitespaceFixed st = 0.
Proof.
  pose proof (parseCSV_unchanged text) as Hp.
  set (d := data (V3.parseCSV text)) in *. set (hs := headers (V3.parseCSV text)).
  assert (Hsub : forall d1 : table, d1 `sublist_of` d ->
                 Forall (Forall (fun c => cellChanged c = false)) d1).
  { intros d1 H1. apply Forall_forall. intros r Hr.
    eapply Forall_forall in Hp; [exact Hp|]. eapply elem_of_sublist; eassumption. }
  assert (H1 : (V3.removeEmptyRows d).1 `sublist_of` d)
    by (unfold V3.removeEmptyRows; simpl; apply sublist_filter).
  assert (H2 : forall d1 : table, (V3.removeDuplicates d1).1 `sublist_of` d1).
  { intros d1. destruct (V3_loop_invariant d1) as (_ & Hrows & _).
    unfold V3.removeDuplicates. simpl. rewrite Hrows. apply select_sublist. }
  unfold runTransforms, mbind, result_bind. simpl.
  destruct (Options.removeEmptyRows o), (Options.removeDuplicates o),
           (Options.trimWhitespace o); simpl;
    repeat match goal with
    | |- context [V3.trimWhitespace ?x] =>
        rewrite (trimWhitespace_unchanged x)
          by (apply Hsub; repeat (first [exact H1 | reflexivity
                | etransitivity; [apply H2|]]))
    end; simpl;
    (destruct (Options.standardizeCase o); [destruct (V3.standardizeCase _ hs)|]; simpl;
     try discriminate; intros [= _ <-]; reflexivity).
Qed.

(** ** The JavaScript primitives on samples *)

Example trim_sample : JS.trim (String JS.CR "  a b	 " +:+ nl) = "a b".
Proof. reflexivity. Qed.

Example toLowerCase_sample : JS.toLowerCase "Alice NYC 1E5" = "alice nyc 1e5".
Proof. reflexivity. Qed.

Example split_sample : JS.split "," "a,,b," = ["a"; ""; "b"; ""].
Proof. reflexivity. Qed.

Example splitLines_sample :
  JS.splitLines ("a" +:+ crlf +:+ "b" +:+ nl +:+ String JS.CR "c" +:+ nl)
  = ["a"; "b"; String JS.CR "c"; ""].
Proof. reflexivity. Qed.

Example isNaN_Number_sample :
  map JS.isNaN_Number
      ["12"; " 1.5e3 "; "abc"; ""; "0x1F"; "-Infinity"; "1e"; "."; "1."; "-0x1"; " ";
       "1_0"; "+.5E-2"; "0b102"; "12px"]
  = [false; false; true; false; false; false; true; true; false; true; false;
     true; false; true; true].
Proof. reflexivity. Qed.

Example stringify_sample :
  Json.stringify [CStr "a,b"; CNull; CStr ("x" +:+ nl); CUndefined]
  = "[" +:+ Json.quote "a,b" +:+ ",null," +:+ String Json.DQUOTE "x\n"
    +:+ String Json.DQUOTE ",null]".
Proof. reflexivity. Qed.

(** ** Where the revisions differ *)

(** Revision 1 compares rows exactly, so case variants both stay. *)
Example V1_removeDuplicates_exact_match :
  V1.removeDuplicates (strs [["A"; "1"]; ["a"; "1"]; ["B"; "2"]; ["B"; "2"]])
  = (strs [["A"; "1"]; ["a"; "1"]; ["B"; "2"]], 1).
Proof. vm_compute. reflexivity. Qed.

(** Revision 2 normalises like revision 3, through a JSON signature. *)
Example V2_removeDuplicates_normalised :
  V2.removeDuplicates (strs [["A"; "1"]; [" a"; "1"]; ["B"; "2"]])
  = Ok (strs [["A"; "1"]; ["B"; "2"]], 1).
Proof. vm_compute. reflexivity. Qed.

(** The pipe-joined signature of revision 3 identifies rows that differ in
    where a pipe sits; the JSON signature of revision 2 does not. *)
Example V3_signature_pipe_collision :
  V3.removeDuplicates (strs [["a|b"; "c"]; ["a"; "b|c"]]) = (strs [["a|b"; "c"]], 1) /\
  V2.removeDuplicates (strs [["a|b"; "c"]; ["a"; "b|c"]])
  = Ok (strs [["a|b"; "c"]; ["a"; "b|c"]], 0).
Proof. vm_compute. split; reflexivity. Qed.

(** Revision 1 splits on comma whatever the first line holds. *)
Example V1_parseCSV_comma_only :
  V1.parseCSV ("a;b" +:+ nl +:+ "1;2") = {| data := strs [["1;2"]]; headers := ["a;b"] |}.
Proof. vm_compute. reflexivity. Qed.

(** The delimiter comes from the first line of the text even when that line
    is blank and the header line holds semicolons. *)
Example V3_parseCSV_leading_blank_line :
  V3.parseCSV (nl +:+ "a;b" +:+ nl +:+ "1;2")
  = {| data := strs [["1;2"]]; headers := ["a;b"] |}.
Proof. vm_compute. reflexivity. Qed.

(** Revision 3 drops a row by its first cell alone (policy (b)); revisions 1
    and 2 keep a row that has content anywhere (policy (a)). *)
Example removeEmptyRows_policies :
  V3.removeEmptyRows (strs [[""; "x"]; ["y"; ""]]) = (strs [["y"; ""]], 1) /\
  V1.removeEmptyRows (strs [[""; "x"]; ["y"; ""]]) = Ok (strs [[""; "x"]; ["y"; ""]], 0) /\
  V2.removeEmptyRows (strs [[""; "x"]; ["y"; ""]]) = (strs [[""; "x"]; ["y"; ""]], 0).
Proof. vm_compute. repeat split. Qed.

(** Without the guard of the later revisions, [trimWhitespace] throws on a
    [null] cell. *)
Example V1_trimWhitespace_null_throws :
  V1.trimWhitespace [[CStr " x "; CNull]]
  = Throw (TypeError "Cannot read properties of null (reading 'trim')") /\
  V3.trimWhitespace [[CStr " x "; CNull; CUndefined; CStr ""]]
  = ([[CStr "x"; CNull; CUndefined; CStr ""]], 1).
Proof. vm_compute. split; reflexivity. Qed.

(** [standardizeCase] throws on an [undefined] cell and passes [null]. *)
Example standardizeCase_undefined_throws :
  Common.standardizeCase [[CStr "A"; CNull]] [] = Ok [[CStr "a"; CNull]] /\
  Common.standardizeCase [[CStr "A"; CUndefined]] []
  = Throw (TypeError "Cannot read properties of undefined (reading 'toLowerCase')").
Proof. vm_compute. split; reflexivity. Qed.

(** A table straight from the tokenizer leaves nothing for the trim step. *)
Example parsed_sample :
  V1.parseCSV sampleText
  = {| data := strs [["Alice"; "NYC"]; ["Alice"; "NYC"]; [""; ""]];
       headers := ["Name"; "City"] |}.
Proof. vm_compute. reflexivity. Qed.

(** * Further properties of the transforms *)

Lemma keys_select (d : table) (k : string) :
  k ∈ map V3.normalizedKey (select (keepMask d) d) <-> k ∈ map V3.normalizedKey d.
Proof.
  induction d as [|r d IH] using rev_ind; [reflexivity|].
  rewrite keepMask_snoc, select_snoc by apply keepMask_length.
  rewrite !map_app, !elem_of_app, IH. simpl.
  unfold duplicateOf. destruct (decide (V3.normalizedKey r ∈ map V3.normalizedKey d)) as [Hin|Hnin].
  - rewrite bool_decide_eq_true_2 by exact Hin. simpl.
    rewrite elem_of_nil, list_elem_of_singleton. split; [tauto|].
    intros [H|H]; [tauto|]. subst k. left. exact Hin.
  - rewrite bool_decide_eq_false_2 by exact Hnin. simpl. tauto.
Qed.

Lemma keys_select_NoDup (d : table) :
  NoDup (map V3.normalizedKey (select (keepMask d) d)).
Proof.
  induction d as [|r d IH] using rev_ind; [constructor|].
  rewrite keepMask_snoc, select_snoc by apply keepMask_length.
  unfold duplicateOf. destruct (decide (V3.normalizedKey r ∈ map V3.normalizedKey d)) as [Hin|Hnin].
  - rewrite bool_decide_eq_true_2 by exact Hin. simpl. rewrite app_nil_r. exact IH.
  - rewrite bool_decide_eq_false_2 by exact Hnin. simpl. rewrite map_app. simpl.
    apply NoDup_app. split; [exact IH|]. split; [|apply NoDup_singleton].
    intros k Hk Hk'. apply list_elem_of_singleton in Hk'. subst k.
    apply Hnin, keys_select, Hk.
Qed.

Lemma V3_removeDuplicates_rows (d : table) :
  (V3.removeDuplicates d).1 = select (keepMask d) d.
Proof. destruct (V3_loop_invariant d) as (_ & H & _). exact H. Qed.

Lemma V3_removeDuplicates_count (d : table) :
  (V3.removeDuplicates d).2 = countFalse (keepMask d).
Proof. destruct (V3_loop_invariant d) as (_ & _ & H). exact H. Qed.

(** X1. After [removeDuplicates] (revision 3) no two rows of the output
    share a signature, and every signature of the input is still present. *)
Theorem V3_removeDuplicates_distinct_signatures (d : table) :
  NoDup (map V3.normalizedKey (V3.removeDuplicates d).1) /\
  (forall k, k ∈ map V3.normalizedKey (V3.removeDuplicates d).1
             <-> k ∈ map V3.normalizedKey d).
Proof.
  rewrite V3_removeDuplicates_rows. split; [apply keys_select_NoDup|].
  intros k. apply keys_select.
Qed.

Lemma keepMask_NoDup (d : table) :
  NoDup (map V3.normalizedKey d) ->
  select (keepMask d) d = d /\ countFalse (keepMask d) = 0.
Proof.
  induction d as [|r d IH] using rev_ind; intros Hnd; [done|].
  rewrite map_app in Hnd. apply NoDup_app in Hnd as (Hd & Hr & _).
  destruct (IH Hd) as [Hs Hc].
  rewrite keepMask_snoc, select_snoc, countFalse_snoc by apply keepMask_length.
  unfold duplicateOf. rewrite bool_decide_eq_false_2.
  - simpl. rewrite Hs, Hc. done.
  - intros Hin. apply (Hr _ Hin). simpl. left.
Qed.

Lemma V3_removeDuplicates_NoDup (d : table) :
  NoDup (map V3.normalizedKey d) -> V3.removeDuplicates d = (d, 0).
Proof.
  intros Hnd. destruct (keepMask_NoDup d Hnd) as [Hs Hc].
  rewrite (surjective_pairing (V3.removeDuplicates d)).
  rewrite V3_removeDuplicates_rows, V3_removeDuplicates_count, Hs, Hc. reflexivity.
Qed.

(** X2. Running [removeDuplicates] (revision 3) on its own output removes
    nothing: the table comes back unchanged with count 0. *)
Theorem V3_removeDuplicates_idempotent (d : table) :
  V3.removeDuplicates (V3.removeDuplicates d).1 = ((V3.removeDuplicates d).1, 0).
Proof.
  apply V3_removeDuplicates_NoDup. rewrite V3_removeDuplicates_rows.
  apply keys_select_NoDup.
Qed.

Lemma keepMask_map (f : row -> row) (d : table) :
  (forall r, V3.normalizedKey (f r) = V3.normalizedKey r) ->
  keepMask (map f d) = keepMask d.
Proof.
  intros Hf. induction d as [|r d IH] using rev_ind; [reflexivity|].
  rewrite map_app. simpl. rewrite !keepMask_snoc, IH. do 2 f_equal.
  unfold duplicateOf. rewrite Hf, map_map.
  rewrite (map_ext _ V3.normalizedKey) by (intros; apply Hf).
  reflexivity.
Qed.

Lemma select_map {A B : Type} (f : A -> B) (m : list bool) (d : list A) :
  select m (map f d) = map f (select m d).
Proof.
  unfold select. revert m. induction d as [|x d IH]; intros [|b m]; simpl; try reflexivity.
  destruct b.
  - rewrite !filter_cons_True by reflexivity. simpl. f_equal. apply IH.
  - rewrite !filter_cons_False by discriminate. apply IH.
Qed.

Lemma V3_removeDuplicates_map (f : row -> row) (d : table) :
  (forall r, V3.normalizedKey (f r) = V3.normalizedKey r) ->
  V3.removeDuplicates (map f d)
  = (map f (V3.removeDuplicates d).1, (V3.removeDuplicates d).2).
Proof.
  intros Hf. rewrite (surjective_pairing (V3.removeDuplicates (map f d))).
  rewrite !V3_removeDuplicates_rows, !V3_removeDuplicates_count.
  rewrite (keepMask_map f d Hf), select_map. reflexivity.
Qed.

Lemma normalizedKey_trimmed (r : row) :
  V3.normalizedKey (map cellTrimmed r) = V3.normalizedKey r.
Proof.
  unfold V3.normalizedKey. rewrite map_map. f_equal. apply map_ext.
  intros [| |s]; simpl; try reflexivity. rewrite trim_idempotent. reflexivity.
Qed.

Lemma V3_trimWhitespace_rows (d : table) :
  (V3.trimWhitespace d).1 = map (map cellTrimmed) d.
Proof.
  unfold V3.trimWhitespace, V2.trimWhitespace. rewrite trimTable_spec. reflexivity.
Qed.

(** X3. Duplicate removal and trimming commute (revision 3): trimming first
    and then removing duplicates gives the same table, and the same duplicate
    count, as removing duplicates first and trimming what is left. *)
Theorem V3_removeDuplicates_trimWhitespace_commute (d : table) :
  V3.removeDuplicates (V3.trimWhitespace d).1
  = ((V3.trimWhitespace (V3.removeDuplicates d).1).1, (V3.removeDuplicates d).2).
Proof.
  rewrite !V3_trimWhitespace_rows.
  apply V3_removeDuplicates_map, normalizedKey_trimmed.
Qed.

Lemma cellTrimmed_idempotent (c : cell) : cellTrimmed (cellTrimmed c) = cellTrimmed c.
Proof. destruct c; simpl; try reflexivity. rewrite trim_idempotent. reflexivity. Qed.

Lemma cellChanged_trimmed (c : cell) : cellChanged (cellTrimmed c) = false.
Proof.
  destruct c; simpl; try reflexivity.
  rewrite trim_idempotent, String.eqb_refl. reflexivity.
Qed.

(** X4. [trimWhitespace] (revisions 2 and 3) is idempotent: on its own
    output it changes no cell and counts 0. *)
Theorem V3_trimWhitespace_idempotent (d : table) :
  V3.trimWhitespace (V3.trimWhitespace d).1 = ((V3.trimWhitespace d).1, 0).
Proof.
  apply trimWhitespace_unchanged. rewrite V3_trimWhitespace_rows.
  apply Forall_forall. intros r Hr. apply list_elem_of_fmap in Hr as (r0 & -> & _).
  apply Forall_forall. intros c Hc. apply list_elem_of_fmap in Hc as (c0 & -> & _).
  apply cellChanged_trimmed.
Qed.

Lemma V1_trimCell_str (s : string) (n : nat) :
  V1.trimCell (CStr s) n = Ok (V2.trimCell (CStr s) n).
Proof.
  unfold V1.trimCell, V2.trimCell, mbind, result_bind. simpl.
  destruct (String.eqb s "") eqn:He.
  - apply String.eqb_eq in He. subst s. reflexivity.
  - destruct (decide (JS.trim s = s)) as [Ht|Ht].
    + rewrite Ht. rewrite decide_True by reflexivity. reflexivity.
    + rewrite decide_False by congruence. reflexivity.
Qed.

Lemma mapAccM_pure {A B S : Type} (f : A -> S -> result (B * S)) (g : A -> S -> B * S)
    (l : list A) (s : S) :
  (forall x s0, x ∈ l -> f x s0 = Ok (g x s0)) ->
  mapAccM f l s = Ok (mapAcc g l s).
Proof.
  revert s. induction l as [|x l IH]; intros s H; [reflexivity|].
  simpl. rewrite H by left. unfold mbind, result_bind in *.
  destruct (g x s) as [y s1]. rewrite IH by (intros; apply H; right; assumption).
  destruct (mapAcc g l s1). reflexivity.
Qed.

(** X5. On every table of strings the unguarded [trimWhitespace] of
    revision 1 returns, without throwing, exactly what the guarded one of
    revisions 2 and 3 returns: the guard matters for [null] and [undefined]
    cells only. *)
Theorem V1_trimWhitespace_agrees_on_strings (t : list (list string)) :
  V1.trimWhitespace (strs t) = Ok (V3.trimWhitespace (strs t)).
Proof.
  unfold V1.trimWhitespace, V3.trimWhitespace, V2.trimWhitespace, strs.
  apply mapAccM_pure. intros r n Hr. apply list_elem_of_fmap in Hr as (r0 & -> & _).
  apply mapAccM_pure. intros c m Hc. apply list_elem_of_fmap in Hc as (s & -> & _).
  apply V1_trimCell_str.
Qed.


Lemma filter_filter_impl {A : Type} (P Q : A -> Prop)
    `{!forall x, Decision (P x)} `{!forall x, Decision (Q x)} (l : list A) :
  (forall x, P x -> Q x) -> filter P (filter Q l) = filter P l.
Proof.
  intros HPQ. induction l as [|x l IH]; [reflexivity|].
  destruct (decide (Q x)) as [Hq|Hq].
  - rewrite (filter_cons_True Q) by exact Hq.
    destruct (decide (P x)) as [Hp|Hp].
    + rewrite !(filter_cons_True P) by exact Hp. f_equal. exact IH.
    + rewrite !(filter_cons_False P) by exact Hp. exact IH.
  - rewrite (filter_cons_False Q) by exact Hq.
    rewrite (filter_cons_False P) by (intros Hp; apply Hq, HPQ, Hp). exact IH.
Qed.

Lemma filter_impl_sublist {A : Type} (P Q : A -> Prop)
    `{!forall x, Decision (P x)} `{!forall x, Decision (Q x)} (l : list A) :
  (forall x, P x -> Q x) -> filter P l `sublist_of` filter Q l.
Proof.
  intros HPQ. rewrite <- (filter_filter_impl P Q l HPQ). apply sublist_filter.
Qed.

Lemma nameColumn_content (r : row) :
  JS.trim (V3.nameColumn r) <> "" -> V2.rowHasContent r = true.
Proof.
  destruct r as [|c r]; simpl; [intros H; exfalso; apply H; reflexivity|].
  intros H. rewrite bool_decide_eq_true_2 by exact H. reflexivity.
Qed.

(** X6. The name-column policy of revision 3 removes at least what the
    whole-row policy of revision 2 removes: every row revision 3 keeps is
    kept by revision 2, in the same order, applying revision 3 after
    revision 2 equals applying revision 3 alone, and the count of revision 2
    never exceeds that of revision 3. *)
Theorem removeEmptyRows_name_policy_is_stricter (d : table) :
  (V3.removeEmptyRows d).1 `sublist_of` (V2.removeEmptyRows d).1 /\
  (V3.removeEmptyRows (V2.removeEmptyRows d).1).1 = (V3.removeEmptyRows d).1 /\
  (V2.removeEmptyRows d).2 <= (V3.removeEmptyRows d).2.
Proof.
  assert (Hsub : (V3.removeEmptyRows d).1 `sublist_of` (V2.removeEmptyRows d).1).
  { unfold V3.removeEmptyRows, V2.removeEmptyRows. cbn [fst snd].
    apply filter_impl_sublist. intros r. apply nameColumn_content. }
  split; [exact Hsub|]. split.
  - unfold V3.removeEmptyRows, V2.removeEmptyRows. cbn [fst snd].
    apply filter_filter_impl. intros r. apply nameColumn_content.
  - apply sublist_length in Hsub.
    unfold V3.removeEmptyRows, V2.removeEmptyRows in *. cbn [fst snd] in *. lia.
Qed.

Lemma filterM_pure {A : Type} (f : A -> result bool) (g : A -> bool) (l : list A) :
  (forall x, x ∈ l -> f x = Ok (g x)) ->
  filterM f l = Ok (filter (fun x => g x = true) l).
Proof.
  induction l as [|x l IH]; intros H; [reflexivity|].
  simpl. rewrite H by left. unfold mbind, result_bind in *.
  rewrite IH by (intros; apply H; right; assumption).
  destruct (g x) eqn:Hg.
  - rewrite filter_cons_True by exact Hg. reflexivity.
  - rewrite filter_cons_False by congruence. reflexivity.
Qed.

Lemma V1_rowHasContent_str (r : list string) :
  V1.rowHasContent (map CStr r) = Ok (V2.rowHasContent (map CStr r)).
Proof.
  unfold V1.rowHasContent, V2.rowHasContent.
  induction r as [|c r IH]; [reflexivity|].
  simpl. unfold mbind, result_bind in *. simpl.
  destruct (bool_decide (JS.trim c <> "")); [reflexivity|exact IH].
Qed.

(** X7. On every table of strings [removeEmptyRows] of revision 1 returns,
    without throwing, exactly the table and the count of revision 2: the two
    whole-row implementations differ on [null] and [undefined] cells only. *)
Theorem V1_removeEmptyRows_agrees_on_strings (t : list (list string)) :
  V1.removeEmptyRows (strs t) = Ok (V2.removeEmptyRows (strs t)).
Proof.
  unfold V1.removeEmptyRows, V2.removeEmptyRows.
  rewrite (filterM_pure _ V2.rowHasContent).
  - reflexivity.
  - intros r Hr. unfold strs in Hr. apply list_elem_of_fmap in Hr as (r0 & -> & _).
    apply V1_rowHasContent_str.
Qed.

Lemma filter_idempotent {A : Type} (P : A -> Prop) `{!forall x, Decision (P x)} (l : list A) :
  filter P (filter P l) = filter P l.
Proof. apply filter_filter_impl. auto. Qed.

(** X8. After [removeEmptyRows] (revision 3) every row has a first cell that
    is a non-blank string, and running it again removes nothing. *)
Theorem V3_removeEmptyRows_idempotent (d : table) :
  Forall (fun r => JS.trim (V3.nameColumn r) <> "") (V3.removeEmptyRows d).1 /\
  V3.removeEmptyRows (V3.removeEmptyRows d).1 = ((V3.removeEmptyRows d).1, 0).
Proof.
  unfold V3.removeEmptyRows. cbn [fst snd]. split.
  - apply Forall_forall. intros r Hr. apply list_elem_of_filter in Hr as [Hr _]. exact Hr.
  - f_equal; [apply filter_idempotent|].
    match goal with |- length ?l - length ?l' = 0 =>
      assert (Hl : length l' = length l) by (f_equal; apply filter_idempotent)
    end.
    lia.
Qed.

Lemma lowerChar_idempotent (c : ascii) : JS.lowerChar (JS.lowerChar c) = JS.lowerChar c.
Proof.
  destruct c as [[] [] [] [] [] [] [] []]; vm_compute; reflexivity.
Qed.

Lemma toLowerCase_idempotent (s : string) :
  JS.toLowerCase (JS.toLowerCase s) = JS.toLowerCase s.
Proof.
  induction s as [|c s IH]; [reflexivity|].
  simpl. rewrite lowerChar_idempotent, IH. reflexivity.
Qed.

Lemma caseStandardized_idempotent (s : string) :
  caseStandardized (caseStandardized s) = caseStandardized s.
Proof.
  unfold caseStandardized at 2 3.
  destruct (JS.isNaN_Number s && negb (String.eqb s "")) eqn:Hs.
  - unfold caseStandardized.
    destruct (JS.isNaN_Number (JS.toLowerCase s) && negb (String.eqb (JS.toLowerCase s) ""));
      [apply toLowerCase_idempotent|reflexivity].
  - unfold caseStandardized. rewrite Hs. reflexivity.
Qed.

Lemma standardizeCell_idempotent (c c' : cell) :
  Common.standardizeCell c = Ok c' -> Common.standardizeCell c' = Ok c'.
Proof.
  destruct c as [| |s].
  - intros [= <-]. reflexivity.
  - discriminate.
  - rewrite standardizeCell_str. intros [= <-].
    rewrite standardizeCell_str, caseStandardized_idempotent. reflexivity.
Qed.

Lemma mapM_fixed {A : Type} (f : A -> result A) (l : list A) :
  Forall (fun x => f x = Ok x) l -> mapM f l = Ok l.
Proof.
  induction 1 as [|x l Hx _ IH]; [reflexivity|].
  simpl. rewrite Hx. unfold mbind, result_bind in *. rewrite IH. reflexivity.
Qed.

(** X9. [standardizeCase] is idempotent: whenever it returns a table, that
    table passes through [standardizeCase] again unchanged (whatever the
    headers), so a lowercased text cell never starts to look numeric. *)
Theorem standardizeCase_idempotent (d : table) (hs hs' : list string) :
  match Common.standardizeCase d hs with
  | Ok d' => Common.standardizeCase d' hs' = Ok d'
  | Throw _ => True
  end.
Proof.
  destruct (Common.standardizeCase d hs) as [d'|e] eqn:H; [|exact I].
  unfold Common.standardizeCase in *. apply mapM_Forall2 in H.
  apply mapM_fixed. apply Forall_forall. intros r' Hr'.
  apply list_elem_of_lookup in Hr' as [i Hi].
  destruct (Forall2_lookup_r _ _ _ _ _ H Hi) as (r & _ & Hr).
  apply mapM_Forall2 in Hr. apply mapM_fixed.
  apply Forall_forall. intros c' Hc'. apply list_elem_of_lookup in Hc' as [j Hj].
  destruct (Forall2_lookup_r _ _ _ _ _ Hr Hj) as (c & _ & Hc).
  eapply standardizeCell_idempotent, Hc.
Qed.

(** * Further properties of the pipeline runner *)




Lemma runTransforms_accounts (U : CsvUtils) (o : Options.t) (d d' : table)
    (hs : list string) (st : stats) :
  accounts U ->
  runTransforms U o d hs = Ok (d', st) ->
  length d = length d' + emptyRowsRemoved st + duplicatesRemoved st.
Proof.
  intros (HE & HD & HT & HS). unfold runTransforms, mbind, result_bind.
  destruct (Options.removeEmptyRows o);
    [destruct (removeEmptyRows U d) as [[d1 n1]|e] eqn:H1; [apply HE in H1|]|]; simpl;
    try discriminate;
    (destruct (Options.removeDuplicates o);
      [destruct (removeDuplicates U _) as [[d2 n2]|e] eqn:H2; [apply HD in H2|]|]; simpl;
      try discriminate;
      (destruct (Options.trimWhitespace o);
        [destruct (trimWhitespace U _) as [[d3 n3]|e] eqn:H3; [apply HT in H3|]|]; simpl;
        try discriminate;
        (destruct (Options.standardizeCase o);
          [destruct (standardizeCase U _ hs) as [d4|e] eqn:H4; [apply HS in H4|]|]; simpl;
          try discriminate;
          intros [= <- <-]; simpl; lia))).
Qed.

Lemma V1_uniqueRows_sublist (seen : gset string) (d : table) :
  V1.uniqueRows seen d `sublist_of` d.
Proof.
  revert seen. induction d as [|r d IH]; intros seen; simpl; [constructor|].
  destruct (decide (Json.stringify r ∈ seen)).
  - apply sublist_cons, IH.
  - apply sublist_skip, IH.
Qed.

Lemma V2_loop_inv (d : table) (st st' : V2.loopState) :
  V2.loop d st = Ok st' ->
  exists l, V2.uniqueData st' = V2.uniqueData st ++ l /\ l `sublist_of` d /\
            V2.duplicatesCount st' + length l = V2.duplicatesCount st + length d.
Proof.
  revert st. induction d as [|r d IH]; intros st; simpl.
  - intros [= <-]. exists []. rewrite app_nil_r. split; [done|]. split; [apply sublist_nil|simpl; lia].
  - unfold mbind, result_bind. destruct (V2.step st r) as [st1|e] eqn:Hs; [|discriminate].
    intros H. apply IH in H as (l & Hu & Hsub & Hc).
    unfold V2.step, mbind, result_bind in Hs.
    destruct (V2.rowSignature r) as [sig|e]; [|discriminate].
    injection Hs as <-. destruct (decide (sig ∈ V2.seen st)); simpl in *.
    + exists l. split; [exact Hu|]. split; [apply sublist_cons, Hsub|lia].
    + exists (r :: l). rewrite <- app_assoc in Hu. split; [exact Hu|].
      split; [apply sublist_skip, Hsub|simpl; lia].
Qed.

Lemma V2_removeDuplicates_inv (d d1 : table) (n : nat) :
  V2.removeDuplicates d = Ok (d1, n) -> d1 `sublist_of` d /\ length d = length d1 + n.
Proof.
  unfold V2.removeDuplicates, mbind, result_bind.
  destruct (V2.loop d _) as [st|e] eqn:H; [|discriminate].
  intros [= <- <-]. apply V2_loop_inv in H as (l & Hu & Hsub & Hc). simpl in *.
  rewrite Hu. split; [exact Hsub|lia].
Qed.

Lemma length_filter_le_sub {A : Type} (P : A -> Prop) `{!forall x, Decision (P x)}
    (l : list A) :
  length l = length (filter P l) + (length l - length (filter P l)).
Proof. pose proof (length_filter P l). lia. Qed.

Lemma accounts_V1 : accounts utilsV1.
Proof.
  split; [|split; [|split]]; simpl.
  - intros d d1 n H. unfold V1.removeEmptyRows, mbind, result_bind in H.
    destruct (filterM V1.rowHasContent d) as [l|] eqn:Hf; [|discriminate].
    injection H as <- <-. apply filterM_sublist, sublist_length in Hf. lia.
  - intros d d1 n [= <- <-].
    pose proof (sublist_length _ _ (V1_uniqueRows_sublist ∅ d)). lia.
  - intros d d1 n H. apply V1_trimWhitespace_shape in H.
    apply (f_equal length) in H. unfold shape in H. rewrite !length_map in H. exact H.
  - intros d hs d1 H. apply standardizeCase_shape in H.
    apply (f_equal length) in H. unfold shape in H. rewrite !length_map in H. exact H.
Qed.

Lemma trimWhitespace_length (d : table) : length (V2.trimWhitespace d).1 = length d.
Proof.
  pose proof (V3_trimWhitespace_shape d) as H. apply (f_equal length) in H.
  unfold shape in H. rewrite !length_map in H. exact H.
Qed.

Lemma accounts_V2 : accounts utilsV2.
Proof.
  split; [|split; [|split]]; simpl.
  - intros d d1 n [= <- <-]. apply length_filter_le_sub.
  - intros d d1 n H. apply V2_removeDuplicates_inv in H. tauto.
  - intros d d1 n H. injection H as H. rewrite <- (trimWhitespace_length d), H. reflexivity.
  - intros d hs d1 H. apply standardizeCase_shape in H.
    apply (f_equal length) in H. unfold shape in H. rewrite !length_map in H. exact H.
Qed.

Lemma accounts_V3 : accounts utilsV3.
Proof.
  split; [|split; [|split]]; simpl.
  - intros d d1 n [= <- <-]. apply length_filter_le_sub.
  - intros d d1 n H. injection H as H1 H2.
    pose proof (select_countFalse_length (keepMask d) d (keepMask_length d)) as Hl.
    pose proof (V3_removeDuplicates_rows d) as Hr.
    pose proof (V3_removeDuplicates_count d) as Hc.
    unfold V3.removeDuplicates in Hr, Hc. cbn [fst snd] in Hr, Hc.
    rewrite <- Hr, <- Hc, H1, H2 in Hl. lia.
  - intros d d1 n H. injection H as H.
    unfold V3.trimWhitespace in H. rewrite <- (trimWhitespace_length d), H. reflexivity.
  - intros d hs d1 H. apply standardizeCase_shape in H.
    apply (f_equal length) in H. unfold shape in H. rewrite !length_map in H. exact H.
Qed.

(** X11. In each of the three revisions a successful run accounts for every
    row: the original row count is the final row count plus
    emptyRowsRemoved plus duplicatesRemoved, so the table never grows. *)
Theorem runTransforms_row_accounting (U : CsvUtils) (o : Options.t) (d d' : table)
    (hs : list string) (st : stats) :
  U = utilsV1 \/ U = utilsV2 \/ U = utilsV3 ->
  runTransforms U o d hs = Ok (d', st) ->
  length d = length d' + emptyRowsRemoved st + duplicatesRemoved st /\
  length d' <= length d.
Proof.
  intros HU Hrun.
  assert (Hacc : accounts U)
    by (destruct HU as [->|[->| ->]];
        [apply accounts_V1|apply accounts_V2|apply accounts_V3]).
  pose proof (runTransforms_accounts U o d d' hs st Hacc Hrun). lia.
Qed.

Lemma runTransforms_row_accounting_witness :
  length (strs [[" A "; "1"]; [""; ""]; ["a"; "1"]; ["b"; "2"]])
  = length (strs [["a"; "1"]; ["b"; "2"]]) + 1 + 1 /\
  length (strs [["a"; "1"]; ["b"; "2"]])
  <= length (strs [[" A "; "1"]; [""; ""]; ["a"; "1"]; ["b"; "2"]]).
Proof.
  apply (runTransforms_row_accounting utilsV3 allOn
           (strs [[" A "; "1"]; [""; ""]; ["a"; "1"]; ["b"; "2"]])
           (strs [["a"; "1"]; ["b"; "2"]]) ["k"; "v"]
           {| duplicatesRemoved := 1; whitespaceFixed := 1; emptyRowsRemoved := 1 |}).
  - right. right. reflexivity.
  - vm_compute. reflexivity.
Defined.

Lemma tidy_allStrings (d : table) : tidy d -> allStrings d.
Proof.
  unfold tidy, allStrings. intros H. eapply Forall_impl; [exact H|].
  intros r Hr. eapply Forall_impl; [exact Hr|]. intros c [Hc _]. exact Hc.
Qed.

Lemma tidy_unchanged (d : table) :
  tidy d -> Forall (Forall (fun c => cellChanged c = false)) d.
Proof.
  unfold tidy. intros H. eapply Forall_impl; [exact H|].
  intros r Hr. eapply Forall_impl; [exact Hr|]. intros c [_ Hc]. exact Hc.
Qed.

Lemma tidy_sublist (d d1 : table) : d1 `sublist_of` d -> tidy d -> tidy d1.
Proof.
  unfold tidy. intros Hsub H. apply Forall_forall. intros r Hr.
  eapply Forall_forall in H; [exact H|]. eapply elem_of_sublist; eassumption.
Qed.

Lemma allStrings_row_strs (r : row) : Forall isString r -> r = map CStr (map orEmpty r).
Proof.
  induction 1 as [|c r Hc _ IH]; [reflexivity|].
  simpl. rewrite <- IH. destruct c; simpl in Hc; try contradiction. reflexivity.
Qed.

Lemma allStrings_strs (d : table) : allStrings d -> d = strs (map (map orEmpty) d).
Proof.
  unfold allStrings, strs. induction 1 as [|r d Hr _ IH]; [reflexivity|].
  simpl. rewrite <- IH, <- (allStrings_row_strs r Hr). reflexivity.
Qed.

Lemma strs_allStrings (t : list (list string)) : allStrings (strs t).
Proof.
  unfold allStrings, strs. apply Forall_forall. intros r Hr.
  apply list_elem_of_fmap in Hr as (r0 & -> & _).
  apply Forall_forall. intros c Hc. apply list_elem_of_fmap in Hc as (x & -> & _).
  exact I.
Qed.

Lemma parseLine_tidy (delimiter : ascii) (line : string) :
  Forall tidyCell (V3.parseLine delimiter line).
Proof.
  unfold V3.parseLine. apply Forall_forall. intros c Hc.
  apply list_elem_of_fmap in Hc as (x & -> & _). split; [exact I|]. simpl.
  rewrite trim_idempotent, String.eqb_refl. reflexivity.
Qed.

Lemma parseWith_tidy (delimiter : ascii) (text : string) :
  tidy (data (parseWith delimiter text)).
Proof.
  unfold parseWith, tidy. destruct (nonBlankLines text) as [|l0 rest]; simpl.
  - constructor.
  - apply Forall_forall. intros r Hr.
    apply list_elem_of_fmap in Hr as (line & -> & _). apply parseLine_tidy.
Qed.

Lemma V1_parseCSV_parseWith (text : string) : V1.parseCSV text = parseWith "," text.
Proof. reflexivity. Qed.

Lemma V3_parseCSV_parseWith (text : string) :
  V3.parseCSV text = parseWith (V3.detectDelimiter text) text.
Proof. reflexivity. Qed.

Lemma trimWhitespace_tidy (d : table) : tidy d -> V2.trimWhitespace d = (d, 0).
Proof. intros H. apply (trimWhitespace_unchanged d), tidy_unchanged, H. Qed.

Lemma standardizeCase_allStrings (d : table) (hs : list string) :
  allStrings d -> exists d1, Common.standardizeCase d hs = Ok d1 /\ allStrings d1.
Proof.
  intros H. rewrite (allStrings_strs d H), standardizeCase_strs.
  eexists. split; [reflexivity|apply strs_allStrings].
Qed.

Lemma V2_rowSignature_ok (r : row) :
  Forall isString r -> exists sig, V2.rowSignature r = Ok sig.
Proof.
  intros H. unfold V2.rowSignature.
  rewrite (mapM_ok _ (fun c => CStr (JS.toLowerCase (JS.trim (orEmpty c))))).
  - eexists. reflexivity.
  - intros c Hc. eapply Forall_forall in H; [|exact Hc].
    destruct c; simpl in H; try contradiction. reflexivity.
Qed.

Lemma V2_loop_ok (d : table) (st : V2.loopState) :
  allStrings d -> exists st', V2.loop d st = Ok st'.
Proof.
  unfold allStrings. intros H. revert st.
  induction H as [|r d Hr _ IH]; intros st; simpl; [eauto|].
  unfold V2.step, mbind, result_bind.
  destruct (V2_rowSignature_ok r Hr) as [sig ->]. apply IH.
Qed.

Lemma V1_removeEmptyRows_allStrings (d : table) :
  allStrings d -> V1.removeEmptyRows d = Ok (V2.removeEmptyRows d).
Proof.
  intros Hd. unfold V1.removeEmptyRows, V2.removeEmptyRows.
  rewrite (filterM_pure _ V2.rowHasContent); [reflexivity|].
  intros r Hr. unfold allStrings in Hd. eapply Forall_forall in Hd; [|exact Hr].
  rewrite (allStrings_row_strs r Hd). apply V1_rowHasContent_str.
Qed.

Lemma V1_trimWhitespace_allStrings (d : table) :
  allStrings d -> V1.trimWhitespace d = Ok (V2.trimWhitespace d).
Proof.
  intros Hd. unfold V1.trimWhitespace, V2.trimWhitespace.
  apply mapAccM_pure. intros r n Hr. apply mapAccM_pure. intros c m Hc.
  unfold allStrings in Hd. eapply Forall_forall in Hd; [|exact Hr].
  eapply Forall_forall in Hd; [|exact Hc].
  destruct c; simpl in Hd; try contradiction. apply V1_trimCell_str.
Qed.

Lemma safeOnTidy_V1 : safeOnTidy utilsV1.
Proof.
  split; [|split; [|split]]; simpl.
  - intros d Hd. rewrite (V1_removeEmptyRows_allStrings d (tidy_allStrings d Hd)).
    eexists _, _. split; [reflexivity|].
    eapply tidy_sublist; [|exact Hd]. apply sublist_filter.
  - intros d Hd. eexists _, _. split; [reflexivity|].
    eapply tidy_sublist; [|exact Hd]. apply V1_uniqueRows_sublist.
  - intros d Hd. rewrite (V1_trimWhitespace_allStrings d (tidy_allStrings d Hd)).
    f_equal. apply trimWhitespace_tidy, Hd.
  - intros d hs Hd. apply standardizeCase_allStrings, tidy_allStrings, Hd.
Qed.

Lemma safeOnTidy_V2 : safeOnTidy utilsV2.
Proof.
  split; [|split; [|split]]; simpl.
  - intros d Hd. eexists _, _. split; [reflexivity|].
    eapply tidy_sublist; [|exact Hd]. apply sublist_filter.
  - intros d Hd. unfold V2.removeDuplicates, mbind, result_bind.
    destruct (V2_loop_ok d {| V2.seen := ∅; V2.uniqueData := []; V2.duplicatesCount := 0 |}
                (tidy_allStrings d Hd)) as [st' Hl].
    rewrite Hl. eexists _, _. split; [reflexivity|].
    apply V2_loop_inv in Hl as (l & Hu & Hsub & _). simpl in Hu. rewrite Hu.
    eapply tidy_sublist; [exact Hsub|exact Hd].
  - intros d Hd. f_equal. apply trimWhitespace_tidy, Hd.
  - intros d hs Hd. apply standardizeCase_allStrings, tidy_allStrings, Hd.
Qed.

Lemma safeOnTidy_V3 : safeOnTidy utilsV3.
Proof.
  split; [|split; [|split]]; simpl.
  - intros d Hd. eexists _, _. split; [reflexivity|].
    eapply tidy_sublist; [|exact Hd]. apply sublist_filter.
  - intros d Hd. eexists _, _. split; [reflexivity|].
    eapply tidy_sublist; [|exact Hd].
    change ((V3.removeDuplicates d).1 `sublist_of` d).
    rewrite V3_removeDuplicates_rows. apply select_sublist.
  - intros d Hd. f_equal. apply trimWhitespace_tidy, Hd.
  - intros d hs Hd. apply standardizeCase_allStrings, tidy_allStrings, Hd.
Qed.

Lemma runTransforms_tidy (U : CsvUtils) (o : Options.t) (d : table) (hs : list string) :
  safeOnTidy U -> tidy d ->
  exists d' st, runTransforms U o d hs = Ok (d', st) /\
                whitespaceFixed st = 0 /\ allStrings d'.
Proof.
  intros (HE & HD & HT & HS) Hd. unfold runTransforms, mbind, result_bind.
  destruct (Options.removeEmptyRows o), (Options.removeDuplicates o),
           (Options.trimWhitespace o), (Options.standardizeCase o);
    repeat (cbn beta iota;
      match goal with
      | |- context [removeEmptyRows U ?x] =>
          let H := fresh "Ht" in
          assert (H : tidy x) by assumption;
          destruct (HE x H) as (? & ? & -> & ?)
      | |- context [removeDuplicates U ?x] =>
          let H := fresh "Ht" in
          assert (H : tidy x) by assumption;
          destruct (HD x H) as (? & ? & -> & ?)
      | |- context [trimWhitespace U ?x] => rewrite (HT x) by assumption
      | |- context [standardizeCase U ?x hs] =>
          let H := fresh "Ht" in
          assert (H : tidy x) by assumption;
          destruct (HS x hs H) as (? & -> & ?)
      end);
    cbn beta iota; eexists _, _;
    (split; [reflexivity|split; [reflexivity|
       first [assumption | apply tidy_allStrings; assumption]]]).
Qed.

(** X12. Cleaning a freshly uploaded file never throws: for every text and
    every setting of the switches, in each of the three revisions, the run
    over the parsed table returns a table of strings, and it reports no
    whitespace fixed, because the tokenizer has trimmed every cell. *)
Theorem parsed_run_never_throws (text : string) (o : Options.t) :
  (exists d' st,
     runTransforms utilsV1 o (data (V1.parseCSV text)) (headers (V1.parseCSV text))
     = Ok (d', st) /\ whitespaceFixed st = 0 /\ allStrings d') /\
  (exists d' st,
     runTransforms utilsV2 o (data (V2.parseCSV text)) (headers (V2.parseCSV text))
     = Ok (d', st) /\ whitespaceFixed st = 0 /\ allStrings d') /\
  (exists d' st,
     runTransforms utilsV3 o (data (V3.parseCSV text)) (headers (V3.parseCSV text))
     = Ok (d', st) /\ whitespaceFixed st = 0 /\ allStrings d').
Proof.
  split; [|split].
  - apply runTransforms_tidy; [apply safeOnTidy_V1|].
    rewrite V1_parseCSV_parseWith. apply parseWith_tidy.
  - apply runTransforms_tidy; [apply safeOnTidy_V2|].
    unfold V2.parseCSV. rewrite V1_parseCSV_parseWith. apply parseWith_tidy.
  - apply runTransforms_tidy; [apply safeOnTidy_V3|].
    rewrite V3_parseCSV_parseWith. apply parseWith_tidy.
Qed.

(** * Further properties of the tokenizer and the exporter *)

Lemma includes_trimStart (c : ascii) (s : string) :
  JS.includes c s = false -> JS.includes c (JS.trimStart s) = false.
Proof.
  induction s as [|x s IH]; [reflexivity|].
  cbn [JS.trimStart]. destruct (JS.isWhiteSpace x); [|done].
  simpl. intros H. apply orb_false_iff in H as [_ H]. apply IH, H.
Qed.

Lemma includes_trimEnd (c : ascii) (s : string) :
  JS.includes c s = false -> JS.includes c (JS.trimEnd s) = false.
Proof.
  induction s as [|x s IH]; [reflexivity|].
  simpl. intros H. apply orb_false_iff in H as [Hx Hs].
  specialize (IH Hs). destruct (JS.trimEnd s) as [|y t].
  - destruct (JS.isWhiteSpace x); [reflexivity|]. simpl. rewrite Hx. reflexivity.
  - cbn [JS.includes]. rewrite Hx. exact IH.
Qed.

Lemma includes_trim (c : ascii) (s : string) :
  JS.includes c s = false -> JS.includes c (JS.trim s) = false.
Proof. intros H. apply includes_trimEnd, includes_trimStart, H. Qed.

Lemma consHead_Forall (P : string -> Prop) (c : ascii) (l : list string) :
  (forall p, P p -> P (String c p)) -> P (String c "") ->
  Forall P l -> Forall P (JS.consHead c l).
Proof.
  intros Hc H0 Hl. destruct Hl as [|p l Hp Hl]; simpl.
  - constructor; [exact H0|constructor].
  - constructor; [apply Hc, Hp|exact Hl].
Qed.

(** No piece of a split holds the separator. *)
Lemma split_pieces_no_delimiter (d : ascii) (s : string) :
  Forall (fun p => JS.includes d p = false) (JS.split d s).
Proof.
  induction s as [|c s IH]; simpl; [repeat constructor|].
  destruct (Ascii.eqb c d) eqn:Hc.
  - constructor; [reflexivity|exact IH].
  - apply consHead_Forall; [| |exact IH]; simpl; rewrite Hc; [intros p Hp; exact Hp|reflexivity].
Qed.

(** A code unit absent from the string is absent from the pieces. *)
Lemma split_pieces_absent (c d : ascii) (s : string) :
  JS.includes c s = false -> Forall (fun p => JS.includes c p = false) (JS.split d s).
Proof.
  induction s as [|x s IH]; simpl; [repeat constructor|].
  intros H. apply orb_false_iff in H as [Hx Hs]. specialize (IH Hs).
  destruct (Ascii.eqb x d).
  - constructor; [reflexivity|exact IH].
  - apply consHead_Forall; [| |exact IH]; simpl; rewrite Hx; [intros p Hp; exact Hp|reflexivity].
Qed.

Lemma splitLines_step (c : ascii) (s : string) :
  JS.splitLines (String c s)
  = if Ascii.eqb c JS.LF then EmptyString :: JS.splitLines s
    else if Ascii.eqb c JS.CR then
      match s with
      | String c' s'' =>
          if Ascii.eqb c' JS.LF then EmptyString :: JS.splitLines s''
          else JS.consHead c (JS.splitLines s)
      | EmptyString => JS.consHead c (JS.splitLines s)
      end
    else JS.consHead c (JS.splitLines s).
Proof. destruct s; reflexivity. Qed.

(** No line holds a line feed. *)
Lemma splitLines_no_LF_in_lines (n : nat) (s : string) :
  String.length s <= n ->
  Forall (fun l => JS.includes JS.LF l = false) (JS.splitLines s).
Proof.
  revert s. induction n as [|n IH]; intros s Hlen.
  - destruct s; [repeat constructor|simpl in Hlen; lia].
  - destruct s as [|c s]; [repeat constructor|].
    simpl in Hlen. rewrite splitLines_step.
    assert (IHs : Forall (fun l => JS.includes JS.LF l = false) (JS.splitLines s))
      by (apply IH; lia).
    destruct (Ascii.eqb c JS.LF) eqn:Hc; [constructor; [reflexivity|exact IHs]|].
    assert (Hcons : Forall (fun l => JS.includes JS.LF l = false)
                      (JS.consHead c (JS.splitLines s))).
    { apply consHead_Forall; [| |exact IHs]; simpl; rewrite Hc;
        [intros p Hp; exact Hp|reflexivity]. }
    destruct (Ascii.eqb c JS.CR); [|exact Hcons].
    destruct s as [|c' s]; [exact Hcons|].
    destruct (Ascii.eqb c' JS.LF); [|exact Hcons].
    constructor; [reflexivity|]. apply IH. simpl in Hlen. lia.
Qed.

Lemma parseWith_plain (delimiter : ascii) (text : string) :
  Forall (plain delimiter) (headers (parseWith delimiter text)) /\
  Forall (Forall (fun c => exists s, c = CStr s /\ plain delimiter s))
         (data (parseWith delimiter text)).
Proof.
  assert (Hline : forall line, line ∈ nonBlankLines text ->
            Forall (plain delimiter) (map JS.trim (JS.split delimiter line))).
  { intros line Hin. unfold nonBlankLines in Hin.
    apply list_elem_of_filter in Hin as [_ Hin].
    pose proof (splitLines_no_LF_in_lines (String.length text) text (le_n _)) as HLF.
    eapply Forall_forall in HLF; [|exact Hin].
    pose proof (split_pieces_no_delimiter delimiter line) as Hd.
    pose proof (split_pieces_absent JS.LF delimiter line HLF) as Hl.
    apply Forall_forall. intros x Hx.
    apply list_elem_of_fmap in Hx as (y & -> & Hy).
    eapply Forall_forall in Hd; [|exact Hy]. eapply Forall_forall in Hl; [|exact Hy].
    split; [apply trim_idempotent|].
    split; apply includes_trim; assumption. }
  unfold parseWith. destruct (nonBlankLines text) as [|l0 rest] eqn:Hnb; simpl.
  - split; constructor.
  - split; [apply Hline; left|].
    apply Forall_forall. intros r Hr. apply list_elem_of_fmap in Hr as (line & -> & Hin).
    unfold V3.parseLine. rewrite <- (map_map JS.trim CStr).
    apply Forall_forall. intros c Hc. apply list_elem_of_fmap in Hc as (x & -> & Hx).
    exists x. split; [reflexivity|].
    eapply Forall_forall in Hx; [exact Hx|]. apply Hline. right. exact Hin.
Qed.

(** X13. Every header and every cell [parseCSV] returns is a string that is
    already trimmed and that holds neither a line feed nor the delimiter
    the text was split on (the comma in revision 1, the detected delimiter
    in revision 3). *)
Theorem parseCSV_cells_are_plain (text : string) :
  (Forall (plain ",") (headers (V1.parseCSV text)) /\
   Forall (Forall (fun c => exists s, c = CStr s /\ plain "," s)) (data (V1.parseCSV text))) /\
  (Forall (plain (V3.detectDelimiter text)) (headers (V3.parseCSV text)) /\
   Forall (Forall (fun c => exists s, c = CStr s /\ plain (V3.detectDelimiter text) s))
          (data (V3.parseCSV text))).
Proof.
  split.
  - rewrite V1_parseCSV_parseWith. apply parseWith_plain.
  - rewrite V3_parseCSV_parseWith. apply parseWith_plain.
Qed.

Lemma nonBlankLines_nil_inv (text : string) :
  nonBlankLines text = [] -> Forall blank (JS.splitLines text).
Proof.
  unfold nonBlankLines. induction (JS.splitLines text) as [|l ls IH]; [constructor|].
  destruct (decide (JS.trim l <> "")) as [Hl|Hl].
  - rewrite filter_cons_True by exact Hl. discriminate.
  - rewrite filter_cons_False by exact Hl. intros H. constructor; [|apply IH, H].
    unfold blank. destruct (decide (JS.trim l = "")); [assumption|contradiction].
Qed.

Lemma parseWith_shape (delimiter : ascii) (text : string) :
  (parseWith delimiter text = emptyParse <-> Forall blank (JS.splitLines text)) /\
  (headers (parseWith delimiter text) = [] <-> Forall blank (JS.splitLines text)) /\
  length (data (parseWith delimiter text)) = length (nonBlankLines text) - 1 /\
  Forall (fun r => r <> []) (data (parseWith delimiter text)).
Proof.
  unfold parseWith.
  destruct (nonBlankLines text) as [|l0 rest] eqn:Hnb.
  - pose proof (nonBlankLines_nil_inv text Hnb) as Hb.
    split; [tauto|]. split; [simpl; tauto|]. split; [reflexivity|constructor].
  - assert (Hnot : ~ Forall blank (JS.splitLines text)).
    { intros Hb. apply nonBlankLines_nil in Hb. congruence. }
    assert (Hh : map JS.trim (JS.split delimiter l0) <> []).
    { pose proof (split_nonempty delimiter l0). destruct (JS.split delimiter l0); done. }
    split; [|split; [|split]]; simpl.
    + split; [|tauto]. unfold emptyParse. intros [= _ H]. contradiction.
    + tauto.
    + rewrite length_map. lia.
    + apply Forall_forall. intros r Hr. apply list_elem_of_fmap in Hr as (line & -> & _).
      unfold V3.parseLine. pose proof (split_nonempty delimiter line).
      destruct (JS.split delimiter line); done.
Qed.

(** X14. [parseCSV] returns the empty result, and an empty header list, only
    for a text whose lines are all blank; otherwise there is at least one
    header, the table has one row per non-blank line after the first, and
    every row has at least one cell (both revisions). *)
Theorem parseCSV_shape (text : string) :
  ((V1.parseCSV text = emptyParse <-> Forall blank (JS.splitLines text)) /\
   (headers (V1.parseCSV text) = [] <-> Forall blank (JS.splitLines text)) /\
   length (data (V1.parseCSV text)) = length (nonBlankLines text) - 1 /\
   Forall (fun r => r <> []) (data (V1.parseCSV text))) /\
  ((V3.parseCSV text = emptyParse <-> Forall blank (JS.splitLines text)) /\
   (headers (V3.parseCSV text) = [] <-> Forall blank (JS.splitLines text)) /\
   length (data (V3.parseCSV text)) = length (nonBlankLines text) - 1 /\
   Forall (fun r => r <> []) (data (V3.parseCSV text))).
Proof.
  split.
  - rewrite V1_parseCSV_parseWith. apply parseWith_shape.
  - rewrite V3_parseCSV_parseWith. apply parseWith_shape.
Qed.

(** ** Export and re-import *)

Lemma lastIsWhite_cons (c : ascii) (s : string) :
  lastIsWhite (String c s) = match s with EmptyString => JS.isWhiteSpace c | _ => lastIsWhite s end.
Proof. destruct s; reflexivity. Qed.

Lemma lastIsWhite_trimEnd (s : string) : lastIsWhite (JS.trimEnd s) = false.
Proof.
  induction s as [|c s IH]; [reflexivity|].
  cbn [JS.trimEnd]. destruct (JS.trimEnd s) as [|d t].
  - destruct (JS.isWhiteSpace c) eqn:Hc; [reflexivity|]. simpl. exact Hc.
  - rewrite lastIsWhite_cons. exact IH.
Qed.

Lemma plain_lastIsWhite (d : ascii) (s : string) : plain d s -> lastIsWhite s = false.
Proof. intros (Ht & _). rewrite <- Ht. apply lastIsWhite_trimEnd. Qed.

Lemma lastIsWhite_app (a b : string) :
  lastIsWhite (a +:+ b) = match b with EmptyString => lastIsWhite a | _ => lastIsWhite b end.
Proof.
  induction a as [|c a IH]; [destruct b; reflexivity|].
  change (String c a +:+ b) with (String c (a +:+ b)).
  rewrite lastIsWhite_cons, IH. destruct a as [|c' a]; destruct b; reflexivity.
Qed.

Lemma includes_app (c : ascii) (a b : string) :
  JS.includes c (a +:+ b) = JS.includes c a || JS.includes c b.
Proof.
  induction a as [|x a IH]; [reflexivity|].
  simpl. rewrite IH, orb_assoc. reflexivity.
Qed.

Lemma allChars_app (p : ascii -> bool) (a b : string) :
  JS.allChars p (a +:+ b) = JS.allChars p a && JS.allChars p b.
Proof.
  induction a as [|x a IH]; [reflexivity|].
  simpl. rewrite IH, andb_assoc. reflexivity.
Qed.

Lemma join_cons_cons (sep x y : string) (l : list string) :
  JS.join sep (x :: y :: l) = x +:+ sep +:+ JS.join sep (y :: l).
Proof. reflexivity. Qed.

Lemma join_lastIsWhite (d : ascii) (l : list string) :
  JS.isWhiteSpace d = false ->
  Forall (fun x => lastIsWhite x = false) l ->
  lastIsWhite (JS.join (String d "") l) = false.
Proof.
  intros Hd H. induction H as [|x l Hx Hl IH]; [reflexivity|].
  destruct l as [|y l]; [exact Hx|].
  rewrite join_cons_cons, lastIsWhite_app.
  change (String d "" +:+ JS.join (String d "") (y :: l))
    with (String d (JS.join (String d "") (y :: l))).
  rewrite lastIsWhite_cons. destruct (JS.join (String d "") (y :: l)); [exact Hd|exact IH].
Qed.

Lemma join_includes (c d : ascii) (l : list string) :
  Ascii.eqb d c = false ->
  Forall (fun x => JS.includes c x = false) l ->
  JS.includes c (JS.join (String d "") l) = false.
Proof.
  intros Hd H. induction H as [|x l Hx Hl IH]; [reflexivity|].
  destruct l as [|y l]; [exact Hx|].
  rewrite join_cons_cons, !includes_app, Hx, IH. simpl. rewrite Hd. reflexivity.
Qed.

Lemma split_none (d : ascii) (x : string) :
  JS.includes d x = false -> JS.split d x = [x].
Proof.
  induction x as [|c x IH]; [reflexivity|].
  simpl. intros H. apply orb_false_iff in H as [Hc Hx].
  rewrite Hc, (IH Hx). reflexivity.
Qed.

Lemma split_app (d : ascii) (x rest : string) :
  JS.includes d x = false ->
  JS.split d (x +:+ String d rest) = x :: JS.split d rest.
Proof.
  induction x as [|c x IH]; simpl.
  - intros _. rewrite Ascii.eqb_refl. reflexivity.
  - intros H. apply orb_false_iff in H as [Hc Hx]. rewrite Hc, (IH Hx). reflexivity.
Qed.

Lemma split_join (d : ascii) (l : list string) :
  Forall (fun x => JS.includes d x = false) l -> l <> [] ->
  JS.split d (JS.join (String d "") l) = l.
Proof.
  intros H. induction H as [|x l Hx Hl IH]; [done|]. intros _.
  destruct l as [|y l]; [apply split_none, Hx|].
  rewrite join_cons_cons.
  change (String d "" +:+ JS.join (String d "") (y :: l))
    with (String d (JS.join (String d "") (y :: l))).
  rewrite split_app by exact Hx. f_equal. apply IH. discriminate.
Qed.

Lemma join_split (d : ascii) (s : string) :
  JS.join (String d "") (JS.split d s) = s.
Proof.
  induction s as [|c s IH]; [reflexivity|].
  simpl. pose proof (split_nonempty d s) as Hne.
  destruct (JS.split d s) as [|p ps] eqn:Hs; [done|].
  destruct (Ascii.eqb c d) eqn:Hc.
  - apply Ascii.eqb_eq in Hc. subst c.
    rewrite join_cons_cons, IH. reflexivity.
  - simpl. destruct ps as [|q ps]; simpl in *; rewrite <- IH; reflexivity.
Qed.

Lemma splitLines_app (l rest : string) :
  JS.includes JS.LF l = false -> lastIsWhite l = false ->
  JS.splitLines (l +:+ String JS.LF rest) = l :: JS.splitLines rest.
Proof.
  induction l as [|c l IH]; [reflexivity|].
  intros HLF Hlast. simpl in HLF. apply orb_false_iff in HLF as [Hc Hl].
  rewrite lastIsWhite_cons in Hlast.
  change (String c l +:+ String JS.LF rest) with (String c (l +:+ String JS.LF rest)).
  rewrite splitLines_step, Hc.
  destruct l as [|c' l].
  - destruct (Ascii.eqb c JS.CR) eqn:Hr.
    + apply Ascii.eqb_eq in Hr. subst c. discriminate Hlast.
    + reflexivity.
  - rewrite (IH Hl Hlast).
    change (String c' l +:+ String JS.LF rest) with (String c' (l +:+ String JS.LF rest)).
    simpl in Hl. apply orb_false_iff in Hl as [Hc' _]. rewrite Hc'.
    destruct (Ascii.eqb c JS.CR); reflexivity.
Qed.

Lemma splitLines_join (lines : list string) :
  lines <> [] ->
  Forall (fun l => JS.includes JS.LF l = false /\ lastIsWhite l = false) lines ->
  JS.splitLines (JS.join nl lines) = lines.
Proof.
  intros Hne H. induction H as [|l lines [Hl Hw] _ IH]; [done|].
  destruct lines as [|l' lines]; [apply splitLines_no_LF, Hl|].
  rewrite join_cons_cons.
  change (nl +:+ JS.join nl (l' :: lines)) with (String JS.LF (JS.join nl (l' :: lines))).
  rewrite splitLines_app by assumption. f_equal. apply IH. discriminate.
Qed.

Lemma trimEnd_empty (s : string) :
  JS.trimEnd s = "" -> JS.allChars JS.isWhiteSpace s = true.
Proof.
  induction s as [|c s IH]; [reflexivity|].
  cbn [JS.trimEnd]. destruct (JS.trimEnd s) as [|d t]; [|discriminate].
  destruct (JS.isWhiteSpace c) eqn:Hc; [|discriminate].
  intros _. simpl. rewrite Hc. apply IH. reflexivity.
Qed.

Lemma trim_empty (s : string) :
  JS.trim s = "" -> JS.allChars JS.isWhiteSpace s = true.
Proof.
  unfold JS.trim. induction s as [|c s IH]; [reflexivity|].
  cbn [JS.trimStart]. destruct (JS.isWhiteSpace c) eqn:Hc.
  - intros H. simpl. rewrite Hc. apply IH, H.
  - intros H. apply trimEnd_empty in H. simpl in H. rewrite Hc in H. discriminate.
Qed.

Lemma exportable_line (d : ascii) (l : list string) :
  JS.isWhiteSpace d = false -> exportable d l ->
  let line := JS.join (String d "") l in
  JS.includes JS.LF line = false /\ lastIsWhite line = false /\
  JS.trim line <> "" /\ map JS.trim (JS.split d line) = l.
Proof.
  intros Hd (Hp & Hne & Hne1) line.
  assert (HdLF : Ascii.eqb d JS.LF = false).
  { destruct (Ascii.eqb d JS.LF) eqn:E; [|reflexivity].
    apply Ascii.eqb_eq in E. subst d. discriminate Hd. }
  split; [|split; [|split]].
  - apply join_includes; [exact HdLF|].
    eapply Forall_impl; [exact Hp|]. intros x (_ & _ & Hx). exact Hx.
  - apply join_lastIsWhite; [exact Hd|].
    eapply Forall_impl; [exact Hp|]. intros x Hx. eapply plain_lastIsWhite, Hx.
  - destruct l as [|x [|y l]]; [done| |].
    + unfold line. simpl. apply Forall_inv in Hp as (Ht & _). rewrite Ht.
      intros ->. apply Hne1. reflexivity.
    + intros Ht. apply trim_empty in Ht. unfold line in Ht.
      rewrite join_cons_cons, !allChars_app in Ht. simpl in Ht.
      rewrite Hd in Ht. rewrite andb_false_r in Ht. discriminate.
  - unfold line. rewrite split_join; [|
      eapply Forall_impl; [exact Hp|]; intros x (_ & Hx & _); exact Hx | exact Hne].
    clear -Hp. induction Hp as [|x l (Ht & _) _ IH]; [reflexivity|].
    simpl. rewrite Ht, IH. reflexivity.
Qed.

Lemma joinRow_strs (delimiter : string) (r : list string) :
  joinRow delimiter (map CStr r) = JS.join delimiter r.
Proof.
  unfold joinRow. rewrite map_map. simpl. rewrite map_id. reflexivity.
Qed.

Lemma export_reimport (d : ascii) (hs : list string) (t : list (list string)) :
  JS.isWhiteSpace d = false ->
  exportable d hs -> Forall (exportable d) t ->
  parseWith d (Download.csvContent (String d "") hs (strs t))
  = {| data := strs t; headers := hs |}.
Proof.
  intros Hd Hhs Ht.
  set (lines := JS.join (String d "") hs :: map (JS.join (String d "")) t).
  assert (Hcontent : Download.csvContent (String d "") hs (strs t) = JS.join nl lines).
  { unfold Download.csvContent, lines, strs. rewrite map_map.
    do 2 f_equal. apply map_ext. intros r. apply joinRow_strs. }
  assert (Hlines : Forall (fun l => JS.includes JS.LF l = false /\ lastIsWhite l = false /\
                                    JS.trim l <> "") lines).
  { unfold lines. constructor.
    - destruct (exportable_line d hs Hd Hhs) as (H1 & H2 & H3 & _). auto.
    - apply Forall_forall. intros l Hl. apply list_elem_of_fmap in Hl as (r & -> & Hr).
      eapply Forall_forall in Ht; [|exact Hr].
      destruct (exportable_line d r Hd Ht) as (H1 & H2 & H3 & _). auto. }
  assert (Hnb : nonBlankLines (JS.join nl lines) = lines).
  { unfold nonBlankLines. rewrite splitLines_join.
    - clear -Hlines. induction Hlines as [|l ls (_ & _ & Hl) _ IH]; [reflexivity|].
      rewrite filter_cons_True by exact Hl. f_equal. exact IH.
    - unfold lines. discriminate.
    - eapply Forall_impl; [exact Hlines|]. intros l (H1 & H2 & _). auto. }
  unfold parseWith. rewrite Hcontent, Hnb. unfold lines. f_equal.
  - unfold strs. rewrite map_map. apply map_ext_in. intros r Hr.
    apply list_elem_of_In in Hr. eapply Forall_forall in Ht; [|exact Hr].
    destruct (exportable_line d r Hd Ht) as (_ & _ & _ & H4).
    unfold V3.parseLine. rewrite <- (map_map JS.trim CStr). simpl in H4.
    rewrite H4. reflexivity.
  - destruct (exportable_line d hs Hd Hhs) as (_ & _ & _ & H4). exact H4.
Qed.

(** X15. Export then import is the identity on well-formed tables
    (revisions 1 and 2): if the header list and every row are non-empty, not
    a single empty cell, and made of trimmed strings without comma or line
    feed, then parsing the exported text gives back exactly these headers
    and rows, whatever the file name. *)
Theorem V1_export_then_parse (hs : list string) (t : list (list string)) (fileName : string) :
  exportable "," hs -> Forall (exportable ",") t ->
  V1.parseCSV (Download.csvContentV1 (strs t) hs fileName)
  = {| data := strs t; headers := hs |}.
Proof.
  intros Hhs Ht. rewrite V1_parseCSV_parseWith. unfold Download.csvContentV1.
  apply (export_reimport "," hs t); [reflexivity|exact Hhs|exact Ht].
Qed.

Lemma V1_export_then_parse_witness :
  V1.parseCSV (Download.csvContentV1 (strs [["Alice"; "NYC"]; [""; "x y"]])
                                     ["Name"; "City"] "people.csv")
  = {| data := strs [["Alice"; "NYC"]; [""; "x y"]]; headers := ["Name"; "City"] |}.
Proof.
  apply (V1_export_then_parse ["Name"; "City"] [["Alice"; "NYC"]; [""; "x y"]] "people.csv").
  - split; [|split; discriminate]. repeat constructor.
  - repeat constructor; discriminate.
Defined.

Lemma parsed_line_exportable (d : ascii) (text line : string) :
  line ∈ nonBlankLines text -> exportable d (map JS.trim (JS.split d line)).
Proof.
  intros Hin. unfold nonBlankLines in Hin.
  apply list_elem_of_filter in Hin as [Hnb Hin].
  pose proof (splitLines_no_LF_in_lines (String.length text) text (le_n _)) as HLF.
  eapply Forall_forall in HLF; [|exact Hin].
  pose proof (split_pieces_no_delimiter d line) as Hd.
  pose proof (split_pieces_absent JS.LF d line HLF) as Hl.
  split; [|split].
  - apply Forall_forall. intros x Hx.
    apply list_elem_of_fmap in Hx as (y & -> & Hy).
    eapply Forall_forall in Hd; [|exact Hy]. eapply Forall_forall in Hl; [|exact Hy].
    split; [apply trim_idempotent|]. split; apply includes_trim; assumption.
  - pose proof (split_nonempty d line). destruct (JS.split d line); done.
  - intros H. pose proof (join_split d line) as Hj.
    destruct (JS.split d line) as [|x [|y l]]; try discriminate.
    simpl in H, Hj. injection H as H. subst x. contradiction.
Qed.

Lemma parseWith_reimport (d : ascii) (text : string) :
  JS.isWhiteSpace d = false ->
  parseWith d (Download.csvContent (String d "") (headers (parseWith d text))
                                   (data (parseWith d text)))
  = parseWith d text.
Proof.
  intros Hd. unfold parseWith at 2 3 4.
  destruct (nonBlankLines text) as [|l0 rest] eqn:Hnb; [reflexivity|]. simpl.
  assert (Hdata : map (V3.parseLine d) rest
                  = strs (map (fun line => map JS.trim (JS.split d line)) rest)).
  { unfold strs, V3.parseLine. rewrite map_map. apply map_ext. intros line.
    rewrite map_map. reflexivity. }
  rewrite Hdata. apply export_reimport; [exact Hd| |].
  - apply (parsed_line_exportable d text). rewrite Hnb. left.
  - apply Forall_forall. intros r Hr. apply list_elem_of_fmap in Hr as (line & -> & Hin).
    apply (parsed_line_exportable d text). rewrite Hnb. right. exact Hin.
Qed.

(** X16. Re-importing an export reproduces the table (revisions 1 and 2):
    for every text, exporting the parsed headers and rows and parsing the
    exported text again gives exactly the first parse result. *)
Theorem V1_parse_export_parse (text fileName : string) :
  V1.parseCSV (Download.csvContentV1 (data (V1.parseCSV text)) (headers (V1.parseCSV text))
                                     fileName)
  = V1.parseCSV text.
Proof.
  rewrite !V1_parseCSV_parseWith. unfold Download.csvContentV1.
  apply parseWith_reimport. reflexivity.
Qed.

Lemma split_two_pieces (d : ascii) (s : string) :
  JS.includes d s = true -> exists a b l, JS.split d s = a :: b :: l.
Proof.
  induction s as [|c s IH]; [discriminate|].
  simpl. destruct (Ascii.eqb c d) eqn:Hc; simpl.
  - intros _. pose proof (split_nonempty d s).
    destruct (JS.split d s) as [|b l]; [done|]. eauto.
  - intros H. destruct (IH H) as (a & b & l & ->). simpl. eauto.
Qed.

Lemma join_includes_delimiter (d : ascii) (a b : string) (l : list string) :
  JS.includes d (JS.join (String d "") (a :: b :: l)) = true.
Proof.
  rewrite join_cons_cons, !includes_app. simpl. rewrite Ascii.eqb_refl.
  rewrite orb_true_r. reflexivity.
Qed.

Lemma nonBlankLines_first (text : string) :
  JS.trim (V3.firstLine text) <> "" ->
  exists rest, nonBlankLines text = V3.firstLine text :: rest.
Proof.
  unfold V3.firstLine, nonBlankLines. pose proof (splitLines_nonempty text).
  destruct (JS.splitLines text) as [|l ls]; [done|]. intros Hl.
  rewrite filter_cons_True by exact Hl. eauto.
Qed.

Lemma detectDelimiter_cases (text : string) :
  (V3.detectDelimiter text = ";"%char /\ JS.includes ";" (V3.firstLine text) = true) \/
  (V3.detectDelimiter text = ","%char /\ JS.includes ";" (V3.firstLine text) = false).
Proof.
  unfold V3.detectDelimiter, V3.SEMICOLON, V3.COMMA.
  destruct (JS.includes ";" (V3.firstLine text)); auto.
Qed.

Lemma detectDelimiter_export (text : string) :
  JS.trim (V3.firstLine text) <> "" ->
  let p := V3.parseCSV text in
  let d := V3.detectDelimiter text in
  V3.detectDelimiter (Download.csvContent (String d "") (headers p) (data p)) = d.
Proof.
  intros Hfl p d.
  destruct (nonBlankLines_first text Hfl) as [rest Hnb].
  assert (Hws : JS.isWhiteSpace d = false).
  { unfold d. destruct (detectDelimiter_cases text) as [[-> _]|[-> _]]; reflexivity. }
  assert (Hhs : headers p = map JS.trim (JS.split d (V3.firstLine text))).
  { unfold p. rewrite V3_parseCSV_parseWith. unfold parseWith. rewrite Hnb. reflexivity. }
  assert (Hdata : data p = strs (map (fun line => map JS.trim (JS.split d line)) rest)).
  { unfold p. rewrite V3_parseCSV_parseWith. unfold parseWith. rewrite Hnb. simpl.
    unfold strs, V3.parseLine. rewrite map_map. apply map_ext. intros line.
    rewrite map_map. reflexivity. }
  assert (Hexp : forall line, line ∈ nonBlankLines text ->
                   exportable d (map JS.trim (JS.split d line)))
    by (intros line; apply parsed_line_exportable).
  assert (Hfirst : V3.firstLine (Download.csvContent (String d "") (headers p) (data p))
                   = JS.join (String d "") (headers p)).
  { rewrite Hdata. unfold Download.csvContent, strs. rewrite map_map.
    rewrite (map_ext _ (JS.join (String d ""))) by (intros r; apply joinRow_strs).
    unfold V3.firstLine. rewrite splitLines_join; [reflexivity|discriminate|].
    constructor.
    - rewrite Hhs. destruct (exportable_line d _ Hws (Hexp _ ltac:(rewrite Hnb; left)))
        as (H1 & H2 & _). auto.
    - apply Forall_forall. intros l Hl. apply list_elem_of_fmap in Hl as (r0 & -> & Hr0).
      apply list_elem_of_fmap in Hr0 as (r & -> & Hr).
      destruct (exportable_line d _ Hws (Hexp r ltac:(rewrite Hnb; right; exact Hr)))
        as (H1 & H2 & _). auto. }
  unfold V3.detectDelimiter at 1. rewrite Hfirst, Hhs. unfold V3.SEMICOLON, V3.COMMA.
  destruct (detectDelimiter_cases text) as [[Hd Hin]|[Hd Hin]]; fold d in Hd; rewrite Hd.
  - rewrite Hd in Hin || idtac.
    destruct (split_two_pieces ";" (V3.firstLine text) Hin) as (a & b & l & ->).
    simpl map. rewrite join_includes_delimiter. reflexivity.
  - rewrite join_includes; [reflexivity|reflexivity|].
    apply Forall_forall. intros x Hx. apply list_elem_of_fmap in Hx as (y & -> & Hy).
    apply includes_trim.
    pose proof (split_pieces_absent ";" "," (V3.firstLine text) Hin) as Hp.
    eapply Forall_forall in Hp; [exact Hp|exact Hy].
Qed.

(** X17. Re-import in revision 3 needs two things the code does not
    enforce: if the file name selects the delimiter that was detected at
    parse time, and the text starts with its header line (its first line is
    not blank), then exporting the parsed table and parsing the export again
    gives exactly the first parse result. *)
Theorem V3_parse_export_parse (text fileName : string) :
  Download.delimiterV3 fileName = String (V3.detectDelimiter text) "" ->
  JS.trim (V3.firstLine text) <> "" ->
  V3.parseCSV (Download.csvContentV3 (data (V3.parseCSV text)) (headers (V3.parseCSV text))
                                     fileName)
  = V3.parseCSV text.
Proof.
  intros Hname Hfl. unfold Download.csvContentV3. rewrite Hname.
  rewrite (V3_parseCSV_parseWith (Download.csvContent _ _ _)).
  rewrite (detectDelimiter_export text Hfl).
  rewrite (V3_parseCSV_parseWith text). apply parseWith_reimport.
  destruct (detectDelimiter_cases text) as [[-> _]|[-> _]]; reflexivity.
Qed.

Lemma V3_parse_export_parse_witness :
  V3.parseCSV (Download.csvContentV3
                 (data (V3.parseCSV ("a; b" +:+ nl +:+ "1,5 ;2" +:+ nl)))
                 (headers (V3.parseCSV ("a; b" +:+ nl +:+ "1,5 ;2" +:+ nl)))
                 "semicolon-export.csv")
  = V3.parseCSV ("a; b" +:+ nl +:+ "1,5 ;2" +:+ nl).
Proof.
  apply (V3_parse_export_parse ("a; b" +:+ nl +:+ "1,5 ;2" +:+ nl) "semicolon-export.csv").
  - reflexivity.
  - vm_compute. discriminate.
Defined.

(** Without the two conditions the re-import can differ: a semicolon file
    exported under a name without the word, and a text whose header line
    follows a blank line. *)
Example V3_reimport_differs :
  V3.parseCSV (Download.csvContentV3
                 (data (V3.parseCSV ("a;b" +:+ nl +:+ "1,5;2")))
                 (headers (V3.parseCSV ("a;b" +:+ nl +:+ "1,5;2"))) "export.csv")
  = {| data := strs [["1"; "5"; "2"]]; headers := ["a"; "b"] |} /\
  V3.parseCSV ("a;b" +:+ nl +:+ "1,5;2")
  = {| data := strs [["1,5"; "2"]]; headers := ["a"; "b"] |} /\
  V3.parseCSV (Download.csvContentV3
                 (data (V3.parseCSV (nl +:+ "a;b,c" +:+ nl +:+ "1,2")))
                 (headers (V3.parseCSV (nl +:+ "a;b,c" +:+ nl +:+ "1,2"))) "export.csv")
  = {| data := strs [["1,2"]]; headers := ["a"; "b,c"] |} /\
  V3.parseCSV (nl +:+ "a;b,c" +:+ nl +:+ "1,2")
  = {| data := strs [["1"; "2"]]; headers := ["a;b"; "c"] |}.
Proof. vm_compute. repeat split. Qed.

(** * Case standardisation against duplicate removal *)

Lemma isWhiteSpace_lowerChar (c : ascii) :
  JS.isWhiteSpace (JS.lowerChar c) = JS.isWhiteSpace c.
Proof.
  destruct c as [[] [] [] [] [] [] [] []]; vm_compute; reflexivity.
Qed.

Lemma trimStart_toLowerCase (s : string) :
  JS.trimStart (JS.toLowerCase s) = JS.toLowerCase (JS.trimStart s).
Proof.
  induction s as [|c s IH]; [reflexivity|].
  cbn [JS.toLowerCase JS.trimStart]. rewrite isWhiteSpace_lowerChar.
  destruct (JS.isWhiteSpace c); [exact IH|reflexivity].
Qed.

Lemma trimEnd_toLowerCase (s : string) :
  JS.trimEnd (JS.toLowerCase s) = JS.toLowerCase (JS.trimEnd s).
Proof.
  induction s as [|c s IH]; [reflexivity|].
  cbn [JS.toLowerCase JS.trimEnd]. rewrite IH, isWhiteSpace_lowerChar.
  destruct (JS.trimEnd s); cbn [JS.toLowerCase];
    [destruct (JS.isWhiteSpace c)|]; reflexivity.
Qed.

Lemma trim_toLowerCase (s : string) :
  JS.trim (JS.toLowerCase s) = JS.toLowerCase (JS.trim s).
Proof. unfold JS.trim. rewrite trimStart_toLowerCase, trimEnd_toLowerCase. reflexivity. Qed.

Lemma normalizedKey_caseStandardized (r : row) :
  V3.normalizedKey (map (fun c => CStr (caseStandardized (orEmpty c))) r)
  = V3.normalizedKey r.
Proof.
  unfold V3.normalizedKey. rewrite map_map. f_equal. apply map_ext. intros c. simpl.
  unfold caseStandardized.
  destruct (JS.isNaN_Number (orEmpty c) && negb (String.eqb (orEmpty c) "")); [|reflexivity].
  rewrite trim_toLowerCase. apply toLowerCase_idempotent.
Qed.

Lemma standardizeCase_allStrings_map (d : table) (hs : list string) :
  allStrings d ->
  Common.standardizeCase d hs
  = Ok (map (map (fun c => CStr (caseStandardized (orEmpty c)))) d).
Proof.
  intros H. unfold Common.standardizeCase. apply mapM_ok. intros r Hr.
  apply mapM_ok. intros c Hc.
  unfold allStrings in H. eapply Forall_forall in H; [|exact Hr].
  eapply Forall_forall in H; [|exact Hc].
  destruct c; simpl in H; try contradiction. apply standardizeCell_str.
Qed.

Lemma allStrings_sublist (d d1 : table) : d1 `sublist_of` d -> allStrings d -> allStrings d1.
Proof.
  unfold allStrings. intros Hsub H. apply Forall_forall. intros r Hr.
  eapply Forall_forall in H; [exact H|]. eapply elem_of_sublist; eassumption.
Qed.

(** X18. Duplicate removal and case standardisation commute on tables of
    strings (revision 3): standardising first and then removing duplicates
    gives the table that standardising the deduplicated table gives, with
    the same duplicate count, because lowercasing never changes a
    signature. *)
Theorem V3_removeDuplicates_standardizeCase_commute (t : list (list string))
    (hs : list string) :
  exists d1 d2,
    V3.standardizeCase (strs t) hs = Ok d1 /\
    V3.standardizeCase (V3.removeDuplicates (strs t)).1 hs = Ok d2 /\
    V3.removeDuplicates d1 = (d2, (V3.removeDuplicates (strs t)).2).
Proof.
  unfold V3.standardizeCase.
  rewrite (standardizeCase_allStrings_map (strs t) hs (strs_allStrings t)).
  rewrite (standardizeCase_allStrings_map (V3.removeDuplicates (strs t)).1 hs).
  - eexists _, _. split; [reflexivity|]. split; [reflexivity|].
    apply V3_removeDuplicates_map. apply normalizedKey_caseStandardized.
  - eapply allStrings_sublist; [|apply strs_allStrings].
    rewrite V3_removeDuplicates_rows. apply select_sublist.
Qed.

(** Empty-row removal and duplicate removal do not commute in revision 3:
    two rows can share a pipe-joined signature while only one of them has an
    empty first cell. *)
Example V3_removeEmptyRows_removeDuplicates_order :
  V3.removeDuplicates (V3.removeEmptyRows (strs [[""; "x"]; ["|x"]])).1 = (strs [["|x"]], 0) /\
  V3.removeEmptyRows (V3.removeDuplicates (strs [[""; "x"]; ["|x"]])).1 = ([], 1).
Proof. vm_compute. split; reflexivity. Qed.

(** * The switches *)

Lemma toggleOption_involutive (k : Options.key) (o : Options.t) :
  Options.toggleOption k (Options.toggleOption k o) = o.
Proof. destruct k, o as [[] [] [] []]; reflexivity. Qed.

Lemma toggled_push (k : Options.key) (ks : list Options.key) (o : Options.t) :
  toggled ks (Options.toggleOption k o) = Options.toggleOption k (toggled ks o).
Proof.
  unfold toggled. induction ks as [|k' ks IH]; [reflexivity|].
  simpl. rewrite IH. apply toggleOption_comm.
Qed.

(** X19. Clicking any series of switches and then the same series once more
    restores the options: every switch has been flipped an even number of
    times. *)
Theorem toggled_twice_restores (ks : list Options.key) (o : Options.t) :
  toggled (ks ++ ks) o = o.
Proof.
  induction ks as [|k ks IH]; [reflexivity|].
  unfold toggled in *. rewrite foldr_app in *. simpl.
  fold (toggled ks (Options.toggleOption k (foldr Options.toggleOption o ks))).
  rewrite toggled_push. unfold toggled. rewrite IH. apply toggleOption_involutive.
Qed.

(** * The preview table *)

Lemma prefix_empty (s : string) : String.prefix "" s = true.
Proof. destruct s; reflexivity. Qed.

Lemma includes_empty (s : string) : JSStr.includes "" s = true.
Proof. destruct s; simpl; [reflexivity|]. reflexivity. Qed.

Lemma filterM_decide {A : Type} (f : A -> result bool) (P : A -> Prop)
    `{!forall x, Decision (P x)} (l : list A) :
  (forall x, x ∈ l -> f x = Ok (bool_decide (P x))) ->
  filterM f l = Ok (filter P l).
Proof.
  induction l as [|x l IH]; intros Hf; [reflexivity|].
  simpl. rewrite Hf by left. unfold mbind, result_bind in *.
  rewrite IH by (intros; apply Hf; right; assumption).
  destruct (decide (P x)) as [Hx|Hx].
  - rewrite bool_decide_eq_true_2, filter_cons_True by exact Hx. reflexivity.
  - rewrite bool_decide_eq_false_2, filter_cons_False by exact Hx. reflexivity.
Qed.

Lemma filterM_ext {A : Type} (f g : A -> result bool) (l : list A) :
  (forall x, f x = g x) -> filterM f l = filterM g l.
Proof.
  intros H. induction l as [|x l IH]; [reflexivity|]. simpl. rewrite H, IH. reflexivity.
Qed.

Lemma someM_ext {A : Type} (f g : A -> result bool) (l : list A) :
  (forall x, f x = g x) -> someM f l = someM g l.
Proof.
  intros H. induction l as [|x l IH]; [reflexivity|]. simpl. rewrite H, IH. reflexivity.
Qed.

(** X20. In the preview, on a table of strings, the empty search term keeps
    exactly the rows that have at least one cell (a row without cells is
    never shown); and on any table the filter sees the search term only
    through its lowercase form. *)
Theorem DataTable_filter_empty_term (t : list (list string)) (d : table) (term : string) :
  DataTable.filteredData (strs t) "" = Ok (filter (fun r => r <> []) (strs t)) /\
  DataTable.filteredData d (JS.toLowerCase term) = DataTable.filteredData d term.
Proof.
  split.
  - unfold DataTable.filteredData. apply filterM_decide. intros r Hr.
    unfold strs in Hr. apply list_elem_of_fmap in Hr as (r0 & -> & _).
    destruct r0 as [|c r0]; [reflexivity|].
    simpl. unfold mbind, result_bind. simpl. rewrite includes_empty. reflexivity.
  - unfold DataTable.filteredData. apply filterM_ext. intros r.
    apply someM_ext. intros c. unfold DataTable.cellMatches.
    rewrite toLowerCase_idempotent. reflexivity.
Qed.

(** * File names *)

Lemma replace_absent (pattern replacement s : string) :
  JSStr.includes pattern s = false -> JSStr.replace pattern replacement s = s.
Proof.
  induction s as [|c s IH]; simpl.
  - rewrite orb_false_r. intros ->. reflexivity.
  - intros H. apply orb_false_iff in H as [-> Hs]. rewrite (IH Hs). reflexivity.
Qed.

Lemma prefix_cons (a b : ascii) (p s : string) :
  String.prefix (String a p) (String b s)
  = if ascii_dec a b then String.prefix p s else false.
Proof. reflexivity. Qed.

Lemma prefix_csv_here (post : string) : String.prefix ".csv" (".csv" +:+ post) = true.
Proof.
  change (".csv" +:+ post) with (String "." (String "c" (String "s" (String "v" post)))).
  rewrite !prefix_cons.
  repeat (destruct (ascii_dec _ _); [|congruence]). apply prefix_empty.
Qed.

Lemma prefix_csv_within (pre rest : string) :
  pre <> "" ->
  String.prefix ".csv" (pre +:+ String "." rest) = true ->
  String.prefix ".csv" pre = true.
Proof.
  intros Hne H.
  destruct pre as [|c0 pre]; [done|].
  change (String c0 pre +:+ String "." rest) with (String c0 (pre +:+ String "." rest)) in H.
  rewrite prefix_cons in H |- *.
  destruct (ascii_dec "." c0); [|discriminate].
  destruct pre as [|c1 pre]; [discriminate H|].
  change (String c1 pre +:+ String "." rest) with (String c1 (pre +:+ String "." rest)) in H.
  rewrite prefix_cons in H |- *.
  destruct (ascii_dec "c" c1); [|discriminate].
  destruct pre as [|c2 pre]; [discriminate H|].
  change (String c2 pre +:+ String "." rest) with (String c2 (pre +:+ String "." rest)) in H.
  rewrite prefix_cons in H |- *.
  destruct (ascii_dec "s" c2); [|discriminate].
  destruct pre as [|c3 pre]; [discriminate H|].
  change (String c3 pre +:+ String "." rest) with (String c3 (pre +:+ String "." rest)) in H.
  rewrite prefix_cons in H |- *.
  destruct (ascii_dec "v" c3); [apply prefix_empty|discriminate].
Qed.

(** X21. The download name replaces only the first [.csv] of the file name:
    when [.csv] does not occur in [pre], the name [pre.csv post] becomes
    [pre-cleaned.csv post], whatever follows. *)
Theorem cleanedFileName_first_occurrence (pre post : string) :
  JSStr.includes ".csv" pre = false ->
  cleanedFileName (pre +:+ ".csv" +:+ post) = pre +:+ "-cleaned.csv" +:+ post.
Proof.
  unfold cleanedFileName. induction pre as [|c pre IH].
  { intros _. change ("" +:+ ".csv" +:+ post) with (String "." ("csv" +:+ post)).
    cbn [JSStr.replace].
    change (String "." ("csv" +:+ post)) with (".csv" +:+ post).
    rewrite prefix_csv_here. reflexivity. }
  intros H. cbn [JSStr.includes] in H. apply orb_false_iff in H as [Hp Hs].
  change (String c pre +:+ ".csv" +:+ post) with (String c (pre +:+ ".csv" +:+ post)).
  cbn [JSStr.replace].
  destruct (String.prefix ".csv" (String c (pre +:+ ".csv" +:+ post))) eqn:E.
  - apply (prefix_csv_within (String c pre) ("csv" +:+ post)) in E; [congruence|discriminate].
  - rewrite (IH Hs). reflexivity.
Qed.

Lemma cleanedFileName_first_occurrence_witness :
  cleanedFileName ("report" +:+ ".csv" +:+ ".csv") = "report" +:+ "-cleaned.csv" +:+ ".csv".
Proof.
  apply (cleanedFileName_first_occurrence "report" ".csv"). reflexivity.
Defined.

(** X22. A file name without a lowercase [.csv] is downloaded under the
    unchanged name: the upload guard compares the lowercased name, the
    download handler replaces case-sensitively, so an accepted upload such
    as [DATA.CSV] is saved back as [DATA.CSV]. *)
Theorem handleDownload_keeps_name_without_csv
    (content : table -> list string -> string -> string)
    (d : table) (hs : list string) (fileName : string) :
  JSStr.includes ".csv" fileName = false -> d <> [] -> hs <> [] ->
  handleDownload content d hs fileName = Some (fileName, content d hs fileName).
Proof.
  intros Hname Hd Hhs. unfold handleDownload, cleanedFileName.
  rewrite (replace_absent _ _ _ Hname).
  rewrite !bool_decide_eq_true_2; [reflexivity| |].
  - destruct hs; [done|simpl; lia].
  - destruct d; [done|simpl; lia].
Qed.

Lemma handleDownload_keeps_name_without_csv_witness :
  acceptsFile "DATA.CSV" = true /\
  handleDownload Download.csvContentV1 (strs [["1"; "2"]]) ["a"; "b"] "DATA.CSV"
  = Some ("DATA.CSV", Download.csvContentV1 (strs [["1"; "2"]]) ["a"; "b"] "DATA.CSV").
Proof.
  split; [reflexivity|].
  apply (handleDownload_keeps_name_without_csv Download.csvContentV1
           (strs [["1"; "2"]]) ["a"; "b"] "DATA.CSV");
    [reflexivity|discriminate|discriminate].
Defined.

(** * Exact-match duplicate removal (revision 1) *)

Lemma V1_uniqueRows_spec (seen : gset string) (d : table) :
  NoDup (map Json.stringify (V1.uniqueRows seen d)) /\
  (forall r, r ∈ V1.uniqueRows seen d -> Json.stringify r ∉ seen) /\
  (forall r, r ∈ d ->
     Json.stringify r ∈ seen \/
     Json.stringify r ∈ map Json.stringify (V1.uniqueRows seen d)).
Proof.
  revert seen. induction d as [|r d IH]; intros seen; simpl.
  - split; [constructor|]. split; intros r Hr; inversion Hr.
  - destruct (decide (Json.stringify r ∈ seen)) as [Hin|Hnin].
    + destruct (IH seen) as (Hnd & Hout & Hcov). split; [exact Hnd|].
      split; [exact Hout|]. intros r' Hr'. apply elem_of_cons in Hr' as [->|Hr'];
        [left; exact Hin|apply Hcov, Hr'].
    + destruct (IH ({[Json.stringify r]} ∪ seen)) as (Hnd & Hout & Hcov).
      split; [|split].
      * simpl. constructor; [|exact Hnd]. intros Hr.
        apply list_elem_of_fmap in Hr as (r' & Heq & Hr').
        apply Hout in Hr'. apply Hr'. rewrite <- Heq.
        apply elem_of_union. left. apply elem_of_singleton. reflexivity.
      * intros r' Hr'. apply elem_of_cons in Hr' as [->|Hr']; [exact Hnin|].
        apply Hout in Hr'. intros Hs. apply Hr', elem_of_union. right. exact Hs.
      * intros r' Hr'. apply elem_of_cons in Hr' as [->|Hr'].
        -- right. simpl. left.
        -- destruct (Hcov r' Hr') as [H|H].
           ++ apply elem_of_union in H as [H|H]; [|left; exact H].
              apply elem_of_singleton in H. right. simpl. rewrite H. left.
           ++ right. simpl. right. exact H.
Qed.

Lemma V1_uniqueRows_fixed (seen : gset string) (l : table) :
  NoDup (map Json.stringify l) ->
  (forall r, r ∈ l -> Json.stringify r ∉ seen) ->
  V1.uniqueRows seen l = l.
Proof.
  revert seen. induction l as [|r l IH]; intros seen Hnd Hout; [reflexivity|].
  simpl in *. apply NoDup_cons in Hnd as [Hr Hnd].
  rewrite decide_False by (apply Hout; left). f_equal.
  apply IH; [exact Hnd|]. intros r' Hr' Hin.
  apply elem_of_union in Hin as [Hin|Hin].
  - apply elem_of_singleton in Hin. apply Hr. rewrite <- Hin.
    apply list_elem_of_fmap. eauto.
  - apply (Hout r'); [right; exact Hr'|exact Hin].
Qed.

(** X23. [removeDuplicates] of revision 1 leaves no two rows with the same
    JSON text, keeps a row for every JSON text of the input, and is
    idempotent: on its own output it returns the same table with count 0. *)
Theorem V1_removeDuplicates_exact (d : table) :
  NoDup (map Json.stringify (V1.removeDuplicates d).1) /\
  (forall r, r ∈ d ->
     Json.stringify r ∈ map Json.stringify (V1.removeDuplicates d).1) /\
  V1.removeDuplicates (V1.removeDuplicates d).1 = ((V1.removeDuplicates d).1, 0).
Proof.
  unfold V1.removeDuplicates. cbn [fst snd].
  destruct (V1_uniqueRows_spec ∅ d) as (Hnd & Hout & Hcov).
  split; [exact Hnd|]. split.
  - intros r Hr. destruct (Hcov r Hr) as [H|H]; [set_solver|exact H].
  - rewrite (V1_uniqueRows_fixed ∅ (V1.uniqueRows ∅ d) Hnd Hout).
    f_equal. lia.
Qed.

(** * Cleaning a cleaned table *)

Lemma Forall_sublist_of {A : Type} (P : A -> Prop) (l l1 : list A) :
  l1 `sublist_of` l -> Forall P l -> Forall P l1.
Proof.
  intros Hsub H. apply Forall_forall. intros x Hx.
  eapply Forall_forall in H; [exact H|]. eapply elem_of_sublist; eassumption.
Qed.

Lemma V3_removeDuplicates_sublist (d : table) : (V3.removeDuplicates d).1 `sublist_of` d.
Proof. rewrite V3_removeDuplicates_rows. apply select_sublist. Qed.

Lemma V3_removeEmptyRows_sublist (d : table) : (V3.removeEmptyRows d).1 `sublist_of` d.
Proof. unfold V3.removeEmptyRows. cbn [fst]. apply sublist_filter. Qed.

Lemma toLowerCase_empty (s : string) : JS.toLowerCase s = "" -> s = "".
Proof. destruct s; [reflexivity|discriminate]. Qed.

Lemma trim_caseStandardized_nonblank (x : string) :
  JS.trim x <> "" -> JS.trim (caseStandardized x) <> "".
Proof.
  unfold caseStandardized.
  destruct (JS.isNaN_Number x && negb (String.eqb x "")); [|auto].
  rewrite trim_toLowerCase. intros H Hl. apply H, toLowerCase_empty, Hl.
Qed.

Lemma nameColumn_trimmed (r : row) :
  V3.nameColumn (map cellTrimmed r) = JS.trim (V3.nameColumn r).
Proof. destruct r as [|[| |s] r]; reflexivity. Qed.

Lemma nameColumn_caseCell (r : row) :
  JS.trim (V3.nameColumn r) <> "" ->
  V3.nameColumn (map caseCell r) = caseStandardized (V3.nameColumn r).
Proof. destruct r as [|c r]; [intros H; exfalso; apply H; reflexivity|reflexivity]. Qed.

Lemma namedRows_trimmed (d : table) : namedRows d -> namedRows (map (map cellTrimmed) d).
Proof.
  unfold namedRows. intros H. apply Forall_forall. intros r Hr.
  apply list_elem_of_fmap in Hr as (r0 & -> & Hr0).
  eapply Forall_forall in H; [|exact Hr0].
  rewrite nameColumn_trimmed, trim_idempotent. exact H.
Qed.

Lemma namedRows_caseCell (d : table) : namedRows d -> namedRows (map (map caseCell) d).
Proof.
  unfold namedRows. intros H. apply Forall_forall. intros r Hr.
  apply list_elem_of_fmap in Hr as (r0 & -> & Hr0).
  eapply Forall_forall in H; [|exact Hr0].
  rewrite nameColumn_caseCell by exact H. apply trim_caseStandardized_nonblank, H.
Qed.

Lemma distinctRows_map (f : row -> row) (d : table) :
  (forall r, V3.normalizedKey (f r) = V3.normalizedKey r) ->
  distinctRows d -> distinctRows (map f d).
Proof.
  unfold distinctRows. intros Hf H. rewrite map_map.
  rewrite (map_ext _ V3.normalizedKey) by exact Hf. exact H.
Qed.

Lemma trimmedCells_trimmed (d : table) : trimmedCells (map (map cellTrimmed) d).
Proof.
  unfold trimmedCells. apply Forall_forall. intros r Hr.
  apply list_elem_of_fmap in Hr as (r0 & -> & _).
  apply Forall_forall. intros c Hc. apply list_elem_of_fmap in Hc as (c0 & -> & _).
  apply cellChanged_trimmed.
Qed.

Lemma cellChanged_caseCell (c : cell) : cellChanged c = false -> cellChanged (caseCell c) = false.
Proof.
  destruct c as [| |s]; try reflexivity. simpl. intros H.
  apply negb_false_iff, String.eqb_eq in H.
  apply negb_false_iff, String.eqb_eq. unfold caseStandardized.
  destruct (JS.isNaN_Number s && negb (String.eqb s "")); [|exact H].
  rewrite trim_toLowerCase, H. reflexivity.
Qed.

Lemma trimmedCells_caseCell (d : table) : trimmedCells d -> trimmedCells (map (map caseCell) d).
Proof.
  unfold trimmedCells. intros H. apply Forall_forall. intros r Hr.
  apply list_elem_of_fmap in Hr as (r0 & -> & Hr0).
  eapply Forall_forall in H; [|exact Hr0].
  apply Forall_forall. intros c Hc. apply list_elem_of_fmap in Hc as (c0 & -> & Hc0).
  eapply Forall_forall in H; [|exact Hc0]. apply cellChanged_caseCell, H.
Qed.

Lemma standardCells_caseCell (d : table) : standardCells (map (map caseCell) d).
Proof.
  unfold standardCells. apply Forall_forall. intros r Hr.
  apply list_elem_of_fmap in Hr as (r0 & -> & _).
  apply Forall_forall. intros c Hc. apply list_elem_of_fmap in Hc as (c0 & -> & _).
  unfold caseCell. rewrite standardizeCell_str, caseStandardized_idempotent. reflexivity.
Qed.

Lemma filter_Forall_id {A : Type} (P : A -> Prop) `{!forall x, Decision (P x)} (l : list A) :
  Forall P l -> filter P l = l.
Proof.
  induction 1 as [|x l Hx _ IH]; [reflexivity|].
  rewrite filter_cons_True by exact Hx. f_equal. exact IH.
Qed.

Lemma V3_removeEmptyRows_named (d : table) : namedRows (V3.removeEmptyRows d).1.
Proof.
  unfold namedRows, V3.removeEmptyRows. cbn [fst]. apply Forall_forall. intros r Hr.
  apply list_elem_of_filter in Hr as [Hr _]. exact Hr.
Qed.

Lemma removeEmptyRows_named (d : table) : namedRows d -> V3.removeEmptyRows d = (d, 0).
Proof.
  unfold namedRows, V3.removeEmptyRows. intros Hn.
  cbv zeta. rewrite filter_Forall_id by exact Hn. f_equal. lia.
Qed.

Lemma standardizeCase_standard (d : table) (hs : list string) :
  standardCells d -> Common.standardizeCase d hs = Ok d.
Proof.
  unfold standardCells, Common.standardizeCase. intros H. apply mapM_fixed.
  eapply Forall_impl; [exact H|]. intros r Hr. apply mapM_fixed, Hr.
Qed.

Lemma allStrings_trimmed (d : table) : allStrings d -> allStrings (map (map cellTrimmed) d).
Proof.
  unfold allStrings. intros H. apply Forall_forall. intros r Hr.
  apply list_elem_of_fmap in Hr as (r0 & -> & Hr0).
  eapply Forall_forall in H; [|exact Hr0].
  apply Forall_forall. intros c Hc. apply list_elem_of_fmap in Hc as (c0 & -> & Hc0).
  eapply Forall_forall in H; [|exact Hc0]. destruct c0; simpl in *; tauto.
Qed.

Lemma runTransforms_V3_form (o : Options.t) (d : table) (hs : list string) :
  runTransforms utilsV3 o d hs
  = let e := V3.removeEmptyRows d in
    let d1 := if Options.removeEmptyRows o then e.1 else d in
    let u := V3.removeDuplicates d1 in
    let d2 := if Options.removeDuplicates o then u.1 else d1 in
    let w := V3.trimWhitespace d2 in
    let d3 := if Options.trimWhitespace o then w.1 else d2 in
    match (if Options.standardizeCase o then Common.standardizeCase d3 hs else Ok d3) with
    | Ok d4 =>
        Ok (d4, {| duplicatesRemoved := if Options.removeDuplicates o then u.2 else 0;
                   whitespaceFixed := if Options.trimWhitespace o then w.2 else 0;
                   emptyRowsRemoved := if Options.removeEmptyRows o then e.2 else 0 |})
    | Throw err => Throw err
    end.
Proof.
  unfold runTransforms, mbind, result_bind.
  cbn [removeEmptyRows removeDuplicates trimWhitespace standardizeCase utilsV3].
  unfold V3.standardizeCase. cbv zeta.
  destruct (Options.removeEmptyRows o), (Options.removeDuplicates o),
           (Options.trimWhitespace o), (Options.standardizeCase o);
    cbv beta iota;
    try (destruct (V3.removeEmptyRows d) as [e1 e2]; cbn [fst snd duplicatesRemoved whitespaceFixed emptyRowsRemoved]);
    try (destruct (V3.removeDuplicates _) as [u1 u2]; cbn [fst snd duplicatesRemoved whitespaceFixed emptyRowsRemoved]);
    try (destruct (V3.trimWhitespace _) as [w1 w2]; cbn [fst snd duplicatesRemoved whitespaceFixed emptyRowsRemoved]);
    try (destruct (Common.standardizeCase _ hs) as [c1|err]);
    reflexivity.
Qed.

Lemma runTransforms_cleanedTable (o : Options.t) (d : table) (hs : list string) :
  allStrings d -> exists st, runTransforms utilsV3 o d hs = Ok (cleanedTable o d, st).
Proof.
  intros Hd. rewrite runTransforms_V3_form. unfold cleanedTable. cbv zeta.
  set (d1 := if Options.removeEmptyRows o then (V3.removeEmptyRows d).1 else d).
  assert (H1 : allStrings d1).
  { unfold d1. destruct (Options.removeEmptyRows o); [|exact Hd].
    eapply allStrings_sublist; [apply V3_removeEmptyRows_sublist|exact Hd]. }
  set (d2 := if Options.removeDuplicates o then (V3.removeDuplicates d1).1 else d1).
  assert (H2 : allStrings d2).
  { unfold d2. destruct (Options.removeDuplicates o); [|exact H1].
    eapply allStrings_sublist; [apply V3_removeDuplicates_sublist|exact H1]. }
  set (d3 := if Options.trimWhitespace o then (V3.trimWhitespace d2).1 else d2).
  assert (H3 : allStrings d3).
  { unfold d3. destruct (Options.trimWhitespace o); [|exact H2].
    rewrite V3_trimWhitespace_rows. apply allStrings_trimmed, H2. }
  rewrite (standardizeCase_allStrings_map d3 hs H3).
  destruct (Options.standardizeCase o); eexists; reflexivity.
Qed.

Lemma cleanedTable_invariants (o : Options.t) (d : table) :
  (Options.removeEmptyRows o = true -> namedRows (cleanedTable o d)) /\
  (Options.removeDuplicates o = true -> distinctRows (cleanedTable o d)) /\
  (Options.trimWhitespace o = true -> trimmedCells (cleanedTable o d)) /\
  (Options.standardizeCase o = true -> standardCells (cleanedTable o d)).
Proof.
  unfold cleanedTable.
  set (d1 := if Options.removeEmptyRows o then (V3.removeEmptyRows d).1 else d).
  set (d2 := if Options.removeDuplicates o then (V3.removeDuplicates d1).1 else d1).
  set (d3 := if Options.trimWhitespace o then (V3.trimWhitespace d2).1 else d2).
  assert (N1 : Options.removeEmptyRows o = true -> namedRows d1).
  { intros E. unfold d1. rewrite E. apply V3_removeEmptyRows_named. }
  assert (N2 : Options.removeEmptyRows o = true -> namedRows d2).
  { intros E. unfold d2. destruct (Options.removeDuplicates o); [|auto].
    eapply Forall_sublist_of; [apply V3_removeDuplicates_sublist|apply N1, E]. }
  assert (N3 : Options.removeEmptyRows o = true -> namedRows d3).
  { intros E. unfold d3. destruct (Options.trimWhitespace o); [|auto].
    rewrite V3_trimWhitespace_rows. apply namedRows_trimmed, N2, E. }
  assert (D2 : Options.removeDuplicates o = true -> distinctRows d2).
  { intros E. unfold d2. rewrite E. unfold distinctRows.
    rewrite V3_removeDuplicates_rows. apply keys_select_NoDup. }
  assert (D3 : Options.removeDuplicates o = true -> distinctRows d3).
  { intros E. unfold d3. destruct (Options.trimWhitespace o); [|auto].
    rewrite V3_trimWhitespace_rows.
    apply distinctRows_map; [apply normalizedKey_trimmed|apply D2, E]. }
  assert (T3 : Options.trimWhitespace o = true -> trimmedCells d3).
  { intros E. unfold d3. rewrite E. rewrite V3_trimWhitespace_rows.
    apply trimmedCells_trimmed. }
  destruct (Options.standardizeCase o).
  - split; [|split; [|split]]; intros E.
    + apply namedRows_caseCell, N3, E.
    + apply distinctRows_map; [apply normalizedKey_caseStandardized|apply D3, E].
    + apply trimmedCells_caseCell, T3, E.
    + apply standardCells_caseCell.
  - split; [exact N3|]. split; [exact D3|]. split; [exact T3|discriminate].
Qed.

Lemma runTransforms_noop (o : Options.t) (d : table) (hs : list string) :
  (Options.removeEmptyRows o = true -> namedRows d) ->
  (Options.removeDuplicates o = true -> distinctRows d) ->
  (Options.trimWhitespace o = true -> trimmedCells d) ->
  (Options.standardizeCase o = true -> standardCells d) ->
  runTransforms utilsV3 o d hs = Ok (d, zeroStats).
Proof.
  intros HE HD HT HS. rewrite runTransforms_V3_form. cbv zeta.
  assert (E1 : (if Options.removeEmptyRows o then (V3.removeEmptyRows d).1 else d) = d).
  { destruct (Options.removeEmptyRows o); [|reflexivity].
    rewrite (removeEmptyRows_named d (HE eq_refl)). reflexivity. }
  rewrite E1.
  assert (E2 : (if Options.removeDuplicates o then (V3.removeDuplicates d).1 else d) = d).
  { destruct (Options.removeDuplicates o); [|reflexivity].
    rewrite (V3_removeDuplicates_NoDup d (HD eq_refl)). reflexivity. }
  rewrite E2.
  assert (E3 : (if Options.trimWhitespace o then (V3.trimWhitespace d).1 else d) = d).
  { destruct (Options.trimWhitespace o); [|reflexivity].
    rewrite (trimWhitespace_unchanged d (HT eq_refl)). reflexivity. }
  rewrite E3.
  assert (E4 : (if Options.standardizeCase o then Common.standardizeCase d hs else Ok d)
               = Ok d).
  { destruct (Options.standardizeCase o); [|reflexivity].
    apply standardizeCase_standard, HS. reflexivity. }
  rewrite E4. unfold zeroStats. do 2 f_equal.
  destruct (Options.removeEmptyRows o), (Options.removeDuplicates o),
           (Options.trimWhitespace o);
    repeat match goal with
    | H : true = true -> _ |- _ => specialize (H eq_refl)
    end;
    try rewrite (removeEmptyRows_named d HE);
    try rewrite (V3_removeDuplicates_NoDup d HD);
    try rewrite (trimWhitespace_unchanged d HT); reflexivity.
Qed.

(** X24. The revision-3 pipeline is idempotent on tables: for every table
    of strings and every setting of the switches, the run returns a table,
    and running the pipeline with the same switches on that table returns it
    unchanged with all three statistics at zero. *)
Theorem V3_pipeline_idempotent (t : list (list string)) (o : Options.t)
    (hs hs' : list string) :
  exists d' st,
    runTransforms utilsV3 o (strs t) hs = Ok (d', st) /\
    runTransforms utilsV3 o d' hs' = Ok (d', zeroStats).
Proof.
  destruct (runTransforms_cleanedTable o (strs t) hs (strs_allStrings t)) as [st Hrun].
  exists (cleanedTable o (strs t)), st. split; [exact Hrun|].
  destruct (cleanedTable_invariants o (strs t)) as (HE & HD & HT & HS).
  apply runTransforms_noop; assumption.
Qed.
